(** * VNLS_press: the personalized ranking core, embedded and verified

    Sources embedded here:
    - [backend/services/recommendation_service.py] (class [RecommendationService]),
    - [backend/services/news_service.py] ([NewsService._remove_duplicates],
      [NewsService.fetch_all_news]),
    - [backend/models/ml_model.py] ([predict], [get_personalized_recommendations]),
    - [backend/models/database.py] ([get_user_category_preferences]),
    - [backend/routes/news.py] ([search_news]) and
      [backend/routes/recommendations.py] ([get_trending_recommendations],
      [get_for_you_feed], [get_similar_articles]).

    Conventions of the embedding:
    - a Python [dict] with string keys is a [gmap string _];
    - Python numbers ([int] and [float]) are exact rationals [Q]; equality of
      numbers is [Qeq], and every decimal literal of the source is the same
      decimal literal here;
    - a Python exception is the [Raise] branch of the [result] monad;
    - a Python [str] is a [string]: the bytes of its UTF-8 encoding, on
      which equality and substring search are those of the [str];
    - calls that leave the repository (the neural network, the Supabase
      queries, the clock, [datetime.fromisoformat]) are the fields of a
      [world] record, so every theorem holds for all their answers; so are
      the two methods [str.lower] and [str.strip] of the interpreter, the
      fields of a [Py.text] record: they follow the Unicode tables of the
      interpreter, and every theorem holds for whatever they compute. *)

From Stdlib Require Import QArith Qminmax Lqa ZArith Lia String Ascii Permutation Sorted.
From stdpp Require Import gmap strings list fin_maps.

Local Open Scope Q_scope.

(** ** Python values and exceptions *)

Module Py.

Inductive exn : Type :=
  | TypeError
  | KeyError
  | AttributeError
  | ValueError
  | ZeroDivisionError
  | RuntimeError.

Inductive result (A : Type) : Type :=
  | Ok (a : A)
  | Raise (e : exn).
Global Arguments Ok {A} a.
Global Arguments Raise {A} e.

Definition bind {A B} (m : result A) (k : A -> result B) : result B :=
  match m with
  | Ok a => k a
  | Raise e => Raise e
  end.

Definition is_ok {A} (m : result A) : bool :=
  match m with Ok _ => true | Raise _ => false end.

(** The values a JSON-shaped article dict holds: [None], a string, a
    number, or a flat dict of numbers (the component breakdown). *)
Inductive value : Type :=
  | VNone
  | VStr (s : string)
  | VNum (q : Q)
  | VDict (d : gmap string Q).

#[export] Instance Qeq_decision (x y : Q) : Decision (x == y) := Qeq_dec x y.

(** Python [==] on these values. *)
Definition eqb (a b : value) : bool :=
  match a, b with
  | VNone, VNone => true
  | VStr s, VStr t => bool_decide (s = t)
  | VNum p, VNum q => Qeq_bool p q
  | VDict d, VDict e =>
      bool_decide (map_relation (M:=gmap string)
                     (fun _ x y => x == y) (fun _ _ => False) (fun _ _ => False) d e)
  | _, _ => false
  end.

(** [d.get(k)] and [d.get(k, v)]. *)
Definition get (d : gmap string value) (k : string) : value :=
  default VNone (d !! k).

Definition get_or (d : gmap string value) (k : string) (v : value) : value :=
  default v (d !! k).

(** [m.get(key, dflt)] on a dict whose keys are strings, for a key that is
    any value: a dict key is unhashable, anything that is not a string is
    simply absent. *)
Definition lookup_or (m : gmap string Q) (key : value) (dflt : Q) : result Q :=
  match key with
  | VStr s => Ok (default dflt (m !! s))
  | VDict _ => Raise TypeError
  | VNone | VNum _ => Ok dflt
  end.

(** A value used as a multiplicand of a float. *)
Definition as_number (v : value) : result Q :=
  match v with
  | VNum q => Ok q
  | VNone | VStr _ | VDict _ => Raise TypeError
  end.

(** [sum(...)] over integers. *)
Definition sum (l : list Z) : Z := foldl Z.add 0%Z l.

(** [l[:k]] for an [int] k: a negative bound counts from the end. *)
Definition slice_to {A} (l : list A) (k : Z) : list A :=
  if (0 <=? k)%Z then take (Z.to_nat k) l
  else take (length l - Z.to_nat (- k)) l.

(** [datetime]: the wall-clock reading in microseconds, and the UTC offset
    of an aware value ([None] for a naive one). *)
Record datetime : Type := {
  wall : Z;
  utcoffset : option Z
}.

(** [(a - b).total_seconds()]: defined between two naive or two aware
    values, a [TypeError] between a naive and an aware one. *)
Definition sub_total_seconds (a b : datetime) : result Q :=
  match utcoffset a, utcoffset b with
  | None, None => Ok ((wall a - wall b) # 1000000)
  | Some oa, Some ob => Ok (((wall a - oa) - (wall b - ob)) # 1000000)
  | _, _ => Raise TypeError
  end.

(** [s.lower()] and [s.strip()], as the interpreter computes them. *)
Record text : Type := {
  lower : string -> string;
  strip : string -> string
}.

(** [d.hour]: the hour of the wall-clock reading. *)
Definition hour (d : datetime) : Z := ((wall d / 3600000000) mod 24)%Z.

(** [needle in hay] on strings: [needle] starts at some position of [hay]. *)
Fixpoint contains (needle hay : string) : bool :=
  String.prefix needle hay
  || match hay with
     | EmptyString => false
     | String _ rest => contains needle rest
     end.

(** [s.replace('Z', '+00:00')]. *)
Fixpoint replace_Z (s : string) : string :=
  match s with
  | EmptyString => EmptyString
  | String c r =>
      if Ascii.eqb c "Z" then ("+00:00" ++ replace_Z r)%string
      else String c (replace_Z r)
  end.

End Py.

Import Py.

Declare Scope py_scope.
Notation "'let*' x ':=' m 'in' k" := (Py.bind m (fun x => k))
  (at level 10, x name, m at level 100, k at level 200) : py_scope.
Local Open Scope py_scope.

Abbreviation article := (gmap string value).

(** ** [list.sort(key=..., reverse=True)]

    Python's sort is stable, with [reverse=True] too: elements with equal
    keys keep their relative order.  A stable insertion sort has the same
    result: an element goes in front of the first one whose key is not
    greater than its own. *)

Fixpoint insert_desc {A} (key : A -> Q) (x : A) (l : list A) : list A :=
  match l with
  | [] => [x]
  | y :: l' =>
      if Qle_bool (key y) (key x) then x :: y :: l'
      else y :: insert_desc key x l'
  end.

Definition sort_desc {A} (key : A -> Q) (l : list A) : list A :=
  foldr (insert_desc key) [] l.

(** The sort key [x.get(field, 0)] (or [x[field]]) of a dict whose [field]
    has just been written as a number by the caller. *)
Definition score_key (field : string) (x : article) : Q :=
  match x !! field with
  | Some (VNum q) => q
  | _ => 0
  end.

(** ** The collaborators outside the repository *)

(** The nested [news_articles] object of a joined interaction row; a field
    is [None] when the column is null or was not selected. *)
Record joined_article : Type := {
  ja_category : option string;
  ja_source : option string
}.

(** A row of [user_interactions]; [news_articles] is [None] when the key is
    missing or null. *)
Record interaction : Type := {
  timestamp : value;
  news_articles : option joined_article
}.

Record world : Type := {
  (** [datetime.fromisoformat]; [None] is its [ValueError]. *)
  fromisoformat : string -> option datetime;
  (** the naive reading of [datetime.utcnow()] while the loop scores its
      i-th article *)
  utcnow : nat -> Z;
  (** BERT encoding and the two heads of [MultiTaskNewsModel], on the texts
      of these articles: a (click probability, dwell score) pair per text *)
  network : list article -> result (list (Q * Q));
  (** [table("user_interactions").select("news_articles (category)")] *)
  select_interaction_categories : string -> result (list interaction);
  (** [table("user_interactions").select("*")], newest first, limited *)
  select_user_interactions : string -> result (list interaction);
  (** [table("news_articles").select("*")] of the last day, by category *)
  select_recent_news : Z -> option string -> result (list article)
}.

(** ** backend/models/database.py *)

Module SupabaseClient.

(** One step of the counting loop:
    [counts[key] = counts.get(key, 0) + 1]. *)
Definition bump (key : string) (counts : gmap string Z) : gmap string Z :=
  <[key := (default 0 (counts !! key) + 1)%Z]> counts.

(** [get_user_category_preferences]: rows whose joined article and whose
    category are truthy are counted per category; any exception of the
    query is caught and gives the empty dict. *)
Definition count_category (counts : gmap string Z) (row : interaction) : gmap string Z :=
  match news_articles row with
  | Some ja =>
      match ja_category ja with
      | Some category => if bool_decide (category = "") then counts else bump category counts
      | None => counts
      end
  | None => counts
  end.

Definition get_user_category_preferences (w : world) (user_id : string) : gmap string Z :=
  match select_interaction_categories w user_id with
  | Ok rows => foldl count_category ∅ rows
  | Raise _ => ∅
  end.

(** [get_user_interactions]: [result.data or []], and [[]] on an exception. *)
Definition get_user_interactions (w : world) (user_id : string) : list interaction :=
  match select_user_interactions w user_id with
  | Ok rows => rows
  | Raise _ => []
  end.

(** [get_recent_news]: the category filter is applied when [category] is
    truthy; [[]] on an exception. *)
Definition get_recent_news (w : world) (limit : Z) (category : option string) : list article :=
  let filter_by :=
    match category with
    | Some c => if bool_decide (c = "") then None else Some c
    | None => None
    end in
  match select_recent_news w limit filter_by with
  | Ok rows => rows
  | Raise _ => []
  end.

End SupabaseClient.

(** ** backend/models/ml_model.py *)

Module NewsRecommendationModel.

Record prediction : Type := {
  article_index : nat;
  click_probability : Q;
  dwell_score : Q;
  recommendation_score : Q
}.

(** [predict]: the combined score is computed here from the two outputs of
    the network; an exception of the network is re-raised. *)
Definition predict (w : world) (news : list article) : result (list prediction) :=
  let* outputs := network w news in
  Ok (imap (fun i '(click_prob, dwell) =>
              {| article_index := i;
                 click_probability := click_prob;
                 dwell_score := dwell;
                 recommendation_score := click_prob * 0.7 + (dwell / 10) * 0.3 |})
           outputs).

(** [{**article, 'click_probability': ..., 'dwell_score': ...,
      'recommendation_score': ...}]: a fresh dict per article. *)
Definition recommendation (pred : prediction) (a : article) : article :=
  <["recommendation_score" := VNum (recommendation_score pred)]>
    (<["dwell_score" := VNum (dwell_score pred)]>
       (<["click_probability" := VNum (click_probability pred)]> a)).

(** [get_personalized_recommendations]: [zip] stops at the shorter of the
    two lists; the result is sorted by score, best first, and cut. *)
Definition get_personalized_recommendations
    (w : world) (news_articles : list article) (top_k : Z) : result (list article) :=
  let* predictions := predict w news_articles in
  let recommendations := zip_with recommendation predictions news_articles in
  Ok (slice_to (sort_desc (score_key "recommendation_score") recommendations) top_k).

End NewsRecommendationModel.

(** ** backend/services/recommendation_service.py *)

Module RecommendationService.

(** [self.category_weights] *)
Definition category_weights : gmap string Q :=
  list_to_map
    [("technology", 1.0); ("business", 1.0); ("health", 1.0); ("science", 1.0);
     ("general", 0.8); ("sports", 0.7); ("entertainment", 0.6)].

(** The preferences of a user without category counts. *)
Definition default_category_preferences : gmap string Q :=
  list_to_map
    [("technology", 0.8); ("business", 0.7); ("general", 0.6);
     ("health", 0.5); ("science", 0.5)].

(** [dict.values()] *)
Definition values {V} (m : gmap string V) : list V := snd <$> map_to_list m.

(** [_get_user_category_preferences].  The database method catches its own
    exceptions, so the handler of this function is reached only by the
    division: it returns the empty dict. *)
Definition _get_user_category_preferences (w : world) (user_id : string) : gmap string Q :=
  let category_counts := SupabaseClient.get_user_category_preferences w user_id in
  if bool_decide (category_counts = ∅) then default_category_preferences
  else
    let total_interactions := Py.sum (values category_counts) in
    if (total_interactions =? 0)%Z then ∅
    else
      (fun count : Z => Qmin (inject_Z count / inject_Z total_interactions * 2) 1.0)
        <$> category_counts.

(** [_get_user_time_preferences]: an hour histogram; an interaction whose
    timestamp is not a string, or does not parse, is skipped by the
    [try/except: continue].  The scoring loop does not read the result. *)
Definition count_hour (w : world) (hour_counts : gmap Z Z) (i : interaction) : gmap Z Z :=
  match timestamp i with
  | VStr s =>
      match fromisoformat w (replace_Z s) with
      | Some t => <[Py.hour t := (default 0 (hour_counts !! Py.hour t) + 1)%Z]> hour_counts
      | None => hour_counts
      end
  | VNone | VNum _ | VDict _ => hour_counts
  end.

Definition _get_user_time_preferences (w : world) (interactions : list interaction)
    : gmap Z Z :=
  foldl (count_hour w) ∅ interactions.

(** [_get_user_source_preferences] *)
Definition count_source (counts : gmap string Z) (i : interaction) : gmap string Z :=
  match news_articles i with
  | Some ja =>
      match ja_source ja with
      | Some source => if bool_decide (source = "") then counts
                       else SupabaseClient.bump source counts
      | None => counts
      end
  | None => counts
  end.

Definition _get_user_source_preferences (interactions : list interaction)
    : result (gmap string Q) :=
  let source_counts := foldl count_source ∅ interactions in
  match values source_counts with
  | [] => Ok ∅
  | c :: cs =>
      let max_count := foldl Z.max c cs in
      if (max_count =? 0)%Z then Raise ZeroDivisionError
      else Ok ((fun count : Z => inject_Z count / inject_Z max_count) <$> source_counts)
  end.

(** [_calculate_category_boost] *)
Definition _calculate_category_boost
    (article_category : value) (category_preferences : gmap string Q) : result Q :=
  let* base_weight := lookup_or category_weights article_category 0.5 in
  let* user_preference := lookup_or category_preferences article_category 0.5 in
  Ok (base_weight * user_preference).

(** The age in hours of [_calculate_recency_boost]; every way it can fail
    (no [replace] on a non-string, [ValueError] of the parser, [TypeError]
    of the subtraction) is an exception. *)
Definition hours_old (w : world) (i : nat) (published_at : value) : result Q :=
  match published_at with
  | VStr s =>
      match fromisoformat w (replace_Z s) with
      | Some pub_time =>
          let now := {| wall := utcnow w i; utcoffset := None |} in
          let* seconds := sub_total_seconds now pub_time in
          Ok (seconds / 3600)
      | None => Raise ValueError
      end
  | VNone | VNum _ | VDict _ => Raise AttributeError
  end.

Definition recency_steps (hours : Q) : Q :=
  if Qle_bool hours 1 then 1.0
  else if Qle_bool hours 6 then 0.8
  else if Qle_bool hours 24 then 0.6
  else if Qle_bool hours 72 then 0.4
  else 0.2.

(** [_calculate_recency_boost]: the bare [except] turns every exception
    into 0.5. *)
Definition _calculate_recency_boost (w : world) (i : nat) (published_at : value) : Q :=
  match hours_old w i published_at with
  | Ok hours => recency_steps hours
  | Raise _ => 0.5
  end.

(** [_calculate_source_boost] *)
Definition _calculate_source_boost
    (article_source : value) (source_preferences : gmap string Q) : result Q :=
  lookup_or source_preferences article_source 0.5.

(** [sum(1 for rec in existing if rec.get(field) == wanted)] *)
Definition count_similar (field : string) (wanted : value) (existing : list article) : Z :=
  Py.sum ((fun _ => 1%Z) <$> filter (fun rec => Py.eqb (get rec field) wanted) existing).

(** [_calculate_diversity_penalty] *)
Definition _calculate_diversity_penalty
    (a : article) (existing_recommendations : list article) : Q :=
  match existing_recommendations with
  | [] => 1.0
  | _ :: _ =>
      let article_category := get_or a "category" (VStr "") in
      let article_source := get_or a "source" (VStr "") in
      let similar_category_count :=
        count_similar "category" article_category existing_recommendations in
      let similar_source_count :=
        count_similar "source" article_source existing_recommendations in
      let category_penalty := Qmax 0.5 (1.0 - (inject_Z similar_category_count * 0.1)) in
      let source_penalty := Qmax 0.5 (1.0 - (inject_Z similar_source_count * 0.15)) in
      Qmin category_penalty source_penalty
  end.

(** The weighted sum of [_apply_personalization] (its "Calculate final
    score" expression). *)
Definition final_score
    (base_score category_boost recency_boost source_boost diversity_penalty : Q) : Q :=
  base_score * 0.6 + category_boost * 0.2 + recency_boost * 0.1
  + source_boost * 0.05 + diversity_penalty * 0.05.

(** The dict stored under ['personalization_factors']. *)
Definition personalization_factors
    (base_score category_boost recency_boost source_boost diversity_penalty : Q)
    : gmap string Q :=
  list_to_map
    [("base_score", base_score); ("category_boost", category_boost);
     ("recency_boost", recency_boost); ("source_boost", source_boost);
     ("diversity_penalty", diversity_penalty)].

(** The body of the loop of [_apply_personalization] for the i-th article,
    [acc] being [personalized_recommendations] at that point. *)
Definition score_article
    (w : world) (category_preferences source_preferences : gmap string Q)
    (i : nat) (acc : list article) (a : article) : result article :=
  let base_score := get_or a "recommendation_score" (VNum 0.5) in
  let* category_boost :=
    _calculate_category_boost (get_or a "category" (VStr "general")) category_preferences in
  let recency_boost := _calculate_recency_boost w i (get a "published_at") in
  let* source_boost :=
    _calculate_source_boost (get_or a "source" (VStr "")) source_preferences in
  let diversity_penalty := _calculate_diversity_penalty a acc in
  let* base := as_number base_score in
  let score :=
    final_score base category_boost recency_boost source_boost diversity_penalty in
  Ok (<["personalization_factors" :=
          VDict (personalization_factors
                   base category_boost recency_boost source_boost diversity_penalty)]>
        (<["final_score" := VNum score]> a)).

Fixpoint personalize_loop
    (w : world) (category_preferences source_preferences : gmap string Q)
    (i : nat) (acc : list article) (todo : list article) : result (list article) :=
  match todo with
  | [] => Ok acc
  | a :: rest =>
      let* a' := score_article w category_preferences source_preferences i acc a in
      personalize_loop w category_preferences source_preferences (S i) (acc ++ [a']) rest
  end.

(** [_apply_personalization]; [user_profile] is not read by it. *)
Definition _apply_personalization
    (w : world) (user_id : string) (ml_recommendations : list article)
    (user_interactions : list interaction) : result (list article) :=
  let category_preferences := _get_user_category_preferences w user_id in
  let* source_preferences := _get_user_source_preferences user_interactions in
  personalize_loop w category_preferences source_preferences 0 [] ml_recommendations.

(** [[rec['id'] for rec in final_recommendations]] *)
Fixpoint article_ids (recs : list article) : result (list value) :=
  match recs with
  | [] => Ok []
  | rec :: rest =>
      match rec !! "id" with
      | Some v => let* ids := article_ids rest in Ok (v :: ids)
      | None => Raise KeyError
      end
  end.

(** The [try] block of [get_personalized_recommendations].  The profile
    lookup, the interaction lookup and the logging catch their own
    exceptions; the logging only reads the ids. *)
Definition try_personalized
    (w : world) (user_id : string) (articles : list article) (top_k : Z)
    : result (list article) :=
  match articles with
  | [] => Ok []
  | _ :: _ =>
      let user_interactions := SupabaseClient.get_user_interactions w user_id in
      let* ml_recommendations :=
        NewsRecommendationModel.get_personalized_recommendations
          w articles (Z.of_nat (length articles)) in
      let* personalized_recommendations :=
        _apply_personalization w user_id ml_recommendations user_interactions in
      let sorted := sort_desc (score_key "final_score") personalized_recommendations in
      let final_recommendations := slice_to sorted top_k in
      let* _ids := article_ids final_recommendations in
      Ok final_recommendations
  end.

(** [get_personalized_recommendations] *)
Definition get_personalized_recommendations
    (w : world) (user_id : string) (articles : list article) (top_k : Z) : list article :=
  match try_personalized w user_id articles top_k with
  | Ok recs => recs
  | Raise _ => slice_to articles top_k
  end.

(** [_get_source_credibility] *)
Definition credible_sources : gmap string Q :=
  list_to_map
    [("Reuters", 1.0); ("BBC", 1.0); ("Associated Press", 1.0); ("Bloomberg", 0.9);
     ("CNN", 0.8); ("TechCrunch", 0.8); ("Wired", 0.8); ("Nature", 1.0);
     ("Science Daily", 0.9)].

Definition _get_source_credibility (source : value) : result Q :=
  lookup_or credible_sources source 0.6.

(** The loop of [get_trending_recommendations]. *)
Definition trending_article (w : world) (i : nat) (a : article) : result article :=
  let recency_score := _calculate_recency_boost w i (get_or a "published_at" (VStr "")) in
  let* source_credibility := _get_source_credibility (get_or a "source" (VStr "")) in
  let* base := as_number (get_or a "recommendation_score" (VNum 0.5)) in
  let trending_score := base * 0.6 + recency_score * 0.3 + source_credibility * 0.1 in
  Ok (<["trending_score" := VNum trending_score]> a).

Fixpoint trending_loop (w : world) (i : nat) (todo : list article) : result (list article) :=
  match todo with
  | [] => Ok []
  | a :: rest =>
      let* a' := trending_article w i a in
      let* rest' := trending_loop w (S i) rest in
      Ok (a' :: rest')
  end.

Definition try_trending (w : world) (limit : Z) : result (list article) :=
  match SupabaseClient.get_recent_news w (limit * 2) None with
  | [] => Ok []
  | (_ :: _) as recent_articles =>
      let* ml_recommendations :=
        NewsRecommendationModel.get_personalized_recommendations w recent_articles limit in
      let* scored := trending_loop w 0 ml_recommendations in
      Ok (slice_to (sort_desc (score_key "trending_score") scored) limit)
  end.

(** [get_trending_recommendations] *)
Definition get_trending_recommendations (w : world) (limit : Z) : list article :=
  match try_trending w limit with
  | Ok recs => recs
  | Raise _ => []
  end.

(** [get_category_recommendations]; [user_id] is [None] or a string, and
    the empty string is falsy like [None]. *)
Definition try_category
    (w : world) (category : string) (user_id : option string) (limit : Z)
    : result (list article) :=
  match SupabaseClient.get_recent_news w (limit * 2) (Some category) with
  | [] => Ok []
  | (_ :: _) as category_articles =>
      match user_id with
      | Some u =>
          if bool_decide (u = "") then
            NewsRecommendationModel.get_personalized_recommendations w category_articles limit
          else Ok (get_personalized_recommendations w u category_articles limit)
      | None =>
          NewsRecommendationModel.get_personalized_recommendations w category_articles limit
      end
  end.

Definition get_category_recommendations
    (w : world) (category : string) (user_id : option string) (limit : Z) : list article :=
  match try_category w category user_id limit with
  | Ok recs => recs
  | Raise _ => []
  end.

End RecommendationService.

(** ** backend/services/news_service.py *)

Module NewsService.

(** [article["title"].lower().strip()]: a [KeyError] without the key, an
    [AttributeError] on a title that is not a string. *)
Definition title_lower (u : text) (a : article) : result string :=
  match a !! "title" with
  | Some (VStr title) => Ok (strip u (lower u title))
  | Some (VNone | VNum _ | VDict _) => Raise AttributeError
  | None => Raise KeyError
  end.

(** The loop of [_remove_duplicates], with its two accumulators. *)
Fixpoint remove_loop
    (u : text) (seen_titles : gset string) (unique_articles : list article)
    (todo : list article) : result (list article) :=
  match todo with
  | [] => Ok unique_articles
  | a :: rest =>
      let* t := title_lower u a in
      if bool_decide (t ∈ seen_titles) then remove_loop u seen_titles unique_articles rest
      else remove_loop u ({[t]} ∪ seen_titles) (unique_articles ++ [a]) rest
  end.

Definition _remove_duplicates (u : text) (articles : list article) : result (list article) :=
  remove_loop u ∅ [] articles.

(** The three fetchers, each called with a category and a bound; what
    [asyncio.gather(..., return_exceptions=True)] hands back for a task is
    its list, or the exception it ended with. *)
Record feeds : Type := {
  fetch_from_newsapi : string -> Z -> result (list article);
  fetch_from_gnews : string -> Z -> result (list article);
  fetch_from_rss : string -> Z -> result (list article)
}.

(** [for result in results]: a list extends [all_articles], an exception
    is logged. *)
Definition extend_with (all_articles : list article) (results : list (result (list article)))
    : list article :=
  foldl (fun all result =>
           match result with
           | Ok articles => all ++ articles
           | Raise _ => all
           end)
        all_articles results.

Definition default_categories : list string :=
  ["general"; "technology"; "business"; "health"; "science"].

(** [fetch_all_news]; [categories] is [None] or a list.  The deduplicator
    runs outside the [try] of the loop. *)
Definition fetch_all_news
    (u : text) (f : feeds) (categories : option (list string)) (max_per_source : Z)
    : result (list article) :=
  let categories := default default_categories categories in
  let all_articles :=
    foldl (fun all category =>
             extend_with all
               [fetch_from_newsapi f category max_per_source;
                fetch_from_gnews f category max_per_source;
                fetch_from_rss f category max_per_source])
          [] categories in
  _remove_duplicates u all_articles.

End NewsService.

(** ** The two string methods on plain text, for the examples

    On a string all of whose characters are below 128, [str.lower] maps the
    26 capital letters to the small ones and [str.strip] removes, at both
    ends, the characters for which [str.isspace] holds.  The theorems
    quantify over every [Py.text]; this one only runs the examples. *)

Module PlainText.

Definition lower_char (c : ascii) : ascii :=
  let n := nat_of_ascii c in
  if (65 <=? n)%nat && (n <=? 90)%nat then ascii_of_nat (n + 32) else c.

Fixpoint lower (s : string) : string :=
  match s with
  | EmptyString => EmptyString
  | String c r => String (lower_char c) (lower r)
  end.

Definition isspace (c : ascii) : bool :=
  let n := nat_of_ascii c in
  ((9 <=? n)%nat && (n <=? 13)%nat) || ((28 <=? n)%nat && (n <=? 32)%nat).

Fixpoint lstrip (s : string) : string :=
  match s with
  | EmptyString => EmptyString
  | String c r => if isspace c then lstrip r else s
  end.

Definition strip (s : string) : string :=
  String.rev (lstrip (String.rev (lstrip s))).

Definition methods : text := {| Py.lower := lower; Py.strip := strip |}.

End PlainText.

(** ** A reference parser for the timestamps of the feeds

    [datetime.fromisoformat] on the strings [datetime.isoformat()] writes
    with a precision of seconds: [YYYY-MM-DDTHH:MM:SS], then nothing (a naive
    value) or an offset [+HH:MM] or [-HH:MM] (an aware value). *)

Module Iso.

Definition digit (c : ascii) : option Z :=
  let n := nat_of_ascii c in
  if (48 <=? n)%nat && (n <=? 57)%nat then Some (Z.of_nat (n - 48)) else None.

Fixpoint digits (n : nat) (s : string) (acc : Z) : option (Z * string) :=
  match n with
  | O => Some (acc, s)
  | S n' =>
      match s with
      | String c r =>
          match digit c with
          | Some d => digits n' r (acc * 10 + d)%Z
          | None => None
          end
      | EmptyString => None
      end
  end.

Definition expect (c : ascii) (s : string) : option string :=
  match s with
  | String c' r => if Ascii.eqb c c' then Some r else None
  | EmptyString => None
  end.

Definition is_leap (y : Z) : bool :=
  ((y mod 4 =? 0) && negb (y mod 100 =? 0) || (y mod 400 =? 0))%Z.

Definition days_in_month (y m : Z) : Z :=
  if (m =? 2)%Z then (if is_leap y then 29 else 28)%Z
  else if ((m =? 4) || (m =? 6) || (m =? 9) || (m =? 11))%Z then 30%Z
  else 31%Z.

(** Days before the first of January of year [y], from year 1. *)
Definition days_before_year (y : Z) : Z :=
  let p := (y - 1)%Z in (p * 365 + p / 4 - p / 100 + p / 400)%Z.

Fixpoint days_before_month (y : Z) (m : nat) : Z :=
  match m with
  | O => 0%Z
  | S m' => (days_before_month y m' + days_in_month y (Z.of_nat m))%Z
  end.

Definition offset (s : string) : option (option Z) :=
  match s with
  | EmptyString => Some None
  | String sign r =>
      let sgn := if Ascii.eqb sign "+" then Some 1%Z
                 else if Ascii.eqb sign "-" then Some (-1)%Z else None in
      match sgn with
      | Some k =>
          '(hh, r) ← digits 2 r 0%Z;
          r ← expect ":" r;
          '(mm, r) ← digits 2 r 0%Z;
          match r with
          | EmptyString =>
              if ((hh <? 24) && (mm <? 60))%Z
              then Some (Some (k * (hh * 3600 + mm * 60) * 1000000)%Z)
              else None
          | String _ _ => None
          end
      | None => None
      end
  end.

Definition fromisoformat (s : string) : option datetime :=
  '(year, r) ← digits 4 s 0%Z;
  r ← expect "-" r;
  '(month, r) ← digits 2 r 0%Z;
  r ← expect "-" r;
  '(day, r) ← digits 2 r 0%Z;
  r ← expect "T" r;
  '(hour, r) ← digits 2 r 0%Z;
  r ← expect ":" r;
  '(minute, r) ← digits 2 r 0%Z;
  r ← expect ":" r;
  '(second, r) ← digits 2 r 0%Z;
  off ← offset r;
  if ((1 <=? year) && (1 <=? month) && (month <=? 12) && (1 <=? day)
      && (day <=? days_in_month year month)
      && (hour <? 24) && (minute <? 60) && (second <? 60))%Z
  then
    let days := (days_before_year year
                 + days_before_month year (Z.to_nat month - 1) + (day - 1))%Z in
    Some {| wall := (((days * 24 + hour) * 60 + minute) * 60 + second) * 1000000;
            utcoffset := off |}
  else None.

End Iso.

(** ** backend/routes/news.py and backend/routes/recommendations.py

    The handlers, from the point where the service singletons exist.  The
    bounds FastAPI checks on the query parameters before a handler runs
    ([ge], [le], [min_length]) are hypotheses of the theorems that need
    them. *)

Module Http.

(** What a handler ends with: the body it returns, or the [HTTPException]
    it raises. *)
Inductive response (A : Type) : Type :=
  | Respond (body : A)
  | HTTPException (status_code : Z).
Global Arguments Respond {A} body.
Global Arguments HTTPException {A} status_code.

End Http.

Import Http.

Module NewsRoutes.

Record search_body : Type := {
  search_articles : list article;
  search_total : nat;
  search_query : string;
  search_category : option string
}.

(** [article.get(field, "").lower()] *)
Definition lowered (u : text) (a : article) (field : string) : result string :=
  match get_or a field (VStr "") with
  | VStr s => Ok (lower u s)
  | VNone | VNum _ | VDict _ => Raise AttributeError
  end.

(** The test of the filter loop of [search_news]; the three fields are
    lowered before any of them is searched. *)
Definition found_in (u : text) (query_lower : string) (a : article) : result bool :=
  let* title := lowered u a "title" in
  let* content := lowered u a "content" in
  let* summary := lowered u a "summary" in
  Ok (contains query_lower title
      || contains query_lower content
      || contains query_lower summary).

Fixpoint search_loop
    (u : text) (query_lower : string) (search_results todo : list article)
    : result (list article) :=
  match todo with
  | [] => Ok search_results
  | a :: rest =>
      let* found := found_in u query_lower a in
      if found then search_loop u query_lower (search_results ++ [a]) rest
      else search_loop u query_lower search_results rest
  end.

(** [search_news] *)
Definition search_news
    (u : text) (w : world) (q : string) (limit : Z) (category : option string)
    : response search_body :=
  let articles := SupabaseClient.get_recent_news w (limit * 2) category in
  match search_loop u (lower u q) [] articles with
  | Ok search_results =>
      let search_results := slice_to search_results limit in
      Respond {| search_articles := search_results;
                 search_total := length search_results;
                 search_query := q;
                 search_category := category |}
  | Raise _ => HTTPException 500
  end.

End NewsRoutes.

Module RecommendationRoutes.

Record trending_body : Type := {
  trending : list article;
  trending_total : nat;
  trending_category : option string
}.

(** The body of the loop "Add trending metadata", on the i-th result. *)
Definition trending_metadata (i : nat) (rec : article) : article :=
  let rec := <["trending_position" := VNum (inject_Z (Z.of_nat i + 1))]> rec in
  <["trending_score" :=
      get_or rec "trending_score" (get_or rec "recommendation_score" (VNum 0))]> rec.

(** [get_trending_recommendations] of the router; a category that is the
    empty string is falsy like [None]. *)
Definition get_trending_recommendations
    (w : world) (limit : Z) (category : option string) : response trending_body :=
  let recommendations :=
    match category with
    | Some c =>
        if bool_decide (c = "") then RecommendationService.get_trending_recommendations w limit
        else RecommendationService.get_category_recommendations w c None limit
    | None => RecommendationService.get_trending_recommendations w limit
    end in
  let recommendations := imap trending_metadata recommendations in
  Respond {| trending := recommendations;
             trending_total := length recommendations;
             trending_category := category |}.

(** The two bodies of [get_for_you_feed]: the message when there is no
    article at all, and the feed. *)
Inductive feed_body : Type :=
  | NoArticles
  | Feed (feed : list article) (total : nat) (user_id : string).

Definition feed_categories : list string :=
  ["technology"; "business"; "health"; "science"; "general"].

(** The body of the loop "Add feed metadata", on the i-th result. *)
Definition feed_metadata (i : nat) (rec : article) : article :=
  <["feed_type" := VStr "personalized"]>
    (<["feed_position" := VNum (inject_Z (Z.of_nat i + 1))]> rec).

(** [get_for_you_feed] *)
Definition get_for_you_feed (w : world) (limit : Z) (user_id : string)
    : response feed_body :=
  let all_articles :=
    foldl (fun all category => all ++ SupabaseClient.get_recent_news w 30 (Some category))
          [] feed_categories in
  match all_articles with
  | [] => Respond NoArticles
  | _ :: _ =>
      let recommendations :=
        RecommendationService.get_personalized_recommendations w user_id all_articles limit in
      let recommendations := imap feed_metadata recommendations in
      Respond (Feed recommendations (length recommendations) user_id)
  end.




End RecommendationRoutes.

(** ** The loop of [_apply_personalization] on a store

    The loop writes into the dicts of its input list, and the accepted list
    holds the same objects.  Here a dict is an address of a store; the
    theorems on the loop are stated on [RecommendationService.personalize_loop],
    which passes dicts by value, and [personalize_loop_refines] shows
    that the two agree on a list of distinct objects, as the list the model
    wrapper builds is ([{**article, ...}] is a new dict for every article). *)

Module Store.

Abbreviation store := (gmap nat article).

(** The dicts at the addresses [ls]. *)
Definition deref (h : store) (ls : list nat) : list article :=
  (fun l => default ∅ (h !! l)) <$> ls.

Fixpoint personalize_loop
    (w : world) (category_preferences source_preferences : gmap string Q)
    (i : nat) (acc todo : list nat) (h : store) : result (list nat * store) :=
  match todo with
  | [] => Ok (acc, h)
  | l :: rest =>
      let* a' := RecommendationService.score_article
                   w category_preferences source_preferences i
                   (deref h acc) (default ∅ (h !! l)) in
      personalize_loop w category_preferences source_preferences
        (S i) (acc ++ [l]) rest (<[l := a']> h)
  end.

End Store.

(** ** Notions the statements use *)

(** A value that can be a dict key. *)
Definition hashable (v : value) : bool :=
  match v with
  | VDict _ => false
  | VNone | VStr _ | VNum _ => true
  end.

(** An article the scoring loop can score: its base score, if it has one,
    is a number, and its category and source are hashable. *)
Definition scorable (a : article) : bool :=
  Py.is_ok (as_number (get_or a "recommendation_score" (VNum 0.5)))
  && hashable (get_or a "category" (VStr "general"))
  && hashable (get_or a "source" (VStr "")).

(** A candidate the personalized ranker can rank: it has an id, and its
    category and source are hashable. *)
Definition rankable (a : article) : bool :=
  bool_decide (is_Some (a !! "id"))
  && hashable (get_or a "category" (VStr "general"))
  && hashable (get_or a "source" (VStr "")).

(** The keys the scoring loop writes. *)
Definition annotation (k : string) : bool :=
  bool_decide (k = "final_score") || bool_decide (k = "personalization_factors").

(** Whether an accepted result shares a field (category or source) with the
    article being scored, and how many accepted results do. *)
Definition shares (field : string) (a rec : article) : bool :=
  Py.eqb (get rec field) (get_or a field (VStr "")).

Definition repeats (field : string) (a : article) (accepted : list article) : nat :=
  length (filter (fun rec => shares field a rec) accepted).


(** Every count of a counting dict is at least one. *)
Definition positive_counts (counts : gmap string Z) : Prop :=
  map_Forall (fun _ n => (1 <= n)%Z) counts.

(** [sorted] is the stable descending sort of [l] by [key]: the same
    elements, keys in descending order, and the elements of each key in
    their order in [l]. *)
Definition stable_sort_desc_of {A} (key : A -> Q) (l sorted : list A) : Prop :=
  sorted ≡ₚ l
  /\ StronglySorted (fun x y => key y <= key x) sorted
  /\ forall q : Q, filter (fun x => key x == q) sorted = filter (fun x => key x == q) l.


(** The list is in descending order of the final scores its articles
    carry. *)
Definition descending_final_scores (l : list article) : Prop :=
  forall (i j : nat) (x y : article) (qx qy : Q),
    (i < j)%nat -> l !! i = Some x -> l !! j = Some y ->
    x !! "final_score" = Some (VNum qx) -> y !! "final_score" = Some (VNum qy) ->
    qy <= qx.

(** The article carries the final score [q]. *)
Definition scored_at (q : Q) (a : article) : bool :=
  match a !! "final_score" with
  | Some (VNum q') => Qeq_bool q' q
  | Some (VNone | VStr _ | VDict _) | None => false
  end.

(** Every affinity of a preference dict lies in (0, 1]. *)
Definition unit_interval (m : gmap string Q) : Prop :=
  map_Forall (fun _ q => 0 < q <= 1) m.

(** A candidate article has a title, a string. *)
Definition titled (a : article) : bool :=
  match a !! "title" with
  | Some (VStr _) => true
  | Some (VNone | VNum _ | VDict _) | None => false
  end.

(** The normalized title of a candidate: its title, lower-cased, then
    trimmed. *)
Definition normalized_title (u : text) (a : article) : string :=
  match a !! "title" with
  | Some (VStr title) => strip u (lower u title)
  | Some (VNone | VNum _ | VDict _) | None => ""
  end.

(** Going through [todo] once, the articles whose normalized title is
    neither in [seen] nor that of an earlier article of [todo]. *)
Fixpoint kept (u : text) (seen : gset string) (todo : list article) : list article :=
  match todo with
  | [] => []
  | a :: rest =>
      if bool_decide (normalized_title u a ∈ seen) then kept u seen rest
      else a :: kept u ({[normalized_title u a]} ∪ seen) rest
  end.

(** The category of the article an interaction row is joined with. *)
Definition category_of (row : interaction) : option string :=
  news_articles row ≫= ja_category.

(** The row is counted under the category [c]. *)
Definition counted_under (c : string) (row : interaction) : bool :=
  match category_of row with
  | Some category => negb (bool_decide (category = "")) && bool_decide (category = c)
  | None => false
  end.

(** The row is counted under some category. *)
Definition counted (row : interaction) : bool :=
  match category_of row with
  | Some category => negb (bool_decide (category = ""))
  | None => false
  end.

(** The source of the article an interaction row is joined with, and
    whether the row is counted under the source [s]. *)
Definition source_of (row : interaction) : option string :=
  news_articles row ≫= ja_source.

Definition sourced_under (s : string) (row : interaction) : bool :=
  match source_of row with
  | Some source => negb (bool_decide (source = "")) && bool_decide (source = s)
  | None => false
  end.

(** How many rows are counted under the source [s]. *)
Definition reads_of (s : string) (rows : list interaction) : Z :=
  Z.of_nat (length (filter (sourced_under s) rows)).

(** The hour at which an interaction was logged, when its timestamp is a
    string that parses, and whether that hour is [h]. *)
Definition hour_of (w : world) (i : interaction) : option Z :=
  match timestamp i with
  | VStr s => Py.hour <$> fromisoformat w (replace_Z s)
  | VNone | VNum _ | VDict _ => None
  end.

Definition logged_at_hour (w : world) (h : Z) (i : interaction) : bool :=
  match hour_of w i with
  | Some h' => bool_decide (h' = h)
  | None => false
  end.

(** The hours of a day. *)
Definition hours_of_day : list Z := seqZ 0 24.

(** What a fetching task contributes: its list, or nothing when it ended
    with an exception; and the articles gathered over the categories, in the
    order in which [fetch_all_news] collects them. *)
Definition answered (r : result (list article)) : list article :=
  match r with
  | Ok articles => articles
  | Raise _ => []
  end.

Definition gathered (f : NewsService.feeds) (categories : list string) (max_per_source : Z)
    : list article :=
  categories ≫= fun category =>
    answered (NewsService.fetch_from_newsapi f category max_per_source)
    ++ answered (NewsService.fetch_from_gnews f category max_per_source)
    ++ answered (NewsService.fetch_from_rss f category max_per_source).

(** [q] occurs in [s]: Python's [q in s] on strings. *)
Definition occurs (q s : string) : Prop := exists pre post, s = pre +:+ q +:+ post.

(** An article the search can read: its title, content and summary, where
    present, are strings. *)
Definition text_or_missing (a : article) (field : string) : bool :=
  match a !! field with
  | Some (VStr _) | None => true
  | Some (VNone | VNum _ | VDict _) => false
  end.

Definition searchable (a : article) : bool :=
  text_or_missing a "title" && text_or_missing a "content" && text_or_missing a "summary".

(** The text of a field, lower-cased; a missing field reads as the empty
    string. *)
Definition lowered_text (u : text) (a : article) (field : string) : string :=
  match a !! field with
  | Some (VStr s) => lower u s
  | Some (VNone | VNum _ | VDict _) | None => lower u ""
  end.

(** The lower-cased query is found in the lower-cased title, content or
    summary of the article: as a test, and as a statement. *)
Definition hit (u : text) (q : string) (a : article) : bool :=
  contains (lower u q) (lowered_text u a "title")
  || contains (lower u q) (lowered_text u a "content")
  || contains (lower u q) (lowered_text u a "summary").

Definition matches (u : text) (q : string) (a : article) : Prop :=
  exists field : string,
    field ∈ ["title"; "content"; "summary"] /\ occurs (lower u q) (lowered_text u a field).

(** ** Concrete articles and worlds *)

Module Example.

Definition news (id title category source published_at : string) : article :=
  list_to_map
    [("id", VStr id); ("title", VStr title); ("category", VStr category);
     ("source", VStr source); ("published_at", VStr published_at)].

Definition chips : article :=
  news "a1" "Chips get faster" "technology" "Wired" "2024-01-01T11:30:00".
Definition phones : article :=
  news "a2" "Phones get thinner" "technology" "Wired" "2024-01-01T06:00:00".
Definition markets : article :=
  news "a3" "Markets rally" "business" "Reuters" "2023-12-31T06:00:00".
Definition markets_again : article :=
  news "a4" "  MARKETS Rally " "business" "Bloomberg" "2023-12-28T08:00:00".
Definition wire : article :=
  news "a5" "Rates hold" "business" "Reuters" "2024-01-01T11:30:00Z".

Definition candidates : list article := [chips; phones; markets].

(** An article with a base score; [phones] has none. *)
Definition scored_chips : article := <["recommendation_score" := VNum 0.9]> chips.

(** 2024-01-01T12:00:00, in microseconds. *)
Definition noon : Z := 63839707200000000.

(** One interaction row joined with a technology article of Wired. *)
Definition read_wired : interaction :=
  {| timestamp := VStr "2023-12-31T09:00:00";
     news_articles := Some {| ja_category := Some "technology"; ja_source := Some "Wired" |} |}.
Definition read_reuters : interaction :=
  {| timestamp := VStr "2023-12-31T10:00:00";
     news_articles := Some {| ja_category := Some "business"; ja_source := Some "Reuters" |} |}.

(** A new user, every query answered; the outputs of the network make the
    combined score of the i-th text 0.9 - i/10. *)
Definition calm : world :=
  {| fromisoformat := Iso.fromisoformat;
     utcnow := fun _ => noon;
     network := fun texts =>
       Ok (imap (fun i _ => ((9 - inject_Z (Z.of_nat i)) / 10 / 0.7, 0)) texts);
     select_interaction_categories := fun _ => Ok [];
     select_user_interactions := fun _ => Ok [];
     select_recent_news := fun _ _ => Ok candidates |}.

(** The same world for a user with three interactions. *)
Definition regular : world :=
  {| fromisoformat := Iso.fromisoformat;
     utcnow := fun _ => noon;
     network := network calm;
     select_interaction_categories := fun _ => Ok [read_wired; read_wired; read_reuters];
     select_user_interactions := fun _ => Ok [read_wired; read_wired; read_reuters];
     select_recent_news := fun _ _ => Ok candidates |}.

(** The model collaborator raises. *)
Definition down : world :=
  {| fromisoformat := Iso.fromisoformat;
     utcnow := fun _ => noon;
     network := fun _ => Raise RuntimeError;
     select_interaction_categories := fun _ => Ok [];
     select_user_interactions := fun _ => Ok [];
     select_recent_news := fun _ _ => Ok candidates |}.

(** The model collaborator returns no scores. *)
Definition silent : world :=
  {| fromisoformat := Iso.fromisoformat;
     utcnow := fun _ => noon;
     network := fun _ => Ok [];
     select_interaction_categories := fun _ => Ok [];
     select_user_interactions := fun _ => Ok [];
     select_recent_news := fun _ _ => Ok candidates |}.

(** The dwell head of the network, a linear layer, answers -300. *)
Definition gloomy : world :=
  {| fromisoformat := Iso.fromisoformat;
     utcnow := fun _ => noon;
     network := fun texts => Ok ((fun _ => (0.5, -300)) <$> texts);
     select_interaction_categories := fun _ => Ok [];
     select_user_interactions := fun _ => Ok [];
     select_recent_news := fun _ _ => Ok candidates |}.

(** The network scores every text alike, so the order of the model's
    output is the order of its input. *)
Definition level : world :=
  {| fromisoformat := Iso.fromisoformat;
     utcnow := fun _ => noon;
     network := fun texts => Ok ((fun _ => (0.5, 0)) <$> texts);
     select_interaction_categories := fun _ => Ok [];
     select_user_interactions := fun _ => Ok [];
     select_recent_news := fun _ _ => Ok candidates |}.

(** The candidates, oldest first. *)
Definition oldest_first : list article := [markets; phones; chips].

(** The network fails on a batch of three texts or more. *)
Definition flaky : world :=
  {| fromisoformat := Iso.fromisoformat;
     utcnow := fun _ => noon;
     network := fun texts =>
       if (3 <=? length texts)%nat then Raise RuntimeError else network calm texts;
     select_interaction_categories := fun _ => Ok [];
     select_user_interactions := fun _ => Ok [];
     select_recent_news := fun _ _ => Ok candidates |}.

(** A user with a single interaction. *)
Definition newcomer : world :=
  {| fromisoformat := Iso.fromisoformat;
     utcnow := fun _ => noon;
     network := network calm;
     select_interaction_categories := fun _ => Ok [read_wired];
     select_user_interactions := fun _ => Ok [read_wired];
     select_recent_news := fun _ _ => Ok candidates |}.

(** The interaction query fails. *)
Definition offline : world :=
  {| fromisoformat := Iso.fromisoformat;
     utcnow := fun _ => noon;
     network := network calm;
     select_interaction_categories := fun _ => Raise RuntimeError;
     select_user_interactions := fun _ => Raise RuntimeError;
     select_recent_news := fun _ _ => Ok candidates |}.

(** The candidates as the model of [calm] returns them. *)
Definition recommended : list article :=
  match NewsRecommendationModel.get_personalized_recommendations calm candidates 3 with
  | Ok ml => ml
  | Raise _ => []
  end.

(** [scored_chips] as the scoring loop annotates it for a new user. *)
Definition annotated_chips : list article :=
  match RecommendationService._apply_personalization calm "u" [scored_chips] [] with
  | Ok out => out
  | Raise _ => []
  end.

(** The component breakdown written into an annotated article, in the
    order base score, category boost, recency boost, source boost, diversity
    penalty, and its final score. *)
Definition breakdown_of (a : article) : list (option Q) :=
  match a !! "personalization_factors" with
  | Some (VDict factors) =>
      (fun k => Qred <$> factors !! k)
        <$> ["base_score"; "category_boost"; "recency_boost"; "source_boost";
             "diversity_penalty"]
  | _ => []
  end.

Definition final_score_of (a : article) : option Q :=
  match a !! "final_score" with
  | Some (VNum q) => Some (Qred q)
  | _ => None
  end.

(** A store with one dict, and a list that holds it twice. *)
Definition shelf : gmap nat article := <[0%nat := scored_chips]> ∅.
Definition twice : list nat := [0%nat; 0%nat].

(** The diversity penalty written into an annotated article. *)
Definition penalty_of (a : article) : option Q :=
  match a !! "personalization_factors" with
  | Some (VDict factors) => Qred <$> factors !! "diversity_penalty"
  | _ => None
  end.

(** Candidates with a repeated title. *)
Definition fetched : list article := [chips; markets; markets_again; chips; wire].

(** Feeds: NewsAPI answers for business, GNews fails, and the RSS feeds
    repeat a title of NewsAPI. *)
Definition wires : NewsService.feeds :=
  {| NewsService.fetch_from_newsapi := fun category _ =>
       if bool_decide (category = "business") then Ok [markets] else Ok [];
     NewsService.fetch_from_gnews := fun _ _ => Raise RuntimeError;
     NewsService.fetch_from_rss := fun category _ =>
       if bool_decide (category = "business") then Ok [markets_again; wire]
       else if bool_decide (category = "technology") then Ok [chips]
       else Ok [] |}.

End Example.

(** * Properties *)

Import RecommendationService.

(** A [let*] that returned: name what it bound, drop the raising branch. *)
Ltac bind_ok H x :=
  match type of H with
  | context [Py.bind ?m _] =>
      let E := fresh "E" x in
      destruct m as [x|] eqn:E; simpl in H; [|discriminate H]
  end.

Create HintDb counts.

Section Counting.

Lemma bump_positive key counts :
  positive_counts counts -> positive_counts (SupabaseClient.bump key counts).
Proof.
  intros H k n. unfold SupabaseClient.bump.
  destruct (decide (key = k)) as [->|Hne].
  - rewrite lookup_insert_eq. intros [= <-].
    destruct (counts !! k) as [m|] eqn:E; simpl; [|lia].
    specialize (H k m E). simpl in H. lia.
  - rewrite lookup_insert_ne by done. apply H.
Qed.

Lemma count_category_positive counts row :
  positive_counts counts -> positive_counts (SupabaseClient.count_category counts row).
Proof.
  intros H. unfold SupabaseClient.count_category.
  destruct (news_articles row) as [ja|]; [|done].
  destruct (ja_category ja) as [c|]; [|done].
  case_bool_decide; [done|]. by apply bump_positive.
Qed.

Lemma count_source_positive counts i :
  positive_counts counts -> positive_counts (count_source counts i).
Proof.
  intros H. unfold count_source.
  destruct (news_articles i) as [ja|]; [|done].
  destruct (ja_source ja) as [c|]; [|done].
  case_bool_decide; [done|]. by apply bump_positive.
Qed.

Lemma foldl_positive {A} (f : gmap string Z -> A -> gmap string Z) rows counts :
  (forall m x, positive_counts m -> positive_counts (f m x)) ->
  positive_counts counts -> positive_counts (foldl f counts rows).
Proof.
  intros Hf. revert counts. induction rows as [|r rows IH]; intros counts H; simpl; auto.
Qed.

Lemma empty_positive : positive_counts ∅.
Proof. apply map_Forall_empty. Qed.


Lemma category_counts_positive w user_id :
  positive_counts (SupabaseClient.get_user_category_preferences w user_id).
Proof.
  unfold SupabaseClient.get_user_category_preferences.
  destruct (select_interaction_categories w user_id);
    [apply foldl_positive|]; auto using count_category_positive, empty_positive.
Qed.

Lemma values_elem {V} (m : gmap string V) (v : V) :
  v ∈ values m <-> exists k, m !! k = Some v.
Proof.
  unfold values. rewrite list_elem_of_fmap. split.
  - intros [[k v'] [-> H]]. exists k. by apply elem_of_map_to_list.
  - intros [k H]. exists (k, v). split; [done|]. by apply elem_of_map_to_list.
Qed.

Lemma values_nil {V} (m : gmap string V) : values m = [] <-> m = ∅.
Proof.
  unfold values. split.
  - intros H. apply fmap_nil_inv in H. by apply map_to_list_empty_iff.
  - intros ->. by rewrite map_to_list_empty.
Qed.

Lemma foldl_add_ge (l : list Z) (z : Z) :
  Forall (fun n => (1 <= n)%Z) l -> (z + Z.of_nat (length l) <= foldl Z.add z l)%Z.
Proof.
  intros H. revert z. induction H as [|n l Hn _ IH]; intros z; simpl; [lia|].
  specialize (IH (z + n)%Z). lia.
Qed.

Lemma sum_positive (counts : gmap string Z) :
  positive_counts counts -> counts <> ∅ -> (1 <= Py.sum (values counts))%Z.
Proof.
  intros Hpos Hne.
  assert (Hall : Forall (fun n => (1 <= n)%Z) (values counts)).
  { apply Forall_forall. intros n Hn. apply values_elem in Hn as [k Hk]. exact (Hpos k n Hk). }
  pose proof (foldl_add_ge _ 0%Z Hall) as Hge. unfold Py.sum.
  destruct (values counts) as [|v vs] eqn:E.
  - apply values_nil in E. contradiction.
  - simpl in *. lia.
Qed.

Lemma foldl_max_ge (l : list Z) (z : Z) : (z <= foldl Z.max z l)%Z.
Proof.
  revert z. induction l as [|n l IH]; intros z; simpl; [lia|].
  specialize (IH (Z.max z n)). lia.
Qed.

Lemma foldl_max_elem (l : list Z) (z n : Z) : n ∈ l -> (n <= foldl Z.max z l)%Z.
Proof.
  revert z. induction l as [|m l IH]; intros z Hn; simpl.
  - by apply elem_of_nil in Hn.
  - apply elem_of_cons in Hn as [->|Hn].
    + pose proof (foldl_max_ge l (Z.max z m)). lia.
    + by apply IH.
Qed.

End Counting.

#[local] Hint Resolve bump_positive count_category_positive count_source_positive
  empty_positive category_counts_positive : counts.
#[local] Hint Extern 1 (positive_counts (foldl _ _ _)) => apply foldl_positive : counts.

Section Profiles.

Lemma inject_Z_pos (n : Z) : (1 <= n)%Z -> 0 < inject_Z n.
Proof. intros H. change 0 with (inject_Z 0). rewrite <- Zlt_Qlt. lia. Qed.

Lemma Qdiv_pos (a b : Q) : 0 < a -> 0 < b -> 0 < a / b.
Proof. intros Ha Hb. apply Qlt_shift_div_l; [done|]. lra. Qed.

Lemma source_preferences_ok (interactions : list interaction) :
  exists sp, _get_user_source_preferences interactions = Ok sp
             /\ unit_interval sp.
Proof.
  unfold _get_user_source_preferences.
  set (counts := foldl count_source ∅ interactions).
  assert (Hpos : positive_counts counts) by (unfold counts; auto with counts).
  destruct (values counts) as [|c cs] eqn:E.
  - exists ∅. split; [done | apply map_Forall_empty].
  - set (max_count := foldl Z.max c cs).
    assert (Hc : (1 <= c)%Z).
    { assert (c ∈ values counts) as Hin by (rewrite E; left).
      apply values_elem in Hin as [k Hk]. exact (Hpos k c Hk). }
    assert (Hmax : (1 <= max_count)%Z).
    { pose proof (foldl_max_ge cs c). unfold max_count. lia. }
    destruct (max_count =? 0)%Z eqn:Ez; [lia|].
    eexists. split; [reflexivity|].
    intros k q. rewrite lookup_fmap. destruct (counts !! k) as [n|] eqn:En; [|done].
    simpl. intros [= <-].
    assert (Hn : (1 <= n)%Z) by exact (Hpos k n En).
    assert (Hle : (n <= max_count)%Z).
    { assert (n ∈ values counts) as Hin by (apply values_elem; eauto).
      rewrite E in Hin. apply elem_of_cons in Hin as [->|Hin].
      - apply foldl_max_ge.
      - by apply foldl_max_elem. }
    split.
    + apply Qdiv_pos; by apply inject_Z_pos.
    + apply Qle_shift_div_r; [by apply inject_Z_pos|].
      rewrite Qmult_1_l. by rewrite <- Zle_Qle.
Qed.

Lemma default_category_preferences_positive :
  unit_interval default_category_preferences.
Proof.
  apply map_Forall_to_list.
  assert (E : map_to_list default_category_preferences
              ≡ₚ [("technology", 0.8); ("business", 0.7); ("general", 0.6);
                  ("health", 0.5); ("science", 0.5)]).
  { apply map_to_list_to_map. apply (bool_decide_unpack _). by vm_compute. }
  rewrite E. repeat (constructor; [simpl; lra|]). constructor.
Qed.

Lemma category_preferences_positive w user_id :
  unit_interval (_get_user_category_preferences w user_id).
Proof.
  unfold _get_user_category_preferences.
  pose proof (category_counts_positive w user_id) as Hpos.
  set (counts := SupabaseClient.get_user_category_preferences w user_id) in *.
  case_bool_decide as Hempty; [apply default_category_preferences_positive|].
  pose proof (sum_positive counts Hpos Hempty) as Htot.
  destruct (Py.sum (values counts) =? 0)%Z eqn:Ez; [lia|].
  intros k q. rewrite lookup_fmap. destruct (counts !! k) as [n|] eqn:En; [|done].
  simpl. intros [= <-].
  assert (Hn : (1 <= n)%Z) by exact (Hpos k n En).
  assert (0 < inject_Z n / inject_Z (Py.sum (values counts)) * 2).
  { assert (0 < inject_Z n / inject_Z (Py.sum (values counts)))
      by (apply Qdiv_pos; by apply inject_Z_pos). lra. }
  destruct (Q.min_spec (inject_Z n / inject_Z (Py.sum (values counts)) * 2) 1.0) as [[? E]|[? E]];
    rewrite E; split; lra.
Qed.

End Profiles.

Section Sorting.
Context {A : Type} (key : A -> Q).

Lemma insert_desc_perm (x : A) (l : list A) : insert_desc key x l ≡ₚ x :: l.
Proof.
  induction l as [|y l IH]; simpl; [done|].
  destruct (Qle_bool (key y) (key x)); [done|].
  rewrite IH. apply Permutation_swap.
Qed.

Lemma sort_desc_perm (l : list A) : sort_desc key l ≡ₚ l.
Proof.
  induction l as [|x l IH]; simpl; [done|].
  rewrite insert_desc_perm. by rewrite IH.
Qed.

Lemma insert_desc_sorted (x : A) (l : list A) :
  StronglySorted (fun a b => key b <= key a) l ->
  StronglySorted (fun a b => key b <= key a) (insert_desc key x l).
Proof.
  induction 1 as [|y l Hl IH Hy]; simpl.
  - repeat constructor.
  - destruct (Qle_bool (key y) (key x)) eqn:E.
    + apply Qle_bool_iff in E. constructor; [by constructor|].
      constructor; [done|]. eapply Forall_impl; [exact Hy|].
      simpl. intros z Hz. lra.
    + assert (key x < key y).
      { apply Qnot_le_lt. intros Hle. apply Qle_bool_iff in Hle. congruence. }
      constructor; [done|].
      rewrite insert_desc_perm. constructor; [lra | done].
Qed.

Lemma sort_desc_sorted (l : list A) :
  StronglySorted (fun a b => key b <= key a) (sort_desc key l).
Proof.
  induction l as [|x l IH]; simpl; [constructor|]. by apply insert_desc_sorted.
Qed.

Lemma insert_desc_filter (q : Q) (x : A) (l : list A) :
  filter (fun a => key a == q) (insert_desc key x l)
  = filter (fun a => key a == q) (x :: l).
Proof.
  induction l as [|y l IH]; simpl; [done|].
  destruct (Qle_bool (key y) (key x)) eqn:E; [done|].
  assert (key x < key y).
  { apply Qnot_le_lt. intros Hle. apply Qle_bool_iff in Hle. congruence. }
  rewrite filter_cons, IH, !filter_cons.
  destruct (decide (key y == q)) as [Hy|Hy], (decide (key x == q)) as [Hx|Hx];
    try done.
  rewrite Hx, <- Hy in *. lra.
Qed.

Lemma sort_desc_filter (q : Q) (l : list A) :
  filter (fun a => key a == q) (sort_desc key l) = filter (fun a => key a == q) l.
Proof.
  induction l as [|x l IH]; simpl; [done|].
  rewrite insert_desc_filter, !filter_cons. by rewrite IH.
Qed.

Lemma sort_desc_stable (l : list A) : stable_sort_desc_of key l (sort_desc key l).
Proof.
  split; [apply sort_desc_perm|]. split; [apply sort_desc_sorted|].
  intros q. apply sort_desc_filter.
Qed.

End Sorting.

Section ScoringLoop.
Import RecommendationService.
Context (w : world) (cp sp : gmap string Q).

Lemma lookup_or_ok (m : gmap string Q) (key : value) (dflt : Q) :
  hashable key = true -> exists q, lookup_or m key dflt = Ok q.
Proof. destruct key; simpl; intros H; try discriminate; eauto. Qed.

Lemma lookup_or_hashable (m : gmap string Q) (key : value) (dflt q : Q) :
  lookup_or m key dflt = Ok q -> hashable key = true.
Proof. by destruct key. Qed.

(** What [score_article] returns, when it returns. *)
Lemma score_article_inv (i : nat) (acc : list article) (a a' : article) :
  score_article w cp sp i acc a = Ok a' ->
  exists base cb sb,
    as_number (get_or a "recommendation_score" (VNum 0.5)) = Ok base
    /\ _calculate_category_boost (get_or a "category" (VStr "general")) cp = Ok cb
    /\ _calculate_source_boost (get_or a "source" (VStr "")) sp = Ok sb
    /\ a' = <["personalization_factors" :=
               VDict (personalization_factors base cb
                        (_calculate_recency_boost w i (get a "published_at")) sb
                        (_calculate_diversity_penalty a acc))]>
             (<["final_score" :=
                 VNum (final_score base cb
                         (_calculate_recency_boost w i (get a "published_at")) sb
                         (_calculate_diversity_penalty a acc))]> a).
Proof.
  unfold score_article. intros H.
  bind_ok H cb. bind_ok H sb. bind_ok H base.
  injection H as <-. by exists base, cb, sb.
Qed.

(** It returns exactly on the scorable articles. *)
Lemma score_article_ok (i : nat) (acc : list article) (a : article) :
  Py.is_ok (score_article w cp sp i acc a) = scorable a.
Proof.
  unfold score_article, scorable, _calculate_category_boost, _calculate_source_boost.
  destruct (get_or a "category" (VStr "general")) as [|c|c|c];
    destruct (get_or a "source" (VStr "")) as [|s|s|s];
    destruct (get_or a "recommendation_score" (VNum 0.5)) as [|r|r|r]; reflexivity.
Qed.

Lemma personalize_loop_inv (todo : list article) :
  forall (i : nat) (acc out : list article),
    personalize_loop w cp sp i acc todo = Ok out ->
    exists scored,
      out = acc ++ scored
      /\ length scored = length todo
      /\ forall (j : nat) (a : article),
           todo !! j = Some a ->
           exists a', scored !! j = Some a'
                      /\ score_article w cp sp (i + j) (acc ++ take j scored) a = Ok a'.
Proof.
  induction todo as [|a rest IH]; intros i acc out H; simpl in H.
  - injection H as <-. exists []. rewrite app_nil_r. repeat split; [].
    intros j b Hj. by rewrite lookup_nil in Hj.
  - destruct (score_article w cp sp i acc a) as [a'|] eqn:Ea; [|discriminate].
    simpl in H. apply IH in H as (scored & -> & Hlen & Hscored).
    exists (a' :: scored). split; [by rewrite <- app_assoc|].
    split; [simpl; by rewrite Hlen|].
    intros [|j] b Hj; simpl in Hj.
    + injection Hj as <-. exists a'. split; [done|].
      by rewrite Nat.add_0_r, take_0, app_nil_r.
    + apply Hscored in Hj as (b' & Hb' & Hs). exists b'. split; [done|].
      simpl. rewrite <- app_assoc in Hs. simpl in Hs.
      by rewrite Nat.add_succ_r.
Qed.

Lemma personalize_loop_ok (todo : list article) :
  forall (i : nat) (acc : list article),
    Forall (fun a => scorable a = true) todo ->
    exists out, personalize_loop w cp sp i acc todo = Ok out.
Proof.
  induction todo as [|a rest IH]; intros i acc H; simpl; [eauto|].
  inversion H as [|? ? Ha Hrest]; subst.
  pose proof (score_article_ok i acc a) as Hok. rewrite Ha in Hok.
  destruct (score_article w cp sp i acc a) as [a'|]; [|discriminate]. simpl.
  by apply IH.
Qed.

End ScoringLoop.

Section Personalization.
Import RecommendationService.
Context (w : world) (user_id : string).

Lemma apply_personalization_inv
    (recs : list article) (interactions : list interaction) (out : list article) :
  _apply_personalization w user_id recs interactions = Ok out ->
  exists sp,
    _get_user_source_preferences interactions = Ok sp
    /\ length out = length recs
    /\ forall (i : nat) (a : article),
         recs !! i = Some a ->
         exists a', out !! i = Some a'
                    /\ score_article w (_get_user_category_preferences w user_id) sp
                         i (take i out) a = Ok a'.
Proof.
  unfold _apply_personalization. intros H. bind_ok H sp.
  apply personalize_loop_inv in H as (scored & -> & Hlen & Hscored).
  exists sp. by repeat split.
Qed.

Lemma apply_personalization_ok (recs : list article) (interactions : list interaction) :
  Forall (fun a => scorable a = true) recs ->
  exists out, _apply_personalization w user_id recs interactions = Ok out.
Proof.
  intros H. unfold _apply_personalization.
  destruct (source_preferences_ok interactions) as (sp & -> & _). simpl.
  by apply personalize_loop_ok.
Qed.

End Personalization.

Lemma as_number_missing (a : article) (base : Q) :
  as_number (get_or a "recommendation_score" (VNum 0.5)) = Ok base ->
  a !! "recommendation_score" = None -> base = 0.5.
Proof. unfold get_or. intros H E. rewrite E in H. simpl in H. by injection H. Qed.

(** C1: every article the scoring loop is given comes out with
    [final_score = base*0.6 + category_boost*0.2 + recency_boost*0.1
    + source_boost*0.05 + diversity_penalty*0.05]; the base is the
    article's own score, or 0.5 when it has none, and no article is left out
    for having none. *)
Theorem final_score_of_every_article
    (w : world) (user_id : string) (recs : list article) (interactions : list interaction) :
  Forall (fun a => scorable a = true) recs ->
  exists out sp,
    RecommendationService._apply_personalization w user_id recs interactions = Ok out
    /\ RecommendationService._get_user_source_preferences interactions = Ok sp
    /\ length out = length recs
    /\ forall (i : nat) (a : article),
         recs !! i = Some a ->
         exists a' base category_boost source_boost,
           out !! i = Some a'
           /\ as_number (get_or a "recommendation_score" (VNum 0.5)) = Ok base
           /\ (a !! "recommendation_score" = None -> base = 0.5)
           /\ RecommendationService._calculate_category_boost
                (get_or a "category" (VStr "general"))
                (RecommendationService._get_user_category_preferences w user_id)
              = Ok category_boost
           /\ RecommendationService._calculate_source_boost
                (get_or a "source" (VStr "")) sp = Ok source_boost
           /\ a' !! "final_score"
              = Some (VNum (base * 0.6 + category_boost * 0.2
                            + RecommendationService._calculate_recency_boost
                                w i (get a "published_at") * 0.1
                            + source_boost * 0.05
                            + RecommendationService._calculate_diversity_penalty
                                a (take i out) * 0.05)).
Proof.
  intros Hrecs.
  destruct (apply_personalization_ok w user_id recs interactions Hrecs) as [out Hout].
  destruct (apply_personalization_inv w user_id recs interactions out Hout)
    as (sp & Hsp & Hlen & Hall).
  exists out, sp. repeat split; try done.
  intros i a Hi. destruct (Hall i a Hi) as (a' & Ha' & Hscore).
  apply score_article_inv in Hscore as (base & cb & sb & Hb & Hcb & Hsb & ->).
  eexists _, base, cb, sb. repeat split; try done.
  - by apply as_number_missing.
  - rewrite lookup_insert_ne by done. by rewrite lookup_insert_eq.
Qed.
Import RecommendationService.

Lemma foldl_add_ones {A} (l : list A) (z : Z) :
  foldl Z.add z ((fun _ => 1%Z) <$> l) = (z + Z.of_nat (length l))%Z.
Proof.
  revert z. induction l as [|x l IH]; intros z; simpl.
  - lia.
  - rewrite IH. lia.
Qed.

Lemma sum_ones {A} (l : list A) : Py.sum ((fun _ => 1%Z) <$> l) = Z.of_nat (length l).
Proof. unfold Py.sum. rewrite foldl_add_ones. lia. Qed.

Lemma count_similar_repeats field a accepted :
  count_similar field (get_or a field (VStr "")) accepted = Z.of_nat (repeats field a accepted).
Proof. unfold count_similar, repeats, shares. apply sum_ones. Qed.

Lemma floor_half_bounds (n : Z) (step : Q) :
  (0 <= n)%Z -> 0 <= step -> 0.5 <= Qmax 0.5 (1.0 - inject_Z n * step) <= 1.0.
Proof.
  intros Hn Hs.
  assert (0 <= inject_Z n * step).
  { apply Qmult_le_0_compat; [|done]. change 0 with (inject_Z 0). rewrite <- Zle_Qle. done. }
  destruct (Q.max_spec 0.5 (1.0 - inject_Z n * step)) as [[? E]|[? E]];
    rewrite E; lra.
Qed.

Lemma diversity_penalty_cons (a first : article) (others : list article) :
  _calculate_diversity_penalty a (first :: others)
  = Qmin (Qmax 0.5 (1.0 - inject_Z (Z.of_nat (repeats "category" a (first :: others))) * 0.1))
         (Qmax 0.5 (1.0 - inject_Z (Z.of_nat (repeats "source" a (first :: others))) * 0.15)).
Proof. rewrite <- !count_similar_repeats. reflexivity. Qed.

Lemma diversity_penalty_bounds (a : article) (accepted : list article) :
  0.5 <= _calculate_diversity_penalty a accepted <= 1.0.
Proof.
  destruct accepted as [|first others]; [simpl; lra|].
  rewrite diversity_penalty_cons.
  set (c := Z.of_nat (repeats "category" a (first :: others))).
  set (s := Z.of_nat (repeats "source" a (first :: others))).
  pose proof (floor_half_bounds c 0.1) as Hc.
  pose proof (floor_half_bounds s 0.15) as Hs.
  destruct (Q.min_spec (Qmax 0.5 (1.0 - inject_Z c * 0.1))
                       (Qmax 0.5 (1.0 - inject_Z s * 0.15))) as [[_ E]|[_ E]];
    rewrite E; [apply Hc | apply Hs]; first [lia | lra].
Qed.

(** C2: the diversity penalty is 1.0 against an empty prefix; against a
    non-empty one it is [min(max(0.5, 1.0 - 0.1*c), max(0.5, 1.0 - 0.15*s))]
    for the numbers c and s of accepted results that share the category and
    the source of the article; it always lies between 0.5 and 1.0. *)
Theorem diversity_penalty_formula (a : article) :
  _calculate_diversity_penalty a [] = 1.0
  /\ (forall (first : article) (others : list article),
        let accepted := first :: others in
        let c := inject_Z (Z.of_nat (repeats "category" a accepted)) in
        let s := inject_Z (Z.of_nat (repeats "source" a accepted)) in
        _calculate_diversity_penalty a accepted
        == Qmin (Qmax 0.5 (1.0 - 0.1 * c)) (Qmax 0.5 (1.0 - 0.15 * s)))
  /\ (forall accepted : list article,
        0.5 <= _calculate_diversity_penalty a accepted <= 1.0).
Proof.
  split; [reflexivity|]. split.
  - intros first others accepted c s. subst accepted c s.
    rewrite diversity_penalty_cons.
    apply Q.min_compat; apply Q.max_compat; try reflexivity; ring.
  - apply diversity_penalty_bounds.
Qed.

Section Annotations.
Import RecommendationService.

Lemma annotation_false (k : string) :
  annotation k = false <-> k <> "final_score" /\ k <> "personalization_factors".
Proof.
  unfold annotation. rewrite orb_false_iff, !bool_decide_eq_false. tauto.
Qed.

(** The two writes of the loop body leave every other key alone. *)
Lemma annotate_frame (a : article) (score : Q) (factors : gmap string Q) (k : string) :
  annotation k = false ->
  (<["personalization_factors" := VDict factors]> (<["final_score" := VNum score]> a)) !! k
  = a !! k.
Proof.
  intros [H1 H2]%annotation_false. by rewrite !lookup_insert_ne.
Qed.

Lemma personalization_factors_dom (b c r s d : Q) :
  dom (personalization_factors b c r s d)
  = list_to_set ["base_score"; "category_boost"; "recency_boost"; "source_boost";
                 "diversity_penalty"].
Proof. unfold personalization_factors. by rewrite dom_list_to_map_L. Qed.

Lemma personalization_factors_lookup (b c r s d : Q) :
  let f := personalization_factors b c r s d in
  f !! "base_score" = Some b /\ f !! "category_boost" = Some c
  /\ f !! "recency_boost" = Some r /\ f !! "source_boost" = Some s
  /\ f !! "diversity_penalty" = Some d.
Proof. by repeat split. Qed.

End Annotations.

(** C10: the personalization pass returns one entry per input
    recommendation, in the input order; the entry is the input article with
    ['final_score'] and ['personalization_factors'] written, and every other
    field as it was.  The breakdown has exactly the five components, each
    with the value the pass computed for this article (the base score of the
    article, or 0.5; its category, recency and source boosts; its diversity
    penalty against the entries before it), and the final score is their
    weighted sum. *)
Theorem personalization_only_annotates
    (w : world) (user_id : string) (recs : list article) (interactions : list interaction) :
  Forall (fun a => scorable a = true) recs ->
  exists out sp,
    RecommendationService._apply_personalization w user_id recs interactions = Ok out
    /\ RecommendationService._get_user_source_preferences interactions = Ok sp
    /\ length out = length recs
    /\ forall (i : nat) (a : article),
         recs !! i = Some a ->
         exists (a' : article) (score : Q) (factors : gmap string Q) (base cb rb sb dp : Q),
           out !! i = Some a'
           /\ (forall k : string, annotation k = false -> a' !! k = a !! k)
           /\ a' !! "final_score" = Some (VNum score)
           /\ a' !! "personalization_factors" = Some (VDict factors)
           /\ dom factors
              = list_to_set ["base_score"; "category_boost"; "recency_boost";
                             "source_boost"; "diversity_penalty"]
           /\ factors !! "base_score" = Some base
           /\ factors !! "category_boost" = Some cb
           /\ factors !! "recency_boost" = Some rb
           /\ factors !! "source_boost" = Some sb
           /\ factors !! "diversity_penalty" = Some dp
           /\ get_or a "recommendation_score" (VNum 0.5) = VNum base
           /\ RecommendationService._calculate_category_boost
                (get_or a "category" (VStr "general"))
                (RecommendationService._get_user_category_preferences w user_id) = Ok cb
           /\ rb = RecommendationService._calculate_recency_boost w i (get a "published_at")
           /\ RecommendationService._calculate_source_boost
                (get_or a "source" (VStr "")) sp = Ok sb
           /\ dp = RecommendationService._calculate_diversity_penalty a (take i out)
           /\ score = base * 0.6 + cb * 0.2 + rb * 0.1 + sb * 0.05 + dp * 0.05.
Proof.
  intros Hrecs.
  destruct (apply_personalization_ok w user_id recs interactions Hrecs) as [out Hout].
  destruct (apply_personalization_inv w user_id recs interactions out Hout)
    as (sp & Hsp & Hlen & Hall).
  exists out, sp. repeat split; try done.
  intros i a Hi. destruct (Hall i a Hi) as (a' & Ha' & Hscore).
  apply score_article_inv in Hscore as (base & cb & sb & Hb & Hcb & Hsb & ->).
  eexists _, _, _, base, cb, _, sb, _. split; [exact Ha'|].
  split; [intros k Hk; by apply annotate_frame|].
  split; [rewrite lookup_insert_ne by done; by rewrite lookup_insert_eq|].
  split; [by rewrite lookup_insert_eq|].
  split; [apply personalization_factors_dom|].
  do 5 (split; [reflexivity|]).
  split; [by destruct (get_or a "recommendation_score" (VNum 0.5)); try discriminate;
          injection Hb as ->|].
  by repeat split.
Qed.


Section Bounds.
Import RecommendationService.

Lemma category_weights_unit : unit_interval category_weights.
Proof.
  apply map_Forall_to_list.
  assert (E : map_to_list category_weights
              ≡ₚ [("technology", 1.0); ("business", 1.0); ("health", 1.0);
                  ("science", 1.0); ("general", 0.8); ("sports", 0.7);
                  ("entertainment", 0.6)]).
  { apply map_to_list_to_map. apply (bool_decide_unpack _). by vm_compute. }
  rewrite E. repeat (constructor; [simpl; lra|]). constructor.
Qed.

Lemma lookup_or_unit (m : gmap string Q) (key : value) (dflt q : Q) :
  unit_interval m -> 0 < dflt <= 1 -> lookup_or m key dflt = Ok q -> 0 < q <= 1.
Proof.
  intros Hm Hd. destruct key as [|s|n|d]; simpl; intros [= <-]; try done.
  destruct (m !! s) as [x|] eqn:E; simpl; [exact (Hm s x E) | done].
Qed.

Lemma category_boost_unit (category : value) (cp : gmap string Q) (cb : Q) :
  unit_interval cp -> _calculate_category_boost category cp = Ok cb -> 0 < cb <= 1.
Proof.
  intros Hcp. unfold _calculate_category_boost.
  destruct (lookup_or category_weights category 0.5) as [bw|] eqn:Ebw; [|discriminate].
  destruct (lookup_or cp category 0.5) as [up|] eqn:Eup; [|discriminate].
  simpl. intros [= <-].
  apply lookup_or_unit in Ebw; [|apply category_weights_unit|lra].
  apply lookup_or_unit in Eup; [|done|lra].
  split; nra.
Qed.

Lemma recency_steps_values (hours : Q) :
  recency_steps hours ∈ [1.0; 0.8; 0.6; 0.4; 0.2].
Proof.
  unfold recency_steps.
  repeat (match goal with |- context [Qle_bool ?a ?b] => destruct (Qle_bool a b) end);
    set_solver.
Qed.

Lemma recency_boost_unit (w : world) (i : nat) (published_at : value) :
  0 < _calculate_recency_boost w i published_at <= 1.
Proof.
  unfold _calculate_recency_boost.
  destruct (hours_old w i published_at) as [hours|]; [|lra].
  pose proof (recency_steps_values hours) as H.
  repeat (apply elem_of_cons in H as [->|H]; [lra|]). by apply elem_of_nil in H.
Qed.

Lemma final_score_linear (b c r s d : Q) :
  final_score b c r s d == 0.6 * b + 0.2 * c + 0.1 * r + 0.05 * s + 0.05 * d.
Proof. unfold final_score. ring. Qed.

End Bounds.

(** C9, amended: an article whose base relevance score is not negative
    gets a final score that is not negative; the final score is the
    combination of the base score and the four components with the weights
    0.6, 0.2, 0.1, 0.05 and 0.05, and these sum to 1. *)
Theorem final_score_nonnegative
    (w : world) (user_id : string) (recs : list article) (interactions : list interaction)
    (out : list article) (i : nat) (a a' : article) (base : Q) :
  RecommendationService._apply_personalization w user_id recs interactions = Ok out ->
  recs !! i = Some a ->
  out !! i = Some a' ->
  as_number (get_or a "recommendation_score" (VNum 0.5)) = Ok base ->
  0 <= base ->
  0 <= score_key "final_score" a'
  /\ (forall b c r s d : Q,
        RecommendationService.final_score b c r s d
        == 0.6 * b + 0.2 * c + 0.1 * r + 0.05 * s + 0.05 * d)
  /\ 0.6 + 0.2 + 0.1 + 0.05 + 0.05 == 1.0.
Proof.
  intros Hout Hi Ho Hb Hbase.
  split; [|split; [apply final_score_linear | reflexivity]].
  destruct (apply_personalization_inv w user_id recs interactions out Hout)
    as (sp & Hsp & _ & Hall).
  destruct (Hall i a Hi) as (a'' & Ha'' & Hscore).
  rewrite Ho in Ha''. injection Ha'' as <-.
  apply score_article_inv in Hscore as (base' & cb & sb & Hb' & Hcb & Hsb & ->).
  rewrite Hb in Hb'. injection Hb' as <-.
  unfold score_key. rewrite lookup_insert_ne by done. rewrite lookup_insert_eq.
  apply category_boost_unit in Hcb; [|apply category_preferences_positive].
  destruct (source_preferences_ok interactions) as (sp' & Hsp' & Hunit).
  rewrite Hsp in Hsp'. injection Hsp' as <-.
  apply lookup_or_unit in Hsb; [|done|lra].
  pose proof (recency_boost_unit w i (get a "published_at")).
  pose proof (diversity_penalty_bounds a (take i out)).
  unfold RecommendationService.final_score. lra.
Qed.

(** C9 as stated fails: the dwell head of the network is a linear layer, and
    with a dwell score of -300 the base score is 0.5*0.7 - 30*0.3 = -8.65 and
    the final score of the only candidate is negative. *)
Lemma final_score_negative :
  let ranked :=
    RecommendationService.get_personalized_recommendations
      Example.gloomy "u" [Example.chips] 20 in
  length ranked = 1%nat
  /\ Forall (fun a' => score_key "recommendation_score" a' == -8.65
                       /\ score_key "final_score" a' < 0) ranked.
Proof.
  vm_compute. split; [reflexivity|]. repeat constructor.
Qed.

Section Deduplicator.
Import NewsService.
Context (u : text).

(** On a titled article the normalizer of the code returns the normalized
    title. *)
Lemma titled_title (a : article) :
  titled a = true -> title_lower u a = Ok (normalized_title u a).
Proof.
  unfold titled, normalized_title, title_lower.
  by destruct (a !! "title") as [[| | |]|].
Qed.

Lemma remove_loop_kept (todo : list article) :
  forall (seen : gset string) (unique : list article),
    Forall (fun a => titled a = true) todo ->
    remove_loop u seen unique todo = Ok (unique ++ kept u seen todo).
Proof.
  induction todo as [|a rest IH]; intros seen unique H; simpl.
  - by rewrite app_nil_r.
  - inversion H as [|? ? Ha Hrest]; subst.
    rewrite (titled_title a Ha). simpl.
    case_bool_decide.
    + by apply IH.
    + rewrite IH by done. by rewrite <- app_assoc.
Qed.

Lemma kept_sublist (todo : list article) :
  forall seen : gset string, kept u seen todo `sublist_of` todo.
Proof.
  induction todo as [|a rest IH]; intros seen; simpl; [done|].
  case_bool_decide; [apply sublist_cons | apply sublist_skip]; apply IH.
Qed.

(** Of each normalized title the loop keeps nothing when the title was
    seen before, and the first article that carries it otherwise. *)
Lemma kept_first (todo : list article) :
  forall (seen : gset string) (t : string),
    filter (fun a => normalized_title u a = t) (kept u seen todo)
    = if bool_decide (t ∈ seen) then []
      else take 1 (filter (fun a => normalized_title u a = t) todo).
Proof.
  induction todo as [|a rest IH]; intros seen t; simpl.
  - by case_bool_decide.
  - rewrite (filter_cons _ a rest).
    destruct (bool_decide (normalized_title u a ∈ seen)) eqn:Eseen.
    + apply bool_decide_eq_true in Eseen. rewrite IH.
      case_bool_decide as Ht; [done|].
      destruct (decide (normalized_title u a = t)) as [<-|]; [contradiction|done].
    + apply bool_decide_eq_false in Eseen. rewrite filter_cons, IH.
      destruct (decide (normalized_title u a = t)) as [<-|Hne].
      * rewrite bool_decide_eq_true_2 by (by apply elem_of_union_l, elem_of_singleton).
        by rewrite bool_decide_eq_false_2 by done.
      * by rewrite (bool_decide_ext (t ∈ {[normalized_title u a]} ∪ seen) (t ∈ seen))
          by (rewrite elem_of_union, elem_of_singleton; intuition congruence).
Qed.

Lemma at_most_one_NoDup (l : list article) :
  (forall t, (length (filter (fun a => normalized_title u a = t) l) <= 1)%nat) ->
  NoDup (normalized_title u <$> l).
Proof.
  induction l as [|a l IH]; intros H; simpl; [constructor|].
  constructor.
  - intros Hin. apply list_elem_of_fmap in Hin as (b & Hb & Hin).
    specialize (H (normalized_title u a)). rewrite filter_cons in H.
    rewrite decide_True in H by done. simpl in H.
    assert (Hb' : b ∈ filter (fun x => normalized_title u x = normalized_title u a) l)
      by (apply list_elem_of_filter; split; done).
    destruct (filter _ l); [by apply elem_of_nil in Hb' | simpl in H; lia].
  - apply IH. intros t. specialize (H t). rewrite filter_cons in H.
    destruct (decide (normalized_title u a = t)); simpl in H; lia.
Qed.

(** Without a title the lookup [article["title"]] raises. *)
Lemma remove_duplicates_untitled :
  _remove_duplicates u [<["id" := VStr "a9"]> ∅] = Raise KeyError.
Proof. reflexivity. Qed.

End Deduplicator.

Lemma normalized_title_example :
  normalized_title PlainText.methods Example.markets_again = "markets rally"
  /\ normalized_title PlainText.methods Example.markets = "markets rally".
Proof. split; reflexivity. Qed.

(** C6: on candidate articles (each has a title, a string) the deduplicator
    raises nothing; its result is a subsequence of the input in which no two
    articles have the same normalized title (the title lower-cased, then
    trimmed, by the interpreter's [str.lower] and [str.strip]) and which
    holds, of every normalized title, the first article of the input with
    that title and no other; the empty input gives the empty result. *)
Theorem remove_duplicates_first_occurrences (u : text) (articles : list article) :
  Forall (fun a => titled a = true) articles ->
  exists unique,
    NewsService._remove_duplicates u articles = Ok unique
    /\ unique `sublist_of` articles
    /\ NoDup (normalized_title u <$> unique)
    /\ (forall t : string,
          filter (fun a => normalized_title u a = t) unique
          = take 1 (filter (fun a => normalized_title u a = t) articles))
    /\ (forall (a : article) (title : string),
          a ∈ articles -> a !! "title" = Some (VStr title) ->
          exists b title',
            b ∈ unique /\ b !! "title" = Some (VStr title')
            /\ strip u (lower u title') = strip u (lower u title))
    /\ (articles = [] -> unique = []).
Proof.
  intros H. exists (kept u ∅ articles).
  split; [exact (remove_loop_kept u articles ∅ [] H)|].
  split; [apply kept_sublist|].
  assert (Hfirst : forall t, filter (fun a => normalized_title u a = t) (kept u ∅ articles)
                             = take 1 (filter (fun a => normalized_title u a = t) articles)).
  { intros t. rewrite kept_first. by rewrite bool_decide_eq_false_2 by apply not_elem_of_empty. }
  split; [|split; [exact Hfirst | split; [|by intros ->]]].
  - apply at_most_one_NoDup. intros t. rewrite Hfirst, length_take. lia.
  - intros a title Ha Htitle.
    assert (Hin : a ∈ filter (fun x => normalized_title u x = normalized_title u a) articles)
      by (by apply list_elem_of_filter).
    specialize (Hfirst (normalized_title u a)).
    destruct (filter (fun x => normalized_title u x = normalized_title u a) articles)
      as [|b l] eqn:E; [by apply elem_of_nil in Hin|].
    simpl in Hfirst. rewrite take_0 in Hfirst.
    assert (Hb : b ∈ filter (fun x => normalized_title u x = normalized_title u a)
                        (kept u ∅ articles)) by (rewrite Hfirst; left).
    apply list_elem_of_filter in Hb as [Hsame Hb].
    assert (Hb' : titled b = true).
    { eapply Forall_forall in H; [exact H|].
      eapply elem_of_submseteq; [exact Hb | apply sublist_submseteq, kept_sublist]. }
    unfold titled in Hb'. unfold normalized_title in Hsame. rewrite Htitle in Hsame.
    destruct (b !! "title") as [[|title'| |]|] eqn:Eb; try discriminate.
    by exists b, title'.
Qed.

Section ProfileBuilder.
Import RecommendationService.

Lemma query_error_no_counts (w : world) (user_id : string) :
  Py.is_ok (select_interaction_categories w user_id) = false ->
  SupabaseClient.get_user_category_preferences w user_id = ∅.
Proof.
  unfold SupabaseClient.get_user_category_preferences.
  by destruct (select_interaction_categories w user_id).
Qed.

Lemma no_history_no_counts (w : world) (user_id : string) :
  select_interaction_categories w user_id = Ok [] ->
  SupabaseClient.get_user_category_preferences w user_id = ∅.
Proof. unfold SupabaseClient.get_user_category_preferences. by intros ->. Qed.

Lemma no_counts_default (w : world) (user_id : string) :
  SupabaseClient.get_user_category_preferences w user_id = ∅ ->
  _get_user_category_preferences w user_id = default_category_preferences.
Proof.
  intros H. unfold _get_user_category_preferences. by rewrite H, bool_decide_eq_true_2.
Qed.

Lemma counts_affinity (w : world) (user_id : string) :
  let counts := SupabaseClient.get_user_category_preferences w user_id in
  counts <> ∅ ->
  _get_user_category_preferences w user_id
  = (fun count : Z => Qmin (inject_Z count / inject_Z (Py.sum (values counts)) * 2) 1.0)
      <$> counts.
Proof.
  intros counts Hne. unfold _get_user_category_preferences. fold counts.
  rewrite bool_decide_eq_false_2 by done.
  pose proof (sum_positive counts (category_counts_positive w user_id) Hne).
  by destruct (Py.sum (values counts) =? 0)%Z eqn:E; [lia|].
Qed.

(** Twice the share of attention, capped: the affinity is exactly 1.0 from
    half of the interactions on. *)
Lemma affinity_saturates (count total : Z) :
  (0 < total)%Z ->
  (Qmin (inject_Z count / inject_Z total * 2) 1.0 == 1.0 <-> (total <= 2 * count)%Z).
Proof.
  intros Htotal.
  assert (Ht : 0 < inject_Z total) by (apply inject_Z_pos; lia).
  assert (Hy : inject_Z total * (inject_Z count / inject_Z total) == inject_Z count)
    by (field; lra).
  set (y := inject_Z count / inject_Z total) in *.
  assert (Hshare : 1 <= y * 2 <-> (total <= 2 * count)%Z).
  { rewrite Zle_Qle, inject_Z_mult, <- Hy. change (inject_Z 2) with 2. split; intros H; nra. }
  rewrite <- Hshare.
  destruct (Q.min_spec (y * 2) 1.0) as [[Hlt E]|[Hle E]]; rewrite E; split; intros; lra.
Qed.

End ProfileBuilder.

(** C5: when the interaction query fails, or the history gives no category
    counts, the profile builder returns the cold-start profile (technology
    0.8, business 0.7, general 0.6, health 0.5, science 0.5) and nothing is
    raised; the category boost of a technology article is then
    1.0 * 0.8 = 0.8. *)
Theorem cold_start_profile (w : world) (user_id : string) :
  Py.is_ok (select_interaction_categories w user_id) = false
  \/ SupabaseClient.get_user_category_preferences w user_id = ∅ ->
  let profile := RecommendationService._get_user_category_preferences w user_id in
  profile = RecommendationService.default_category_preferences
  /\ profile !! "technology" = Some 0.8
  /\ profile !! "business" = Some 0.7
  /\ profile !! "general" = Some 0.6
  /\ profile !! "health" = Some 0.5
  /\ profile !! "science" = Some 0.5
  /\ dom profile = list_to_set ["technology"; "business"; "general"; "health"; "science"]
  /\ RecommendationService._calculate_category_boost (VStr "technology") profile
     = Ok (1.0 * 0.8)
  /\ 1.0 * 0.8 == 0.8.
Proof.
  intros H profile.
  assert (E : profile = RecommendationService.default_category_preferences).
  { apply no_counts_default. destruct H as [H|H]; [by apply query_error_no_counts | done]. }
  rewrite E. repeat split; reflexivity.
Qed.

(** C7, amended: when the history gives category counts, the affinity of
    every observed category is [min(count / total * 2, 1.0)], [total] being
    the sum of all the counts (which is positive); no other category gets an
    affinity.  The affinity is exactly 1.0 as soon as the category has at
    least half of the counted interactions, and below 1.0 otherwise; in
    particular every affinity is 1.0 after a single counted interaction. *)
Theorem category_affinity (w : world) (user_id : string) :
  let counts := SupabaseClient.get_user_category_preferences w user_id in
  let total := Py.sum (RecommendationService.values counts) in
  let profile := RecommendationService._get_user_category_preferences w user_id in
  counts <> ∅ ->
  (0 < total)%Z
  /\ (forall (category : string) (count : Z),
        counts !! category = Some count ->
        profile !! category = Some (Qmin (inject_Z count / inject_Z total * 2) 1.0))
  /\ (forall category : string, counts !! category = None -> profile !! category = None)
  /\ (forall (category : string) (count : Z) (affinity : Q),
        counts !! category = Some count ->
        profile !! category = Some affinity ->
        (affinity == 1 <-> (total <= 2 * count)%Z)
        /\ (affinity < 1 <-> (2 * count < total)%Z)
        /\ ((2 * count < total)%Z -> affinity == inject_Z (2 * count) / inject_Z total))
  /\ (total = 1%Z ->
      forall (category : string) (affinity : Q),
        profile !! category = Some affinity -> affinity == 1).
Proof.
  intros counts total profile Hne.
  pose proof (category_counts_positive w user_id) as Hpos. fold counts in Hpos.
  pose proof (sum_positive counts Hpos Hne) as Htotal.
  fold total in Htotal. split; [lia|].
  assert (Hprofile : profile
            = (fun count : Z => Qmin (inject_Z count / inject_Z total * 2) 1.0) <$> counts).
  { unfold profile. by rewrite counts_affinity by done. }
  assert (Hsat : forall category count affinity,
            counts !! category = Some count ->
            profile !! category = Some affinity ->
            (affinity == 1 <-> (total <= 2 * count)%Z)
            /\ (affinity < 1 <-> (2 * count < total)%Z)
            /\ ((2 * count < total)%Z -> affinity == inject_Z (2 * count) / inject_Z total)).
  { intros category count affinity Hc Ha.
    rewrite Hprofile, lookup_fmap, Hc in Ha. simpl in Ha. injection Ha as <-.
    pose proof (affinity_saturates count total ltac:(lia)) as Hiff.
    assert (Ht : 0 < inject_Z total) by (apply inject_Z_pos; lia).
    assert (Hle : Qmin (inject_Z count / inject_Z total * 2) 1.0 <= 1).
    { pose proof (Q.le_min_r (inject_Z count / inject_Z total * 2) 1.0). lra. }
    assert (H1 : Qmin (inject_Z count / inject_Z total * 2) 1.0 == 1 <-> (total <= 2 * count)%Z).
    { rewrite <- Hiff. split; intros H; rewrite H; reflexivity. }
    split; [exact H1|]. split.
    - split.
      + intros Hlt. destruct (Z_lt_le_dec (2 * count) total) as [?|Hge]; [done|].
        apply H1 in Hge. lra.
      + intros Hlt. destruct (Qlt_le_dec (Qmin (inject_Z count / inject_Z total * 2) 1.0) 1)
          as [?|Hge]; [done|].
        assert (E : Qmin (inject_Z count / inject_Z total * 2) 1.0 == 1) by lra.
        apply H1 in E. lia.
    - intros Hlt.
      assert (Hnot : ~ Qmin (inject_Z count / inject_Z total * 2) 1.0 == 1)
        by (rewrite H1; lia).
      destruct (Q.min_spec (inject_Z count / inject_Z total * 2) 1.0) as [[_ E]|[_ E]].
      + rewrite E, inject_Z_mult. change (inject_Z 2) with 2. field. lra.
      + exfalso. apply Hnot. rewrite E. reflexivity. }
  split; [|split; [|split]].
  - intros category count H. by rewrite Hprofile, lookup_fmap, H.
  - intros category H. by rewrite Hprofile, lookup_fmap, H.
  - exact Hsat.
  - intros Hone category affinity Ha.
    destruct (counts !! category) as [count|] eqn:Hc.
    + apply (Hsat category count affinity Hc Ha). specialize (Hpos category count Hc).
      simpl in Hpos. lia.
    + rewrite Hprofile, lookup_fmap, Hc in Ha. discriminate Ha.
Qed.

(** C7 as stated fails: after one interaction, with a technology article,
    the affinity of technology is [min(1/1 * 2, 1.0)], which is 1.0 at
    once; and with two of three interactions it is 1.0 as well. *)
Lemma affinity_saturates_at_once :
  select_interaction_categories Example.newcomer "u" = Ok [Example.read_wired]
  /\ RecommendationService._get_user_category_preferences Example.newcomer "u"
       !! "technology"
     = Some (Qmin (inject_Z 1 / inject_Z 1 * 2) 1.0)
  /\ Qmin (inject_Z 1 / inject_Z 1 * 2) 1.0 == 1.0
  /\ RecommendationService._get_user_category_preferences Example.regular "u"
       !! "technology"
     = Some (Qmin (inject_Z 2 / inject_Z 3 * 2) 1.0)
  /\ Qmin (inject_Z 2 / inject_Z 3 * 2) 1.0 == 1.0.
Proof. repeat split; reflexivity. Qed.

Section CategoryCounts.

(** The category a row is counted under, if any. *)
Lemma count_category_lookup (counts : gmap string Z) (row : interaction) (c : string) :
  default 0%Z (SupabaseClient.count_category counts row !! c)
  = (default 0%Z (counts !! c) + if counted_under c row then 1 else 0)%Z.
Proof.
  unfold SupabaseClient.count_category, counted_under, category_of.
  destruct (news_articles row) as [ja|]; simpl; [|lia].
  destruct (ja_category ja) as [category|]; simpl; [|lia].
  case_bool_decide as Hempty; simpl.
  - subst category. lia.
  - unfold SupabaseClient.bump. destruct (decide (category = c)) as [->|Hne].
    + rewrite lookup_insert_eq, bool_decide_eq_true_2 by done. simpl. lia.
    + rewrite lookup_insert_ne, bool_decide_eq_false_2 by congruence. lia.
Qed.

Lemma foldl_count_category (rows : list interaction) (c : string) :
  forall counts : gmap string Z,
    default 0%Z (foldl SupabaseClient.count_category counts rows !! c)
    = (default 0%Z (counts !! c) + Z.of_nat (length (filter (counted_under c) rows)))%Z.
Proof.
  induction rows as [|row rows IH]; intros counts; simpl; [lia|].
  rewrite IH, count_category_lookup, filter_cons.
  destruct (counted_under c row); simpl; lia.
Qed.

(** The count of a category is the number of interactions of the history
    that are joined with an article of that category. *)
Lemma category_counts_history (w : world) (user_id : string) (rows : list interaction)
    (c : string) :
  select_interaction_categories w user_id = Ok rows ->
  default 0%Z (SupabaseClient.get_user_category_preferences w user_id !! c)
  = Z.of_nat (length (filter (counted_under c) rows)).
Proof.
  intros H. unfold SupabaseClient.get_user_category_preferences. rewrite H.
  rewrite foldl_count_category, lookup_empty. simpl. lia.
Qed.

Lemma foldl_add_shift (l : list Z) :
  forall z : Z, foldl Z.add z l = (z + foldl Z.add 0 l)%Z.
Proof.
  induction l as [|x l IH]; intros z; simpl; [lia|].
  rewrite (IH (z + x)%Z), (IH (0 + x)%Z). lia.
Qed.

Lemma sum_cons (z : Z) (l : list Z) : Py.sum (z :: l) = (z + Py.sum l)%Z.
Proof. unfold Py.sum. simpl. rewrite foldl_add_shift. lia. Qed.

Lemma sum_perm (l k : list Z) : l ≡ₚ k -> Py.sum l = Py.sum k.
Proof.
  induction 1 as [|x l k _ IH|x y l|l k m _ IH1 _ IH2]; try done.
  - by rewrite !sum_cons, IH.
  - rewrite !sum_cons. lia.
  - by rewrite IH1.
Qed.

Lemma sum_values_insert (counts : gmap string Z) (key : string) (n : Z) :
  Py.sum (values (<[key := n]> counts))
  = (Py.sum (values counts) - default 0%Z (counts !! key) + n)%Z.
Proof.
  unfold values. destruct (counts !! key) as [m|] eqn:E; simpl.
  - rewrite <- (insert_delete_eq counts key n).
    rewrite <- (insert_delete_id counts key m E) at 2.
    rewrite !(sum_perm _ _ (fmap_Permutation snd _ _
                (map_to_list_insert _ _ _ (lookup_delete_eq counts key)))).
    rewrite !fmap_cons, !sum_cons. simpl. ring.
  - rewrite (sum_perm _ _ (fmap_Permutation snd _ _ (map_to_list_insert _ _ _ E))).
    rewrite fmap_cons, sum_cons. simpl. ring.
Qed.

Lemma foldl_count_category_total (rows : list interaction) :
  forall counts : gmap string Z,
    Py.sum (values (foldl SupabaseClient.count_category counts rows))
    = (Py.sum (values counts) + Z.of_nat (length (filter counted rows)))%Z.
Proof.
  induction rows as [|row rows IH]; intros counts; simpl; [lia|].
  rewrite IH, filter_cons. unfold SupabaseClient.count_category, counted, category_of.
  destruct (news_articles row) as [ja|]; simpl; [|lia].
  destruct (ja_category ja) as [category|]; simpl; [|lia].
  case_bool_decide; simpl; [lia|].
  unfold SupabaseClient.bump. rewrite sum_values_insert. lia.
Qed.

(** The total of the counts is the number of interactions of the history
    that are joined with an article of some category. *)
Lemma total_interactions_history (w : world) (user_id : string) (rows : list interaction) :
  select_interaction_categories w user_id = Ok rows ->
  Py.sum (values (SupabaseClient.get_user_category_preferences w user_id))
  = Z.of_nat (length (filter counted rows)).
Proof.
  intros H. unfold SupabaseClient.get_user_category_preferences. rewrite H.
  rewrite foldl_count_category_total. unfold values. by rewrite map_to_list_empty.
Qed.

End CategoryCounts.

Section Recency.
Import RecommendationService.
Context (w : world) (i : nat).

Lemma Qle_bool_false (x y : Q) : Qle_bool x y = false <-> y < x.
Proof.
  split; intros H.
  - apply Qnot_le_lt. intros Hle. apply Qle_bool_iff in Hle. congruence.
  - destruct (Qle_bool x y) eqn:E; [|done]. apply Qle_bool_iff in E. lra.
Qed.

(** The steps of the boost, by the age in hours. *)
Lemma recency_steps_spec (hours : Q) :
  (hours <= 1 -> recency_steps hours = 1.0)
  /\ (1 < hours <= 6 -> recency_steps hours = 0.8)
  /\ (6 < hours <= 24 -> recency_steps hours = 0.6)
  /\ (24 < hours <= 72 -> recency_steps hours = 0.4)
  /\ (72 < hours -> recency_steps hours = 0.2).
Proof.
  unfold recency_steps.
  destruct (Qle_bool hours 1) eqn:E1; [apply Qle_bool_iff in E1|apply Qle_bool_false in E1];
  destruct (Qle_bool hours 6) eqn:E2; [apply Qle_bool_iff in E2|apply Qle_bool_false in E2| |];
  destruct (Qle_bool hours 24) eqn:E3;
    [apply Qle_bool_iff in E3|apply Qle_bool_false in E3| | | | | |];
  destruct (Qle_bool hours 72) eqn:E4;
  try (apply Qle_bool_iff in E3); try (apply Qle_bool_false in E3);
  try (apply Qle_bool_iff in E2); try (apply Qle_bool_false in E2);
  try (apply Qle_bool_iff in E4); try (apply Qle_bool_false in E4);
  repeat split; intros; first [reflexivity | lra].
Qed.

(** A timestamp without offset: the boost is the step of its age. *)
Lemma recency_boost_naive (s : string) (pub_time : datetime) :
  fromisoformat w (replace_Z s) = Some pub_time ->
  utcoffset pub_time = None ->
  _calculate_recency_boost w i (VStr s)
  = recency_steps (((utcnow w i - wall pub_time) # 1000000) / 3600).
Proof.
  intros Hparse Hnaive. unfold _calculate_recency_boost, hours_old, sub_total_seconds.
  rewrite Hparse. simpl. by rewrite Hnaive.
Qed.

(** A string the parser refuses, or a value that is not a string. *)
Lemma recency_boost_unparseable (published_at : value) :
  match published_at with
  | VStr s => fromisoformat w (replace_Z s) = None
  | VNone | VNum _ | VDict _ => True
  end ->
  _calculate_recency_boost w i published_at = 0.5.
Proof.
  unfold _calculate_recency_boost, hours_old.
  destruct published_at as [|s|q|d]; try done. by intros ->.
Qed.

(** A timestamp with an offset: [utcnow()] is naive, the subtraction
    raises, and the boost is 0.5 whatever the age. *)
Lemma recency_boost_aware (s : string) (pub_time : datetime) (offset : Z) :
  fromisoformat w (replace_Z s) = Some pub_time ->
  utcoffset pub_time = Some offset ->
  _calculate_recency_boost w i (VStr s) = 0.5.
Proof.
  intros Hparse Haware. unfold _calculate_recency_boost, hours_old, sub_total_seconds.
  rewrite Hparse. simpl. by rewrite Haware.
Qed.

End Recency.

(** C8, amended: for a timestamp that is parsed without a UTC offset the
    boost is the step function of the age in hours at scoring time (up to 1
    hour 1.0, up to 6 hours 0.8, up to 24 hours 0.6, up to 72 hours 0.4,
    beyond that 0.2); a timestamp that cannot be parsed gives 0.5; ages of
    30 minutes, 30 hours and 100 hours give 1.0, 0.4 and 0.2. *)
Theorem recency_boost_step_function (w : world) (i : nat) :
  (forall (s : string) (pub_time : datetime),
     fromisoformat w (replace_Z s) = Some pub_time ->
     utcoffset pub_time = None ->
     let age := ((utcnow w i - wall pub_time) # 1000000) / 3600 in
     let boost := RecommendationService._calculate_recency_boost w i (VStr s) in
     (age <= 1 -> boost = 1.0)
     /\ (1 < age <= 6 -> boost = 0.8)
     /\ (6 < age <= 24 -> boost = 0.6)
     /\ (24 < age <= 72 -> boost = 0.4)
     /\ (72 < age -> boost = 0.2))
  /\ (forall published_at : value,
        match published_at with
        | VStr s => fromisoformat w (replace_Z s) = None
        | VNone | VNum _ | VDict _ => True
        end ->
        RecommendationService._calculate_recency_boost w i published_at = 0.5)
  /\ RecommendationService.recency_steps (30 / 60) = 1.0
  /\ RecommendationService.recency_steps 30 = 0.4
  /\ RecommendationService.recency_steps 100 = 0.2.
Proof.
  split; [|split; [apply recency_boost_unparseable | repeat split; reflexivity]].
  intros s pub_time Hparse Hnaive age boost. subst boost.
  rewrite (recency_boost_naive w i s pub_time Hparse Hnaive). fold age.
  apply recency_steps_spec.
Qed.

(** C8 as stated fails: an article published 30 hours before the clock
    reading gets 0.4, the step of the ages between 24 and 72 hours, not
    0.6. *)
Lemma recency_boost_thirty_hours :
  let published_at := "2023-12-31T06:00:00"%string in
  fromisoformat Example.calm (replace_Z published_at)
  = Some {| wall := Example.noon - 30 * 3600 * 1000000; utcoffset := None |}
  /\ RecommendationService._calculate_recency_boost Example.calm 0 (VStr published_at) = 0.4
  /\ ~ 0.4 == 0.6.
Proof. repeat split; try reflexivity. intros H; discriminate H. Qed.

(** The boost of a UTC timestamp: "2024-01-01T11:30:00Z" is parsed, as an
    aware value 30 minutes before the (naive) clock reading, and the boost is
    the 0.5 of the exception handler, not the 1.0 of the first step. *)
Lemma recency_boost_utc_timestamp :
  let published_at := "2024-01-01T11:30:00Z"%string in
  fromisoformat Example.calm (replace_Z published_at)
  = Some {| wall := Example.noon - 30 * 60 * 1000000; utcoffset := Some 0%Z |}
  /\ RecommendationService._calculate_recency_boost Example.calm 0 (VStr published_at) = 0.5.
Proof. repeat split; reflexivity. Qed.

Section Slices.
Context {A : Type}.

Lemma slice_to_nil (k : Z) : slice_to (@nil A) k = [].
Proof. unfold slice_to. destruct (0 <=? k)%Z; apply take_nil. Qed.

Lemma slice_to_nonneg (l : list A) (k : Z) :
  (0 <= k)%Z -> slice_to l k = take (Z.to_nat k) l.
Proof. intros H. unfold slice_to. by rewrite (proj2 (Z.leb_le 0 k) H). Qed.

Lemma slice_to_length (l : list A) (k : Z) :
  (0 <= k)%Z -> length (slice_to l k) = Nat.min (length l) (Z.to_nat k).
Proof. intros H. rewrite slice_to_nonneg, length_take by done. lia. Qed.

Lemma slice_to_elem (l : list A) (k : Z) (x : A) : x ∈ slice_to l k -> x ∈ l.
Proof.
  unfold slice_to. destruct (0 <=? k)%Z; intros (j & Hj & _)%elem_of_take;
    by eapply list_elem_of_lookup_2.
Qed.

Lemma slice_to_nonempty (l : list A) (k : Z) :
  (1 <= k)%Z -> l <> [] -> slice_to l k <> [].
Proof.
  intros Hk Hl. rewrite slice_to_nonneg by lia.
  destruct l as [|x l]; [done|]. destruct (Z.to_nat k) eqn:E; [lia|done].
Qed.

End Slices.

Section ModelWrapper.
Import NewsRecommendationModel.

Lemma model_raises (w : world) (news : list article) (top_k : Z) :
  Py.is_ok (network w news) = false ->
  Py.is_ok (get_personalized_recommendations w news top_k) = false.
Proof.
  unfold get_personalized_recommendations, predict.
  by destruct (network w news).
Qed.

(** Every recommendation is one of the articles with the three scores of
    its prediction added. *)
Lemma model_recommendations (w : world) (news ml : list article) (top_k : Z) :
  get_personalized_recommendations w news top_k = Ok ml ->
  Forall (fun r => exists pred a, a ∈ news /\ r = recommendation pred a) ml.
Proof.
  unfold get_personalized_recommendations. intros H. bind_ok H predictions.
  injection H as <-. apply Forall_forall. intros r Hr.
  apply slice_to_elem in Hr. rewrite sort_desc_perm in Hr.
  apply elem_of_zip_with in Hr as (pred & a & -> & _ & Ha). eauto.
Qed.

Lemma recommendation_frame (pred : prediction) (a : article) (k : string) :
  k <> "recommendation_score" -> k <> "dwell_score" -> k <> "click_probability" ->
  recommendation pred a !! k = a !! k.
Proof. intros. unfold recommendation. by rewrite !lookup_insert_ne. Qed.

Lemma recommendation_scorable (pred : prediction) (a : article) :
  rankable a = true ->
  scorable (recommendation pred a) = true
  /\ is_Some (recommendation pred a !! "id").
Proof.
  unfold rankable, scorable, get_or.
  rewrite !andb_true_iff, bool_decide_eq_true. intros [[Hid Hc] Hs].
  rewrite (recommendation_frame pred a "category"), (recommendation_frame pred a "source"),
    (recommendation_frame pred a "id") by done.
  split; [|done].
  rewrite Hc, Hs. unfold recommendation. by rewrite lookup_insert_eq.
Qed.

End ModelWrapper.

Section PersonalizedRanker.
Import RecommendationService.

Lemma article_ids_ok (recs : list article) :
  Forall (fun a => is_Some (a !! "id")) recs -> exists ids, article_ids recs = Ok ids.
Proof.
  induction 1 as [|a recs [v Hv] _ [ids IH]]; simpl; [eauto|].
  rewrite Hv, IH. simpl. eauto.
Qed.

(** The ranker when nothing raises: the model's recommendations are
    scored in one pass, sorted and cut. *)
Lemma try_personalized_ok
    (w : world) (user_id : string) (articles ml out : list article) (top_k : Z) :
  NewsRecommendationModel.get_personalized_recommendations
    w articles (Z.of_nat (length articles)) = Ok ml ->
  _apply_personalization w user_id ml (SupabaseClient.get_user_interactions w user_id)
  = Ok out ->
  Forall (fun a => is_Some (a !! "id")) out ->
  try_personalized w user_id articles top_k
  = Ok (slice_to (sort_desc (score_key "final_score") out) top_k).
Proof.
  intros Hml Hout Hids. unfold try_personalized.
  destruct articles as [|a articles].
  - unfold NewsRecommendationModel.get_personalized_recommendations in Hml.
    destruct (NewsRecommendationModel.predict w []) as [preds|]; [|discriminate].
    simpl in Hml. rewrite zip_with_nil_r in Hml. simpl in Hml.
    rewrite slice_to_nil in Hml. injection Hml as <-.
    unfold _apply_personalization in Hout.
    destruct (_get_user_source_preferences _); [|discriminate]. simpl in Hout.
    injection Hout as <-. simpl. by rewrite slice_to_nil.
  - rewrite Hml. simpl. rewrite Hout. simpl.
    destruct (article_ids_ok (slice_to (sort_desc (score_key "final_score") out) top_k))
      as [ids ->]; [|done].
    apply Forall_forall. intros r Hr. apply slice_to_elem in Hr.
    rewrite sort_desc_perm in Hr. by eapply Forall_forall in Hids.
Qed.

End PersonalizedRanker.

Section SortedByFinalScore.

Lemma StronglySorted_lookup {A} (R : A -> A -> Prop) (l : list A) :
  StronglySorted R l ->
  forall (i j : nat) (x y : A),
    (i < j)%nat -> l !! i = Some x -> l !! j = Some y -> R x y.
Proof.
  induction 1 as [|z l Hs IH Hz]; intros i j x y Hij Hi Hj.
  - by rewrite lookup_nil in Hi.
  - destruct j as [|j]; [lia|]. destruct i as [|i]; simpl in Hi, Hj.
    + injection Hi as <-. eapply Forall_forall in Hz; [exact Hz|].
      by eapply list_elem_of_lookup_2.
    + eapply (IH i j); [lia | done | done].
Qed.

Lemma filter_ext_elem {A} (P Q : A -> Prop)
    `{forall x, Decision (P x)} `{forall x, Decision (Q x)} (l : list A) :
  (forall x, x ∈ l -> P x <-> Q x) -> filter P l = filter Q l.
Proof.
  induction l as [|a l IH]; intros Hl; [done|].
  rewrite !filter_cons.
  assert (Ha : P a <-> Q a) by (apply Hl; left).
  rewrite IH by (intros x Hx; apply Hl; by right).
  destruct (decide (P a)), (decide (Q a)); tauto.
Qed.

(** On an article that carries a final score, the sort key of the ranker
    is that score. *)
Lemma score_key_final_score (a : article) (q : Q) :
  a !! "final_score" = Some (VNum q) -> score_key "final_score" a = q.
Proof. unfold score_key. by intros ->. Qed.

Lemma scored_at_key (a : article) (q q' : Q) :
  a !! "final_score" = Some (VNum q') ->
  scored_at q a <-> score_key "final_score" a == q.
Proof.
  intros H. unfold scored_at, score_key. rewrite H.
  rewrite <- Qeq_bool_iff. by destruct (Qeq_bool q' q).
Qed.

End SortedByFinalScore.

(** C3: when the model answers, the personalized ranker scores its
    recommendations in one pass in the model's output order: the i-th output
    is the i-th recommendation, annotated, and its diversity penalty is
    computed against the first i outputs only.  Only then is the whole
    output sorted: the sorted list has the articles of the output, in
    descending order of the final scores they carry, articles of equal
    final score in their order in the output; and the ranker returns its
    first top-k articles ([min(len, top_k)] of them), or, for a negative
    top-k, all but the last [-top_k]. *)
Theorem personalized_ranker_single_pass
    (w : world) (user_id : string) (articles ml : list article) (top_k : Z) :
  Forall (fun a => rankable a = true) articles ->
  NewsRecommendationModel.get_personalized_recommendations
    w articles (Z.of_nat (length articles)) = Ok ml ->
  let ranked :=
    RecommendationService.get_personalized_recommendations w user_id articles top_k in
  exists out sorted,
    RecommendationService._apply_personalization
      w user_id ml (SupabaseClient.get_user_interactions w user_id) = Ok out
    /\ length out = length ml
    /\ (forall (i : nat) (a : article),
          ml !! i = Some a ->
          exists a' factors score,
            out !! i = Some a'
            /\ (forall k : string, annotation k = false -> a' !! k = a !! k)
            /\ a' !! "final_score" = Some (VNum score)
            /\ a' !! "personalization_factors" = Some (VDict factors)
            /\ factors !! "diversity_penalty"
               = Some (RecommendationService._calculate_diversity_penalty a (take i out)))
    /\ sorted ≡ₚ out
    /\ descending_final_scores sorted
    /\ (forall q : Q, filter (scored_at q) sorted = filter (scored_at q) out)
    /\ ((0 <= top_k)%Z ->
        ranked = take (Z.to_nat top_k) sorted
        /\ length ranked = Nat.min (length ml) (Z.to_nat top_k))
    /\ ((top_k < 0)%Z ->
        ranked = take (length sorted - Z.to_nat (- top_k)) sorted).
Proof.
  intros Hrank Hml ranked.
  set (interactions := SupabaseClient.get_user_interactions w user_id).
  assert (Hfrom : Forall (fun r => scorable r = true /\ is_Some (r !! "id")) ml).
  { eapply Forall_impl; [exact (model_recommendations w articles ml _ Hml)|].
    intros r (pred & a & Ha & ->). apply recommendation_scorable.
    by eapply Forall_forall in Hrank. }
  destruct (apply_personalization_ok w user_id ml interactions) as [out Hout].
  { eapply Forall_impl; [exact Hfrom|]. by intros r [? _]. }
  destruct (apply_personalization_inv w user_id ml interactions out Hout)
    as (sp & Hsp & Hlen & Hall).
  assert (Hpass : forall (i : nat) (a : article),
            ml !! i = Some a ->
            exists a' factors score,
              out !! i = Some a'
              /\ (forall k : string, annotation k = false -> a' !! k = a !! k)
              /\ a' !! "final_score" = Some (VNum score)
              /\ a' !! "personalization_factors" = Some (VDict factors)
              /\ factors !! "diversity_penalty"
                 = Some (RecommendationService._calculate_diversity_penalty a (take i out))).
  { intros i a Hi. destruct (Hall i a Hi) as (a' & Ha' & Hscore).
    apply score_article_inv in Hscore as (base & cb & sb & _ & _ & _ & ->).
    eexists _, _, _. split; [exact Ha'|]. split; [intros k Hk; by apply annotate_frame|].
    split; [rewrite lookup_insert_ne by done; by rewrite lookup_insert_eq|].
    split; [by rewrite lookup_insert_eq | reflexivity]. }
  assert (Hscored : forall a', a' ∈ out ->
            is_Some (a' !! "id") /\ exists q, a' !! "final_score" = Some (VNum q)).
  { intros a' Ha'. apply list_elem_of_lookup in Ha' as [i Hi].
    assert (is_Some (ml !! i)) as [a Ha].
    { apply lookup_lt_is_Some. rewrite <- Hlen. by eapply lookup_lt_Some. }
    destruct (Hpass i a Ha) as (a'' & factors & score & Ha'' & Hframe & Hscore & _).
    rewrite Hi in Ha''. injection Ha'' as <-. split; [|by exists score].
    rewrite Hframe by done.
    eapply Forall_lookup_1 in Hfrom as [_ Hid]; [exact Hid | exact Ha]. }
  set (sorted := sort_desc (score_key "final_score") out).
  assert (Hperm : sorted ≡ₚ out) by apply sort_desc_perm.
  assert (Hranked : ranked = slice_to sorted top_k).
  { unfold ranked, RecommendationService.get_personalized_recommendations.
    rewrite (try_personalized_ok w user_id articles ml out top_k Hml Hout); [done|].
    apply Forall_forall. intros a' Ha'. by apply Hscored. }
  exists out, sorted. split; [done|]. split; [done|]. split; [exact Hpass|].
  split; [done|]. split; [|split; [|split]].
  - intros i j x y qx qy Hij Hi Hj Hx Hy.
    pose proof (StronglySorted_lookup _ _ (sort_desc_sorted (score_key "final_score") out)
                  i j x y Hij Hi Hj) as H.
    simpl in H. by rewrite (score_key_final_score x qx), (score_key_final_score y qy) in H.
  - intros q.
    pose proof (sort_desc_stable (score_key "final_score") out) as (_ & _ & Hstable).
    rewrite (filter_ext_elem (scored_at q) (fun x => score_key "final_score" x == q) sorted),
      (filter_ext_elem (scored_at q) (fun x => score_key "final_score" x == q) out);
      [apply Hstable| |].
    + intros x Hx. destruct (Hscored x Hx) as [_ [q' Hq']]. by eapply scored_at_key.
    + intros x Hx. rewrite Hperm in Hx.
      destruct (Hscored x Hx) as [_ [q' Hq']]. by eapply scored_at_key.
  - intros Hk. rewrite Hranked, slice_to_nonneg by done. split; [done|].
    rewrite length_take, Hperm, Hlen. lia.
  - intros Hk. rewrite Hranked. unfold slice_to.
    by rewrite (proj2 (Z.leb_gt 0 top_k)) by lia.
Qed.

(** C4, amended: when the model collaborator raises on the candidates, the
    personalized ranker returns the candidates cut at top-k in their order,
    that is [min(len(candidates), top_k)] of them for a top-k that is not
    negative, and at least one when top-k is at least 1 and there are
    candidates; so does the category ranker for a user, which delegates to
    it, when the candidates are the recent articles of the category.  On
    the same candidates the trending ranker and the category ranker without
    a user return the empty list. *)
Theorem fallback_when_model_raises
    (w : world) (user_id : string) (articles : list article) (top_k : Z) :
  Py.is_ok (network w articles) = false ->
  let ranked :=
    RecommendationService.get_personalized_recommendations w user_id articles top_k in
  ranked = slice_to articles top_k
  /\ ((0 <= top_k)%Z ->
      ranked = take (Z.to_nat top_k) articles
      /\ length ranked = Nat.min (length articles) (Z.to_nat top_k)
      /\ forall (i : nat) (a : article), ranked !! i = Some a -> articles !! i = Some a)
  /\ ((1 <= top_k)%Z -> articles <> [] -> ranked <> [])
  /\ (forall category : string,
        SupabaseClient.get_recent_news w (top_k * 2) (Some category) = articles ->
        (user_id <> "" ->
         RecommendationService.get_category_recommendations
           w category (Some user_id) top_k = ranked)
        /\ RecommendationService.get_category_recommendations w category None top_k = [])
  /\ (SupabaseClient.get_recent_news w (top_k * 2) None = articles ->
      RecommendationService.get_trending_recommendations w top_k = []).
Proof.
  intros Hdown ranked.
  assert (Hmodel : forall k r,
            NewsRecommendationModel.get_personalized_recommendations w articles k = Ok r ->
            False).
  { intros k r H. pose proof (model_raises w articles k Hdown) as Hr. by rewrite H in Hr. }
  assert (Hpers : ranked = slice_to articles top_k).
  { unfold ranked, RecommendationService.get_personalized_recommendations,
      RecommendationService.try_personalized.
    destruct articles as [|a articles]; [by rewrite slice_to_nil|].
    destruct (NewsRecommendationModel.get_personalized_recommendations w (a :: articles) _)
      as [r|] eqn:E; [by apply Hmodel in E | done]. }
  split; [done|]. split; [|split; [|split]].
  - intros Hk. rewrite Hpers, slice_to_nonneg by done.
    split; [done|]. split; [rewrite length_take; lia|].
    intros i a Hi. by apply lookup_take_Some in Hi as [Hi _].
  - rewrite Hpers. apply slice_to_nonempty.
  - intros category Hrecent. split.
    + intros Hu. unfold RecommendationService.get_category_recommendations,
        RecommendationService.try_category. rewrite Hrecent.
      rewrite bool_decide_eq_false_2 by done.
      destruct articles as [|a l]; [|done]. by rewrite Hpers, slice_to_nil.
    + unfold RecommendationService.get_category_recommendations,
        RecommendationService.try_category. rewrite Hrecent.
      destruct articles as [|a l]; [done|].
      destruct (NewsRecommendationModel.get_personalized_recommendations w (a :: l) top_k)
        as [r|] eqn:E; [by apply Hmodel in E | done].
  - intros Hrecent. unfold RecommendationService.get_trending_recommendations,
      RecommendationService.try_trending. rewrite Hrecent.
    destruct articles as [|a l]; [done|].
    destruct (NewsRecommendationModel.get_personalized_recommendations w (a :: l) top_k)
      as [r|] eqn:E; [by apply Hmodel in E | done].
Qed.

(** C4 as stated fails: with candidates at hand and the model raising, the
    trending ranker and the category ranker without a user return the empty
    list; and when the model returns no scores, so does the personalized
    ranker. *)
Lemma rankers_without_fallback :
  SupabaseClient.get_recent_news Example.down 40 None = Example.candidates
  /\ network Example.down Example.candidates = Raise RuntimeError
  /\ slice_to Example.candidates 20 = Example.candidates
  /\ RecommendationService.get_trending_recommendations Example.down 20 = []
  /\ RecommendationService.get_category_recommendations Example.down "business" None 20 = []
  /\ network Example.silent Example.candidates = Ok []
  /\ RecommendationService.get_personalized_recommendations
       Example.silent "u" Example.candidates 20 = [].
Proof. repeat split; reflexivity. Qed.

Section StoreRefinement.
Context (w : world) (cp sp : gmap string Q).

Lemma deref_insert_fresh (h : gmap nat article) (l : nat) (a : article) (ls : list nat) :
  l ∉ ls -> Store.deref (<[l := a]> h) ls = Store.deref h ls.
Proof.
  intros Hl. unfold Store.deref. apply list_fmap_ext. intros j l' Hj.
  rewrite lookup_insert_ne; [done|]. intros ->. apply Hl.
  by eapply list_elem_of_lookup_2.
Qed.

Lemma deref_snoc (h : gmap nat article) (l : nat) (a : article) (ls : list nat) :
  l ∉ ls -> Store.deref (<[l := a]> h) (ls ++ [l]) = Store.deref h ls ++ [a].
Proof.
  intros Hl. unfold Store.deref at 1. rewrite fmap_app. simpl.
  rewrite lookup_insert_eq. simpl. f_equal. by apply deref_insert_fresh.
Qed.

(** On distinct addresses the loop on the store computes what the loop on
    values computes, returns the addresses in the order of its input, and
    writes nowhere else. *)
Lemma personalize_loop_refines (todo : list nat) :
  forall (i : nat) (acc : list nat) (h : gmap nat article),
    NoDup (acc ++ todo) ->
    match RecommendationService.personalize_loop w cp sp i
            (Store.deref h acc) (Store.deref h todo) with
    | Ok out =>
        exists h',
          Store.personalize_loop w cp sp i acc todo h = Ok (acc ++ todo, h')
          /\ Store.deref h' (acc ++ todo) = out
          /\ forall l : nat, l ∉ todo -> h' !! l = h !! l
    | Raise e => Store.personalize_loop w cp sp i acc todo h = Raise e
    end.
Proof.
  induction todo as [|l rest IH]; intros i acc h Hnodup; simpl.
  - exists h. by rewrite app_nil_r.
  - destruct (RecommendationService.score_article w cp sp i (Store.deref h acc)
                (default ∅ (h !! l))) as [a'|e] eqn:Escore; simpl; [|done].
    apply NoDup_app in Hnodup as (Hacc & Hdisj & Hrest).
    apply NoDup_cons in Hrest as [Hl Hrest].
    assert (Hl' : l ∉ acc) by (intros Hin; apply (Hdisj l Hin); left).
    specialize (IH (S i) (acc ++ [l]) (<[l := a']> h)).
    rewrite deref_snoc, deref_insert_fresh in IH by done.
    destruct (RecommendationService.personalize_loop w cp sp (S i)
                (Store.deref h acc ++ [a']) (Store.deref h rest)) as [out|e].
    + destruct IH as (h' & Hloop & Hout & Hframe).
      { rewrite <- app_assoc. simpl. apply NoDup_app. repeat split; try done.
        by apply NoDup_cons. }
      exists h'. rewrite <- app_assoc in Hloop, Hout. simpl in Hloop, Hout.
      repeat split; try done.
      intros l' Hl''. rewrite Hframe by (intros ?; apply Hl''; by right).
      apply lookup_insert_ne. intros ->. apply Hl''. left.
    + apply IH. rewrite <- app_assoc. simpl. apply NoDup_app. repeat split; try done.
      by apply NoDup_cons.
Qed.

End StoreRefinement.

(** The same dict twice in the list: on the store the second pass overwrites
    the annotations of the first, so both entries of the result carry the
    penalty 0.85 of the second pass; by value the first entry keeps its own
    penalty 1. *)
Lemma personalize_loop_aliased :
  (match Store.personalize_loop Example.calm ∅ ∅ 0 [] Example.twice Example.shelf with
   | Ok (ls, h) => Example.penalty_of <$> Store.deref h ls
   | Raise _ => []
   end) = [Some (17 # 20); Some (17 # 20)]
  /\ (match RecommendationService.personalize_loop Example.calm ∅ ∅ 0 []
             (Store.deref Example.shelf Example.twice) with
      | Ok out => Example.penalty_of <$> out
      | Raise _ => []
      end) = [Some 1; Some (17 # 20)].
Proof. split; vm_compute; reflexivity. Qed.

(** ** The theorems at concrete inputs *)

Lemma final_score_of_every_article_witness :
  Forall (fun a => scorable a = true) [Example.scored_chips; Example.phones]
  /\ exists out,
       RecommendationService._apply_personalization
         Example.calm "u" [Example.scored_chips; Example.phones] [] = Ok out
       /\ length out = 2%nat.
Proof.
  assert (H : Forall (fun a => scorable a = true) [Example.scored_chips; Example.phones])
    by (repeat constructor).
  split; [exact H|].
  destruct (final_score_of_every_article Example.calm "u"
              [Example.scored_chips; Example.phones] [] H)
    as (out & sp & Hout & _ & Hlen & _).
  exists out. split; [exact Hout | exact Hlen].
Defined.

Lemma personalized_ranker_single_pass_witness :
  Forall (fun a => rankable a = true) Example.oldest_first
  /\ ((fun a => get a "id") <$> Example.oldest_first)
     = [VStr "a3"; VStr "a2"; VStr "a1"]
  /\ (Example.final_score_of
        <$> RecommendationService.get_personalized_recommendations
              Example.level "u" Example.oldest_first 3)
     = [Some (43 # 80); Some (21 # 40); Some (93 # 200)]
  /\ (Example.final_score_of
        <$> RecommendationService.get_personalized_recommendations
              Example.level "u" Example.oldest_first 2)
     = [Some (43 # 80); Some (21 # 40)]
  /\ exists out sorted,
       (Example.final_score_of <$> out)
       = [Some (93 # 200); Some (21 # 40); Some (43 # 80)]
       /\ sorted ≡ₚ out
       /\ RecommendationService.get_personalized_recommendations
            Example.level "u" Example.oldest_first 2
          = take 2 sorted.
Proof.
  assert (H : Forall (fun a => rankable a = true) Example.oldest_first)
    by (repeat constructor).
  split; [exact H|]. split; [reflexivity|].
  split; [vm_compute; reflexivity|]. split; [vm_compute; reflexivity|].
  destruct (personalized_ranker_single_pass Example.level "u" Example.oldest_first
              (NewsRecommendationModel.recommendation
                 {| NewsRecommendationModel.article_index := 0;
                    NewsRecommendationModel.click_probability := 0.5;
                    NewsRecommendationModel.dwell_score := 0;
                    NewsRecommendationModel.recommendation_score := 0.5 * 0.7 + 0 / 10 * 0.3 |}
                 <$> Example.oldest_first)
              2 H)
    as (out & sorted & Hout & _ & _ & Hperm & _ & _ & Hcut & _).
  - vm_compute. reflexivity.
  - exists out, sorted. destruct (Hcut ltac:(lia)) as [Hranked _].
    split; [|split; [exact Hperm | exact Hranked]].
    assert (E : match
                  RecommendationService._apply_personalization Example.level "u"
                    (NewsRecommendationModel.recommendation
                       {| NewsRecommendationModel.article_index := 0;
                          NewsRecommendationModel.click_probability := 0.5;
                          NewsRecommendationModel.dwell_score := 0;
                          NewsRecommendationModel.recommendation_score :=
                            0.5 * 0.7 + 0 / 10 * 0.3 |}
                       <$> Example.oldest_first)
                    (SupabaseClient.get_user_interactions Example.level "u")
                with
                | Ok o => Example.final_score_of <$> o
                | Raise _ => []
                end = [Some (93 # 200); Some (21 # 40); Some (43 # 80)])
      by (vm_compute; reflexivity).
    rewrite Hout in E. exact E.
Defined.

Lemma fallback_when_model_raises_witness :
  Py.is_ok (network Example.flaky Example.candidates) = false
  /\ Py.is_ok (network Example.flaky [Example.chips]) = true
  /\ RecommendationService.get_personalized_recommendations
       Example.flaky "u" Example.candidates 2
     = [Example.chips; Example.phones].
Proof.
  assert (H : Py.is_ok (network Example.flaky Example.candidates) = false) by reflexivity.
  split; [exact H|]. split; [reflexivity|].
  destruct (fallback_when_model_raises Example.flaky "u" Example.candidates 2 H)
    as (_ & Htake & _).
  rewrite (proj1 (Htake ltac:(lia))). reflexivity.
Defined.

Lemma cold_start_profile_witness :
  Py.is_ok (select_interaction_categories Example.offline "u") = false
  /\ RecommendationService._get_user_category_preferences Example.offline "u"
     = RecommendationService.default_category_preferences.
Proof.
  split; [reflexivity|].
  apply (cold_start_profile Example.offline "u"). left. reflexivity.
Defined.

Lemma remove_duplicates_first_occurrences_witness :
  Forall (fun a => titled a = true) Example.fetched
  /\ ((fun a => get a "title") <$> Example.fetched)
     = [VStr "Chips get faster"; VStr "Markets rally"; VStr "  MARKETS Rally ";
        VStr "Chips get faster"; VStr "Rates hold"]
  /\ NewsService._remove_duplicates PlainText.methods Example.fetched
     = Ok [Example.chips; Example.markets; Example.wire]
  /\ exists unique,
       NewsService._remove_duplicates PlainText.methods Example.fetched = Ok unique
       /\ NoDup (normalized_title PlainText.methods <$> unique).
Proof.
  assert (H : Forall (fun a => titled a = true) Example.fetched) by (repeat constructor).
  split; [exact H|]. split; [reflexivity|]. split; [reflexivity|].
  destruct (remove_duplicates_first_occurrences PlainText.methods Example.fetched H)
    as (unique & Hu & _ & Hnodup & _).
  exists unique. split; [exact Hu | exact Hnodup].
Defined.

Lemma category_affinity_witness :
  SupabaseClient.get_user_category_preferences Example.regular "u" <> ∅
  /\ RecommendationService._get_user_category_preferences Example.regular "u" !! "business"
     = Some (Qmin (inject_Z 1 / inject_Z 3 * 2) 1.0)
  /\ Qmin (inject_Z 1 / inject_Z 3 * 2) 1.0 == 2 # 3.
Proof.
  assert (H : SupabaseClient.get_user_category_preferences Example.regular "u" <> ∅).
  { intros E. apply (f_equal (fun m => m !! "business")) in E. vm_compute in E. discriminate E. }
  split; [exact H|].
  destruct (category_affinity Example.regular "u" H) as (_ & Hobserved & _ & Hsat & _).
  assert (Hb : RecommendationService._get_user_category_preferences Example.regular "u"
                 !! "business" = Some (Qmin (inject_Z 1 / inject_Z 3 * 2) 1.0))
    by (apply (Hobserved "business" 1%Z); reflexivity).
  split; [exact Hb|].
  destruct (Hsat "business" 1%Z _ eq_refl Hb) as (_ & _ & Hshare).
  rewrite Hshare; [reflexivity|]. vm_compute. reflexivity.
Defined.

Lemma recency_boost_step_function_witness :
  RecommendationService._calculate_recency_boost
    Example.calm 0 (VStr "2023-12-31T06:00:00") = 0.4.
Proof.
  destruct (recency_boost_step_function Example.calm 0) as [Hsteps _].
  destruct (Hsteps "2023-12-31T06:00:00"%string
              {| wall := Example.noon - 30 * 3600 * 1000000; utcoffset := None |}
              eq_refl eq_refl)
    as (_ & _ & _ & H & _).
  apply H. split; [reflexivity | discriminate].
Defined.

Lemma final_score_nonnegative_witness :
  0 <= 0.9
  /\ 0 <= score_key "final_score" (default ∅ (Example.annotated_chips !! 0%nat)).
Proof.
  split; [discriminate|].
  apply (final_score_nonnegative Example.calm "u" [Example.scored_chips] []
           Example.annotated_chips 0 Example.scored_chips
           (default ∅ (Example.annotated_chips !! 0%nat)) 0.9).
  - vm_compute. reflexivity.
  - vm_compute. reflexivity.
  - vm_compute. reflexivity.
  - vm_compute. reflexivity.
  - discriminate.
Defined.

Lemma personalization_only_annotates_witness :
  Forall (fun a => scorable a = true) [Example.scored_chips; Example.phones]
  /\ exists out,
       RecommendationService._apply_personalization
         Example.calm "u" [Example.scored_chips; Example.phones] [] = Ok out
       /\ length out = 2%nat
       /\ (Example.breakdown_of <$> out)
          = [[Some (9 # 10); Some (4 # 5); Some 1; Some (1 # 2); Some 1];
             [Some (1 # 2); Some (4 # 5); Some (4 # 5); Some (1 # 2); Some (17 # 20)]]
       /\ (Example.final_score_of <$> out) = [Some (7 # 8); Some (243 # 400)].
Proof.
  assert (H : Forall (fun a => scorable a = true) [Example.scored_chips; Example.phones])
    by (repeat constructor).
  split; [exact H|].
  destruct (personalization_only_annotates Example.calm "u"
              [Example.scored_chips; Example.phones] [] H)
    as (out & sp & Hout & _ & Hlen & _).
  exists out. split; [exact Hout|]. split; [exact Hlen|].
  assert (E : match
                RecommendationService._apply_personalization
                  Example.calm "u" [Example.scored_chips; Example.phones] []
              with
              | Ok o => (Example.breakdown_of <$> o, Example.final_score_of <$> o)
              | Raise _ => ([], [])
              end
              = ([[Some (9 # 10); Some (4 # 5); Some 1; Some (1 # 2); Some 1];
                  [Some (1 # 2); Some (4 # 5); Some (4 # 5); Some (1 # 2); Some (17 # 20)]],
                 [Some (7 # 8); Some (243 # 400)]))
    by (vm_compute; reflexivity).
  rewrite Hout in E. by injection E.
Defined.

(** * Further properties *)

Section SourceProfile.

Lemma count_source_lookup (counts : gmap string Z) (row : interaction) (s : string) :
  default 0%Z (count_source counts row !! s)
  = (default 0%Z (counts !! s) + if sourced_under s row then 1 else 0)%Z.
Proof.
  unfold count_source, sourced_under, source_of.
  destruct (news_articles row) as [ja|]; simpl; [|lia].
  destruct (ja_source ja) as [source|]; simpl; [|lia].
  case_bool_decide as Hempty; simpl; [lia|].
  unfold SupabaseClient.bump. destruct (decide (source = s)) as [->|Hne].
  - rewrite lookup_insert_eq, bool_decide_eq_true_2 by done. simpl. lia.
  - rewrite lookup_insert_ne, bool_decide_eq_false_2 by congruence. lia.
Qed.

Lemma foldl_count_source (rows : list interaction) (s : string) :
  forall counts : gmap string Z,
    default 0%Z (foldl count_source counts rows !! s)
    = (default 0%Z (counts !! s) + reads_of s rows)%Z.
Proof.
  unfold reads_of.
  induction rows as [|row rows IH]; intros counts; simpl; [lia|].
  rewrite IH, count_source_lookup, filter_cons.
  destruct (sourced_under s row); simpl; lia.
Qed.

Lemma source_counts_lookup (rows : list interaction) (s : string) (n : Z) :
  foldl count_source ∅ rows !! s = Some n -> n = reads_of s rows /\ (1 <= n)%Z.
Proof.
  intros H. pose proof (foldl_count_source rows s ∅) as E.
  rewrite H, lookup_empty in E. simpl in E. split; [lia|].
  assert (Hpos : positive_counts (foldl count_source ∅ rows)) by auto with counts.
  exact (Hpos s n H).
Qed.

Lemma source_counts_observed (rows : list interaction) (s : string) :
  is_Some (foldl count_source ∅ rows !! s)
  <-> exists row, row ∈ rows /\ sourced_under s row = true.
Proof.
  split.
  - intros [n H]. apply source_counts_lookup in H as [-> Hn]. unfold reads_of in Hn.
    destruct (filter (sourced_under s) rows) as [|row l] eqn:E; [simpl in Hn; lia|].
    assert (Hin : row ∈ filter (sourced_under s) rows) by (rewrite E; left).
    apply list_elem_of_filter in Hin as [Hs Hin]. exists row. split; [done|].
    by apply Is_true_true.
  - intros (row & Hin & Hs).
    pose proof (foldl_count_source rows s ∅) as E. rewrite lookup_empty in E. simpl in E.
    assert (Hin' : row ∈ filter (sourced_under s) rows)
      by (apply list_elem_of_filter; split; [by apply Is_true_true | done]).
    destruct (foldl count_source ∅ rows !! s) as [n|]; [eauto|]. simpl in E.
    unfold reads_of in E.
    destruct (filter (sourced_under s) rows); [by apply elem_of_nil in Hin' | simpl in E; lia].
Qed.

Lemma foldl_max_in (l : list Z) (z : Z) : foldl Z.max z l ∈ z :: l.
Proof.
  revert z. induction l as [|n l IH]; intros z; simpl; [left|].
  specialize (IH (Z.max z n)). apply elem_of_cons in IH as [E|IH].
  - rewrite E. destruct (Z.max_spec z n) as [[_ ->]|[_ ->]]; [right; left | left].
  - right. by right.
Qed.

End SourceProfile.

(** X1: the source profile is built without an exception, for every
    history.  A source has an affinity exactly when an interaction of the
    history is joined with an article of that source; affinities lie in
    (0, 1], are proportional to the numbers of such interactions, and a
    source with the most of them has affinity 1. *)
Theorem source_affinities (interactions : list interaction) :
  exists sp,
    _get_user_source_preferences interactions = Ok sp
    /\ unit_interval sp
    /\ (forall s : string,
          is_Some (sp !! s)
          <-> exists row, row ∈ interactions /\ sourced_under s row = true)
    /\ (forall (s t : string) (qs qt : Q),
          sp !! s = Some qs -> sp !! t = Some qt ->
          qs * inject_Z (reads_of t interactions) == qt * inject_Z (reads_of s interactions))
    /\ (sp <> ∅ ->
        exists (s : string) (q : Q),
          sp !! s = Some q /\ q == 1
          /\ forall t : string, (reads_of t interactions <= reads_of s interactions)%Z).
Proof.
  destruct (source_preferences_ok interactions) as (sp & Hsp & Hunit).
  exists sp. split; [done|]. split; [done|].
  unfold _get_user_source_preferences in Hsp.
  set (counts := foldl count_source ∅ interactions) in *.
  destruct (values counts) as [|c cs] eqn:E.
  { injection Hsp as <-. apply values_nil in E.
    split; [|split; [|done]].
    - intros s. rewrite <- source_counts_observed. fold counts. rewrite E, !lookup_empty.
      split; intros [? ?]; discriminate.
    - intros s t qs qt H. by rewrite lookup_empty in H. }
  set (max_count := foldl Z.max c cs) in *.
  destruct (max_count =? 0)%Z eqn:Ez; [discriminate|]. injection Hsp as <-.
  apply Z.eqb_neq in Ez.
  assert (Hmax : (1 <= max_count)%Z).
  { assert (c ∈ values counts) as [k Hk]%values_elem by (rewrite E; left).
    pose proof (proj2 (source_counts_lookup interactions k c Hk)).
    pose proof (foldl_max_ge cs c). unfold max_count. lia. }
  assert (Hlookup : forall s q,
            (fun count : Z => inject_Z count / inject_Z max_count) <$> counts !! s = Some q ->
            q = inject_Z (reads_of s interactions) / inject_Z max_count
            /\ counts !! s = Some (reads_of s interactions)).
  { intros s q H. destruct (counts !! s) as [n|] eqn:En; [|done].
    simpl in H. injection H as <-.
    by apply source_counts_lookup in En as [-> _]. }
  assert (Hq : 0 < inject_Z max_count) by (by apply inject_Z_pos).
  split; [|split].
  - intros s. rewrite lookup_fmap, <- source_counts_observed. fold counts.
    by rewrite fmap_is_Some.
  - intros s t qs qt Hs Ht. rewrite lookup_fmap in Hs, Ht.
    apply Hlookup in Hs as [-> _]. apply Hlookup in Ht as [-> _].
    field. lra.
  - intros _. pose proof (foldl_max_in cs c) as Hin. fold max_count in Hin.
    rewrite <- E in Hin. apply values_elem in Hin as [s Hs].
    exists s, (inject_Z max_count / inject_Z max_count).
    split; [by rewrite lookup_fmap, Hs|]. split; [field; lra|].
    apply source_counts_lookup in Hs as [Hs _]. rewrite <- Hs.
    intros t. destruct (counts !! t) as [n|] eqn:En.
    + assert (n ∈ values counts) as Hn by (apply values_elem; eauto).
      apply source_counts_lookup in En as [<- _].
      rewrite E in Hn. apply elem_of_cons in Hn as [->|Hn];
        [apply foldl_max_ge | by apply foldl_max_elem].
    + pose proof (foldl_count_source interactions t ∅) as Et.
      fold counts in Et. rewrite En, lookup_empty in Et. simpl in Et. lia.
Qed.

(** X2: the category counts of the database are the numbers of
    interactions joined with an article of each (non-empty) category: every
    count is at least one, a category without such an interaction has no
    entry, and the counts add up to the number of those interactions. *)
Theorem category_counts_of_history
    (w : world) (user_id : string) (rows : list interaction) :
  select_interaction_categories w user_id = Ok rows ->
  let counts := SupabaseClient.get_user_category_preferences w user_id in
  (forall c : string,
     counts !! c
     = let n := length (filter (counted_under c) rows) in
       if decide (n = 0%nat) then None else Some (Z.of_nat n))
  /\ Py.sum (values counts) = Z.of_nat (length (filter counted rows)).
Proof.
  intros H counts. split; [|by apply total_interactions_history].
  intros c. pose proof (category_counts_history w user_id rows c H) as E.
  fold counts in E. simpl.
  pose proof (category_counts_positive w user_id) as Hpos. fold counts in Hpos.
  destruct (counts !! c) as [n|] eqn:En; simpl in E.
  - pose proof (Hpos c n En) as Hn. simpl in Hn.
    case_decide; [lia | by rewrite <- E].
  - case_decide; [done | lia].
Qed.

Lemma category_counts_of_history_witness :
  select_interaction_categories Example.regular "u"
  = Ok [Example.read_wired; Example.read_wired; Example.read_reuters]
  /\ SupabaseClient.get_user_category_preferences Example.regular "u" !! "technology"
     = Some 2%Z.
Proof.
  split; [reflexivity|].
  destruct (category_counts_of_history Example.regular "u"
              [Example.read_wired; Example.read_wired; Example.read_reuters] eq_refl)
    as [H _].
  rewrite (H "technology"). reflexivity.
Defined.

(** X3: whatever the database answers, the category profile is not empty
    and every affinity of it lies in (0, 1]; the affinity of an observed
    category is exactly 1 from half of the counted interactions on. *)
Theorem category_profile_bounds (w : world) (user_id : string) :
  let counts := SupabaseClient.get_user_category_preferences w user_id in
  let profile := _get_user_category_preferences w user_id in
  profile <> ∅
  /\ unit_interval profile
  /\ forall (c : string) (n : Z),
       counts !! c = Some n ->
       exists q, profile !! c = Some q
                 /\ (q == 1.0 <-> (Py.sum (values counts) <= 2 * n)%Z).
Proof.
  intros counts profile. split; [|split; [apply category_preferences_positive|]].
  - unfold profile, _get_user_category_preferences. fold counts.
    case_bool_decide as Hempty.
    + intros E. apply (f_equal (fun m => m !! "technology")) in E. discriminate E.
    + pose proof (sum_positive counts (category_counts_positive w user_id) Hempty).
      destruct (Py.sum (values counts) =? 0)%Z eqn:Ez; [lia|].
      intros E. by apply fmap_empty_inv in E.
  - intros c n Hc.
    assert (Hne : counts <> ∅) by (intros E; by rewrite E in Hc).
    pose proof (sum_positive counts (category_counts_positive w user_id) Hne) as Htotal.
    unfold profile. rewrite counts_affinity by done. fold counts.
    rewrite lookup_fmap, Hc. simpl. eexists. split; [reflexivity|].
    apply (affinity_saturates n (Py.sum (values counts))). lia.
Qed.

(** X4: for every profile the builder returns and every category that can
    be a dict key, the category boost is computed and lies in (0, 1]; a
    category that is in neither table gets 0.5 * 0.5. *)
Theorem category_boost_bounds (w : world) (user_id : string) (category : value) :
  hashable category = true ->
  exists boost,
    _calculate_category_boost category (_get_user_category_preferences w user_id) = Ok boost
    /\ 0 < boost <= 1
    /\ forall c : string,
         category = VStr c ->
         category_weights !! c = None ->
         _get_user_category_preferences w user_id !! c = None ->
         boost = 0.5 * 0.5.
Proof.
  intros Hhash.
  destruct (lookup_or_ok category_weights category 0.5 Hhash) as [bw Hbw].
  destruct (lookup_or_ok (_get_user_category_preferences w user_id) category 0.5 Hhash)
    as [up Hup].
  exists (bw * up).
  assert (E : _calculate_category_boost category (_get_user_category_preferences w user_id)
              = Ok (bw * up)).
  { unfold _calculate_category_boost. rewrite Hbw. simpl. by rewrite Hup. }
  split; [exact E|]. split.
  - eapply category_boost_unit; [apply category_preferences_positive | exact E].
  - intros c -> Hw Hp. simpl in Hbw, Hup. rewrite Hw in Hbw. rewrite Hp in Hup.
    simpl in Hbw, Hup. by injection Hbw as <-; injection Hup as <-.
Qed.

Lemma category_boost_bounds_witness :
  hashable (VStr "sports") = true
  /\ exists boost,
       _calculate_category_boost (VStr "sports")
         (_get_user_category_preferences Example.calm "u") = Ok boost
       /\ 0 < boost <= 1.
Proof.
  split; [reflexivity|].
  destruct (category_boost_bounds Example.calm "u" (VStr "sports") eq_refl)
    as (boost & H & Hb & _).
  exists boost. split; [exact H | exact Hb].
Defined.

Section RecencyOrder.

Lemma recency_steps_antitone (h1 h2 : Q) :
  h1 <= h2 -> recency_steps h2 <= recency_steps h1.
Proof.
  intros H. unfold recency_steps.
  repeat match goal with
         | |- context [Qle_bool ?a ?b] =>
             let E := fresh "E" in
             destruct (Qle_bool a b) eqn:E;
             [apply Qle_bool_iff in E | apply Qle_bool_false in E]
         end; lra.
Qed.

End RecencyOrder.

(** X5: a timestamp that carries a UTC offset (a trailing Z included) gets
    the recency boost 0.5 at every clock reading, whatever its age: the
    subtraction from the naive [utcnow()] raises and the handler answers. *)
Theorem recency_boost_with_offset
    (w : world) (s : string) (pub_time : datetime) (offset : Z) :
  fromisoformat w (replace_Z s) = Some pub_time ->
  utcoffset pub_time = Some offset ->
  forall i : nat, _calculate_recency_boost w i (VStr s) = 0.5.
Proof. intros Hparse Haware i. by eapply recency_boost_aware. Qed.

Lemma recency_boost_with_offset_witness :
  _calculate_recency_boost Example.calm 0 (VStr "2024-01-01T11:59:00+00:00") = 0.5.
Proof.
  apply (recency_boost_with_offset Example.calm "2024-01-01T11:59:00+00:00"
           {| wall := Example.noon - 60 * 1000000; utcoffset := Some 0%Z |} 0%Z);
    reflexivity.
Defined.

(** X6: at one clock reading, of two timestamps without offset the older
    one never gets the larger recency boost; and every recency boost is one
    of 1.0, 0.8, 0.6, 0.4, 0.2 and 0.5. *)
Theorem recency_boost_older_not_larger
    (w : world) (i : nat) (s1 s2 : string) (p1 p2 : datetime) :
  fromisoformat w (replace_Z s1) = Some p1 ->
  fromisoformat w (replace_Z s2) = Some p2 ->
  utcoffset p1 = None -> utcoffset p2 = None ->
  (wall p1 <= wall p2)%Z ->
  _calculate_recency_boost w i (VStr s1) <= _calculate_recency_boost w i (VStr s2)
  /\ forall published_at : value,
       _calculate_recency_boost w i published_at ∈ [1.0; 0.8; 0.6; 0.4; 0.2; 0.5].
Proof.
  intros H1 H2 N1 N2 Hle. split.
  - rewrite (recency_boost_naive w i s1 p1 H1 N1), (recency_boost_naive w i s2 p2 H2 N2).
    apply recency_steps_antitone.
    apply Qmult_le_compat_r; [|discriminate].
    unfold Qle. simpl. lia.
  - intros published_at. unfold _calculate_recency_boost.
    destruct (hours_old w i published_at) as [hours|].
    + pose proof (recency_steps_values hours) as H.
      repeat (apply elem_of_cons in H as [->|H]; [set_solver|]). by apply elem_of_nil in H.
    + set_solver.
Qed.

Lemma recency_boost_older_not_larger_witness :
  _calculate_recency_boost Example.calm 0 (VStr "2023-12-31T06:00:00")
  <= _calculate_recency_boost Example.calm 0 (VStr "2024-01-01T11:30:00").
Proof.
  apply (recency_boost_older_not_larger Example.calm 0
           "2023-12-31T06:00:00" "2024-01-01T11:30:00"
           {| wall := Example.noon - 30 * 3600 * 1000000; utcoffset := None |}
           {| wall := Example.noon - 30 * 60 * 1000000; utcoffset := None |});
    first [reflexivity | (simpl; unfold Example.noon; lia)].
Defined.

Section DiversityOrder.

Lemma repeats_app (field : string) (a : article) (acc more : list article) :
  repeats field a (acc ++ more) = (repeats field a acc + repeats field a more)%nat.
Proof. unfold repeats. by rewrite filter_app, length_app. Qed.

Lemma floor_half_antitone (n m : Z) (step : Q) :
  (n <= m)%Z -> 0 <= step ->
  Qmax 0.5 (1.0 - inject_Z m * step) <= Qmax 0.5 (1.0 - inject_Z n * step).
Proof.
  intros Hnm Hstep.
  assert (inject_Z n * step <= inject_Z m * step).
  { apply Qmult_le_compat_r; [by rewrite <- Zle_Qle | done]. }
  apply Q.max_le_compat_l. lra.
Qed.

Lemma floor_half_at_floor (n : Z) (step : Q) :
  0 < step -> (Qmax 0.5 (1.0 - inject_Z n * step) == 0.5 <-> 0.5 <= inject_Z n * step).
Proof.
  intros Hstep.
  destruct (Q.max_spec 0.5 (1.0 - inject_Z n * step)) as [[H E]|[H E]];
    rewrite E; split; intros; lra.
Qed.

End DiversityOrder.

(** X7: accepting more results never raises the diversity penalty factor
    of an article: against a longer accepted list the factor is at most what
    it is against the shorter one. *)
Theorem diversity_penalty_antitone (a : article) (acc more : list article) :
  _calculate_diversity_penalty a (acc ++ more) <= _calculate_diversity_penalty a acc.
Proof.
  destruct acc as [|first others].
  - simpl. apply diversity_penalty_bounds.
  - change ((first :: others) ++ more) with (first :: (others ++ more)).
    rewrite !diversity_penalty_cons.
    change (first :: (others ++ more)) with ((first :: others) ++ more).
    rewrite !repeats_app.
    apply Q.min_le_compat; apply floor_half_antitone; first [lia | lra].
Qed.

(** X8: against a non-empty accepted list the factor is 1.0 exactly when
    no accepted result shares the category or the source of the article, and
    it is at its floor 0.5 exactly when at least five share the category or
    at least four share the source. *)
Theorem diversity_penalty_extremes (a first : article) (others : list article) :
  let accepted := first :: others in
  let c := repeats "category" a accepted in
  let s := repeats "source" a accepted in
  (_calculate_diversity_penalty a accepted == 1.0 <-> c = 0%nat /\ s = 0%nat)
  /\ (_calculate_diversity_penalty a accepted == 0.5 <-> (5 <= c)%nat \/ (4 <= s)%nat).
Proof.
  intros accepted c s. unfold accepted. rewrite diversity_penalty_cons. fold accepted c s.
  pose proof (floor_half_bounds (Z.of_nat c) 0.1 ltac:(lia) ltac:(lra)) as Bc.
  pose proof (floor_half_bounds (Z.of_nat s) 0.15 ltac:(lia) ltac:(lra)) as Bs.
  pose proof (floor_half_at_floor (Z.of_nat c) 0.1 ltac:(lra)) as Fc.
  pose proof (floor_half_at_floor (Z.of_nat s) 0.15 ltac:(lra)) as Fs.
  assert (Hc5 : 0.5 <= inject_Z (Z.of_nat c) * 0.1 <-> (5 <= c)%nat).
  { split; intros H.
    - assert (inject_Z 5 <= inject_Z (Z.of_nat c)) as Hz by (change (inject_Z 5) with 5; lra).
      rewrite <- Zle_Qle in Hz. lia.
    - assert (inject_Z 5 <= inject_Z (Z.of_nat c)) as Hz by (rewrite <- Zle_Qle; lia).
      change (inject_Z 5) with 5 in Hz. lra. }
  assert (Hs4 : 0.5 <= inject_Z (Z.of_nat s) * 0.15 <-> (4 <= s)%nat).
  { split; intros H.
    - destruct (decide (4 <= s)%nat) as [|Hlt]; [done|].
      assert (inject_Z (Z.of_nat s) <= inject_Z 3) as Hz by (rewrite <- Zle_Qle; lia).
      change (inject_Z 3) with 3 in Hz. lra.
    - assert (inject_Z 4 <= inject_Z (Z.of_nat s)) as Hz by (rewrite <- Zle_Qle; lia).
      change (inject_Z 4) with 4 in Hz. lra. }
  assert (Hzero : forall (n : nat) (step : Q),
            0 < step ->
            (Qmax 0.5 (1.0 - inject_Z (Z.of_nat n) * step) == 1.0 <-> n = 0%nat)).
  { intros n step Hstep. destruct n as [|n].
    - split; [done|]. intros _. change (inject_Z (Z.of_nat 0)) with 0.
      destruct (Q.max_spec 0.5 (1.0 - 0 * step)) as [[H E]|[H E]]; rewrite E; lra.
    - split; [|discriminate]. intros Hx. exfalso.
      assert (Hn : 1 <= inject_Z (Z.of_nat (S n)))
        by (change 1 with (inject_Z 1); rewrite <- Zle_Qle; lia).
      destruct (Q.max_spec 0.5 (1.0 - inject_Z (Z.of_nat (S n)) * step)) as [[H E]|[H E]];
        rewrite E in Hx; [nra | lra]. }
  pose proof (Hzero c 0.1 ltac:(lra)) as Hc0.
  pose proof (Hzero s 0.15 ltac:(lra)) as Hs0.
  clearbody c s.
  rewrite <- Hc5, <- Hs4, <- Fc, <- Fs, <- Hc0, <- Hs0.
  destruct (Q.min_spec (Qmax 0.5 (1.0 - inject_Z (Z.of_nat c) * 0.1))
                       (Qmax 0.5 (1.0 - inject_Z (Z.of_nat s) * 0.15))) as [[H E]|[H E]];
    rewrite E; split; split; intros; lra.
Qed.

Section ModelRanking.
Import NewsRecommendationModel.

Lemma StronglySorted_sublist {A} (R : A -> A -> Prop) (l k : list A) :
  l `sublist_of` k -> StronglySorted R k -> StronglySorted R l.
Proof.
  intros Hsub Hk. revert l Hsub.
  induction Hk as [|x k Hk IH Hx]; intros l Hsub.
  - apply sublist_nil_r in Hsub as ->. constructor.
  - apply sublist_cons_r in Hsub as [Hsub|(l' & -> & Hsub)]; [by apply IH|].
    constructor; [by apply IH|].
    apply Forall_forall. intros y Hy. eapply Forall_forall in Hx; [exact Hx|].
    eapply elem_of_submseteq; [exact Hy | by apply sublist_submseteq].
Qed.

Lemma slice_to_sublist {A} (l : list A) (k : Z) : slice_to l k `sublist_of` l.
Proof. unfold slice_to. destruct (0 <=? k)%Z; apply sublist_take. Qed.

Lemma slice_to_sorted {A} (R : A -> A -> Prop) (l : list A) (k : Z) :
  StronglySorted R l -> StronglySorted R (slice_to l k).
Proof. apply StronglySorted_sublist, slice_to_sublist. Qed.

Lemma slice_to_all {A} (l : list A) (k : Z) :
  (Z.of_nat (length l) <= k)%Z -> slice_to l k = l.
Proof.
  intros H. rewrite slice_to_nonneg by lia. apply take_ge. lia.
Qed.

Lemma sort_desc_length {A} (key : A -> Q) (l : list A) :
  length (sort_desc key l) = length l.
Proof. by rewrite sort_desc_perm. Qed.

Lemma predict_ok (w : world) (news : list article) (outputs : list (Q * Q)) :
  network w news = Ok outputs ->
  exists preds,
    predict w news = Ok preds
    /\ length preds = length outputs
    /\ forall (i : nat) (p : prediction),
         preds !! i = Some p ->
         exists click dwell,
           outputs !! i = Some (click, dwell)
           /\ p = {| article_index := i; click_probability := click; dwell_score := dwell;
                     recommendation_score := click * 0.7 + (dwell / 10) * 0.3 |}.
Proof.
  intros H. unfold predict. rewrite H. simpl. eexists. split; [reflexivity|].
  split; [apply length_imap|].
  intros i p Hp. rewrite list_lookup_imap in Hp.
  destruct (outputs !! i) as [[click dwell]|]; [|done].
  simpl in Hp. injection Hp as <-. by exists click, dwell.
Qed.

End ModelRanking.

(** X9: when the network answers, the model wrapper returns its
    recommendations best first by recommendation score, as many as there
    are predictions, articles and places up to top-k; with a top-k of at
    least the number of articles nothing that has a prediction is left out.
    When the network raises, so does the wrapper. *)
Theorem model_ranking_order (w : world) (news : list article) (top_k : Z) :
  match network w news with
  | Ok outputs =>
      exists preds ml,
        NewsRecommendationModel.predict w news = Ok preds
        /\ NewsRecommendationModel.get_personalized_recommendations w news top_k = Ok ml
        /\ StronglySorted
             (fun x y => score_key "recommendation_score" y
                         <= score_key "recommendation_score" x) ml
        /\ ((0 <= top_k)%Z ->
            length ml
            = Nat.min (Nat.min (length outputs) (length news)) (Z.to_nat top_k))
        /\ ((Z.of_nat (length news) <= top_k)%Z ->
            ml ≡ₚ zip_with NewsRecommendationModel.recommendation preds news)
  | Raise e =>
      NewsRecommendationModel.get_personalized_recommendations w news top_k = Raise e
  end.
Proof.
  destruct (network w news) as [outputs|e] eqn:Hnet.
  - destruct (predict_ok w news outputs Hnet) as (preds & Hpred & Hlen & _).
    unfold NewsRecommendationModel.get_personalized_recommendations. rewrite Hpred. simpl.
    eexists preds, _. split; [done|]. split; [reflexivity|].
    split; [apply slice_to_sorted, sort_desc_sorted|]. split.
    + intros Hk. by rewrite slice_to_length, sort_desc_length, length_zip_with, Hlen.
    + intros Hk. rewrite slice_to_all; [apply sort_desc_perm|].
      rewrite sort_desc_length, length_zip_with. lia.
  - unfold NewsRecommendationModel.get_personalized_recommendations,
      NewsRecommendationModel.predict. by rewrite Hnet.
Qed.

(** X10: every recommendation of the model wrapper is one of the articles
    paired with the prediction of the same position: it carries that
    prediction's click probability, dwell score and combined score
    click*0.7 + (dwell/10)*0.3, and every other field of the article
    unchanged. *)
Theorem model_recommendation_pairing
    (w : world) (news ml : list article) (top_k : Z) (outputs : list (Q * Q)) :
  network w news = Ok outputs ->
  NewsRecommendationModel.get_personalized_recommendations w news top_k = Ok ml ->
  forall r : article,
    r ∈ ml ->
    exists (i : nat) (a : article) (click dwell : Q),
      news !! i = Some a
      /\ outputs !! i = Some (click, dwell)
      /\ r !! "click_probability" = Some (VNum click)
      /\ r !! "dwell_score" = Some (VNum dwell)
      /\ r !! "recommendation_score" = Some (VNum (click * 0.7 + (dwell / 10) * 0.3))
      /\ forall k : string,
           k <> "recommendation_score" -> k <> "dwell_score" -> k <> "click_probability" ->
           r !! k = a !! k.
Proof.
  intros Hnet Hml r Hr.
  destruct (predict_ok w news outputs Hnet) as (preds & Hpred & _ & Hpreds).
  unfold NewsRecommendationModel.get_personalized_recommendations in Hml.
  rewrite Hpred in Hml. simpl in Hml. injection Hml as <-.
  apply slice_to_elem in Hr. rewrite sort_desc_perm in Hr.
  apply elem_of_lookup_zip_with in Hr as (i & p & a & -> & Hp & Ha).
  destruct (Hpreds i p Hp) as (click & dwell & Hout & ->).
  exists i, a, click, dwell. split; [done|]. split; [done|].
  unfold NewsRecommendationModel.recommendation. simpl.
  split; [by rewrite lookup_insert_ne, lookup_insert_ne, lookup_insert_eq|].
  split; [by rewrite lookup_insert_ne, lookup_insert_eq|].
  split; [by rewrite lookup_insert_eq|].
  intros k H1 H2 H3. by rewrite !lookup_insert_ne.
Qed.

Lemma model_recommendation_pairing_witness :
  network Example.calm Example.candidates
  = Ok (imap (fun i _ => ((9 - inject_Z (Z.of_nat i)) / 10 / 0.7, 0)) Example.candidates)
  /\ Forall (fun r => is_Some (r !! "recommendation_score")) Example.recommended.
Proof.
  split; [reflexivity|].
  apply Forall_forall. intros r Hr.
  destruct (model_recommendation_pairing Example.calm Example.candidates
              Example.recommended 3 _ eq_refl eq_refl r Hr)
    as (i & a & click & dwell & _ & _ & _ & _ & H & _).
  by rewrite H.
Defined.

(** X11: [predict] returns one prediction per output of the network, in
    order and numbered by position; when the click probability lies in
    [0, 1] and the dwell score in [0, 10] the combined score lies in [0, 1],
    and it is negative as soon as the dwell score is below -70/3. *)
Theorem predict_scores (w : world) (news : list article) (outputs : list (Q * Q)) :
  network w news = Ok outputs ->
  exists preds,
    NewsRecommendationModel.predict w news = Ok preds
    /\ length preds = length outputs
    /\ forall (i : nat) (click dwell : Q),
         outputs !! i = Some (click, dwell) ->
         exists p,
           preds !! i = Some p
           /\ NewsRecommendationModel.article_index p = i
           /\ NewsRecommendationModel.recommendation_score p
              = click * 0.7 + (dwell / 10) * 0.3
           /\ (0 <= click <= 1 -> 0 <= dwell <= 10 ->
               0 <= NewsRecommendationModel.recommendation_score p <= 1)
           /\ (click <= 1 -> dwell < - (70 # 3) ->
               NewsRecommendationModel.recommendation_score p < 0).
Proof.
  intros Hnet. destruct (predict_ok w news outputs Hnet) as (preds & Hpred & Hlen & Hpreds).
  exists preds. split; [done|]. split; [done|].
  intros i click dwell Hi.
  assert (is_Some (preds !! i)) as [p Hp].
  { apply lookup_lt_is_Some. rewrite Hlen. by eapply lookup_lt_Some. }
  destruct (Hpreds i p Hp) as (click' & dwell' & Hi' & ->).
  rewrite Hi in Hi'. injection Hi' as <- <-.
  eexists. split; [exact Hp|]. simpl. repeat split; try done.
  - assert (E : dwell / 10 == dwell * (1 # 10)) by (field). rewrite E. lra.
  - assert (E : dwell / 10 == dwell * (1 # 10)) by (field). rewrite E. lra.
  - intros Hc Hd. assert (E : dwell / 10 == dwell * (1 # 10)) by (field). rewrite E. lra.
Qed.

Lemma predict_scores_witness :
  network Example.gloomy [Example.chips] = Ok [(0.5, -300)]
  /\ exists p,
       NewsRecommendationModel.predict Example.gloomy [Example.chips] = Ok [p]
       /\ NewsRecommendationModel.recommendation_score p < 0.
Proof.
  split; [reflexivity|].
  destruct (predict_scores Example.gloomy [Example.chips] [(0.5, -300)] eq_refl)
    as (preds & Hpred & Hlen & Hall).
  destruct (Hall 0%nat 0.5 (-300) eq_refl) as (p & Hp & _ & _ & _ & Hneg).
  exists p. split.
  - rewrite Hpred. destruct preds as [|p' [|? ?]]; try discriminate Hlen.
    simpl in Hp. by injection Hp as ->.
  - apply Hneg; [discriminate | reflexivity].
Defined.

Section TrendingRanker.
Import RecommendationService.

Lemma credible_sources_bounds : map_Forall (fun _ q => 0.6 <= q <= 1) credible_sources.
Proof.
  apply map_Forall_to_list.
  assert (E : map_to_list credible_sources
              ≡ₚ [("Reuters", 1.0); ("BBC", 1.0); ("Associated Press", 1.0);
                  ("Bloomberg", 0.9); ("CNN", 0.8); ("TechCrunch", 0.8); ("Wired", 0.8);
                  ("Nature", 1.0); ("Science Daily", 0.9)]).
  { apply map_to_list_to_map. apply (bool_decide_unpack _). by vm_compute. }
  rewrite E. repeat (constructor; [simpl; lra|]). constructor.
Qed.

Lemma source_credibility_bounds (source : value) (q : Q) :
  _get_source_credibility source = Ok q -> 0.6 <= q <= 1.
Proof.
  unfold _get_source_credibility.
  destruct source as [|s|n|d]; simpl; intros [= <-]; try lra.
  destruct (credible_sources !! s) as [x|] eqn:E; simpl;
    [exact (credible_sources_bounds s x E) | lra].
Qed.

Lemma source_credibility_ok (source : value) :
  Py.is_ok (_get_source_credibility source) = hashable source.
Proof. by destruct source. Qed.

Lemma trending_article_inv (w : world) (i : nat) (a a' : article) :
  trending_article w i a = Ok a' ->
  exists base cred,
    as_number (get_or a "recommendation_score" (VNum 0.5)) = Ok base
    /\ _get_source_credibility (get_or a "source" (VStr "")) = Ok cred
    /\ a' = <["trending_score" :=
               VNum (base * 0.6
                     + _calculate_recency_boost w i (get_or a "published_at" (VStr "")) * 0.3
                     + cred * 0.1)]> a.
Proof.
  unfold trending_article. intros H. bind_ok H cred. bind_ok H base.
  injection H as <-. by exists base, cred.
Qed.

Lemma trending_loop_inv (w : world) (todo : list article) :
  forall (i : nat) (out : list article),
    trending_loop w i todo = Ok out ->
    length out = length todo
    /\ forall (j : nat) (a : article),
         todo !! j = Some a ->
         exists a', out !! j = Some a' /\ trending_article w (i + j) a = Ok a'.
Proof.
  induction todo as [|a rest IH]; intros i out H; simpl in H.
  - injection H as <-. split; [done|]. intros j b Hj. by rewrite lookup_nil in Hj.
  - destruct (trending_article w i a) as [a'|] eqn:Ea; [|discriminate]. simpl in H.
    destruct (trending_loop w (S i) rest) as [rest'|] eqn:Er; [|discriminate]. simpl in H.
    injection H as <-. apply IH in Er as [Hlen Hall].
    split; [simpl; by rewrite Hlen|].
    intros [|j] b Hj; simpl in Hj.
    + injection Hj as <-. exists a'. by rewrite Nat.add_0_r.
    + apply Hall in Hj as (b' & Hb' & Hs). exists b'. split; [done|].
      by rewrite Nat.add_succ_r.
Qed.

Lemma trending_loop_elem (w : world) (todo out : list article) (i : nat) (r : article) :
  trending_loop w i todo = Ok out -> r ∈ out ->
  exists (j : nat) (a : article), todo !! j = Some a /\ trending_article w (i + j) a = Ok r.
Proof.
  intros H Hr. apply trending_loop_inv in H as [Hlen Hall].
  apply list_elem_of_lookup_1 in Hr as [j Hj].
  assert (is_Some (todo !! j)) as [a Ha].
  { apply lookup_lt_is_Some. rewrite <- Hlen. by eapply lookup_lt_Some. }
  destruct (Hall j a Ha) as (a' & Ha' & Hs). rewrite Hj in Ha'. injection Ha' as <-.
  by exists j, a.
Qed.

Lemma trending_loop_ok (w : world) (todo : list article) :
  forall i : nat,
    Forall (fun a => Py.is_ok (as_number (get_or a "recommendation_score" (VNum 0.5)))
                     && hashable (get_or a "source" (VStr "")) = true) todo ->
    exists out, trending_loop w i todo = Ok out.
Proof.
  induction todo as [|a rest IH]; intros i H; simpl; [eauto|].
  inversion H as [|? ? Ha Hrest]; subst.
  apply andb_true_iff in Ha as [Hn Hs].
  unfold trending_article. rewrite <- source_credibility_ok in Hs.
  destruct (_get_source_credibility (get_or a "source" (VStr ""))); [|discriminate].
  destruct (as_number (get_or a "recommendation_score" (VNum 0.5))); [|discriminate].
  simpl. destruct (IH (S i) Hrest) as [out ->]. simpl. eauto.
Qed.

Lemma slice_to_length_le {A} (l : list A) (k : Z) : (length (slice_to l k) <= length l)%nat.
Proof. apply sublist_length, slice_to_sublist. Qed.

End TrendingRanker.

(** X12: whatever the collaborators answer, the trending ranker returns
    its results best first by trending score, at most [limit] of them and
    no more than the recent articles it was given; every result is one of
    the recent articles with the three scores of the model and a trending
    score written, all other fields unchanged, and the trending score is
    [recommendation_score*0.6 + recency*0.3 + credibility*0.1] with a
    credibility within [0.6, 1]. *)
Theorem trending_ranker_results (w : world) (limit : Z) :
  let recent := SupabaseClient.get_recent_news w (limit * 2) None in
  let ranked := RecommendationService.get_trending_recommendations w limit in
  StronglySorted
    (fun x y => score_key "trending_score" y <= score_key "trending_score" x) ranked
  /\ ((0 <= limit)%Z -> (length ranked <= Z.to_nat limit)%nat)
  /\ (length ranked <= length recent)%nat
  /\ forall r : article,
       r ∈ ranked ->
       exists (a : article) (i : nat) (base cred : Q),
         a ∈ recent
         /\ r !! "recommendation_score" = Some (VNum base)
         /\ RecommendationService._get_source_credibility (get_or a "source" (VStr ""))
            = Ok cred
         /\ 0.6 <= cred <= 1
         /\ r !! "trending_score"
            = Some (VNum (base * 0.6
                          + RecommendationService._calculate_recency_boost
                              w i (get_or a "published_at" (VStr "")) * 0.3
                          + cred * 0.1))
         /\ forall k : string,
              k <> "trending_score" -> k <> "recommendation_score" ->
              k <> "dwell_score" -> k <> "click_probability" ->
              r !! k = a !! k.
Proof.
  intros recent ranked. subst ranked.
  unfold RecommendationService.get_trending_recommendations,
    RecommendationService.try_trending.
  fold recent. destruct recent as [|a0 recent'] eqn:Erecent.
  { split; [constructor|]. split; [simpl; lia|]. split; [done|].
    intros r Hr. by apply elem_of_nil in Hr. }
  rewrite <- Erecent. clear Erecent a0 recent'.
  destruct (NewsRecommendationModel.get_personalized_recommendations w recent limit)
    as [ml|] eqn:Eml; simpl.
  2: { split; [constructor|]. split; [simpl; lia|]. split; [simpl; lia|].
       intros r Hr. by apply elem_of_nil in Hr. }
  destruct (RecommendationService.trending_loop w 0 ml) as [scored|] eqn:Escored; simpl.
  2: { split; [constructor|]. split; [simpl; lia|]. split; [simpl; lia|].
       intros r Hr. by apply elem_of_nil in Hr. }
  pose proof (trending_loop_inv w ml 0 scored Escored) as [Hlen _].
  assert (Hml : (length ml <= length recent)%nat).
  { unfold NewsRecommendationModel.get_personalized_recommendations in Eml.
    destruct (NewsRecommendationModel.predict w recent) as [preds|]; [|discriminate].
    simpl in Eml. injection Eml as <-.
    etrans; [apply slice_to_length_le|].
    rewrite sort_desc_length, length_zip_with. lia. }
  split; [apply slice_to_sorted, sort_desc_sorted|]. split; [|split].
  - intros Hk. rewrite slice_to_length by done. lia.
  - etrans; [apply slice_to_length_le|]. rewrite sort_desc_length. lia.
  - intros r Hr. apply slice_to_elem in Hr. rewrite sort_desc_perm in Hr.
    destruct (trending_loop_elem w ml scored 0 r Escored Hr) as (j & b & Hb & Hr').
    apply trending_article_inv in Hr' as (base & cred & Hbase & Hcred & ->).
    pose proof (model_recommendations w recent ml limit Eml) as Hfrom.
    eapply Forall_forall in Hfrom; [|by eapply list_elem_of_lookup_2].
    destruct Hfrom as (pred & a & Ha & ->).
    exists a, (0 + j)%nat, (NewsRecommendationModel.recommendation_score pred), cred.
    unfold get_or in *.
    rewrite (recommendation_frame pred a "source") in Hcred by done.
    rewrite (recommendation_frame pred a "published_at") by done.
    assert (Hb' : base = NewsRecommendationModel.recommendation_score pred).
    { unfold NewsRecommendationModel.recommendation in Hbase.
      rewrite lookup_insert_eq in Hbase. simpl in Hbase. by injection Hbase. }
    subst base.
    split; [done|]. split.
    { rewrite lookup_insert_ne by done. unfold NewsRecommendationModel.recommendation.
      by rewrite lookup_insert_eq. }
    split; [done|]. split; [by eapply source_credibility_bounds|].
    split; [by rewrite lookup_insert_eq|].
    intros k H1 H2 H3 H4. rewrite lookup_insert_ne by done.
    by apply recommendation_frame.
Qed.

(** X13: the trending ranker cuts before it rescores: when the model
    answers and every recommendation has a hashable source, the results are
    exactly the model's top [limit] by recommendation score, each with its
    trending score added, reordered; the trending score never brings in an
    article from outside the model's top [limit]. *)
Theorem trending_reorders_model_top (w : world) (limit : Z) (ml : list article) :
  (0 <= limit)%Z ->
  NewsRecommendationModel.get_personalized_recommendations
    w (SupabaseClient.get_recent_news w (limit * 2) None) limit = Ok ml ->
  Forall (fun a => hashable (get_or a "source" (VStr "")) = true) ml ->
  exists scored,
    RecommendationService.trending_loop w 0 ml = Ok scored
    /\ RecommendationService.get_trending_recommendations w limit
       = sort_desc (score_key "trending_score") scored
    /\ RecommendationService.get_trending_recommendations w limit ≡ₚ scored
    /\ length scored = length ml
    /\ forall (j : nat) (a : article),
         ml !! j = Some a ->
         exists r, scored !! j = Some r
                   /\ is_Some (r !! "trending_score")
                   /\ forall k : string, k <> "trending_score" -> r !! k = a !! k.
Proof.
  intros Hk Hml Hsrc.
  set (recent := SupabaseClient.get_recent_news w (limit * 2) None) in *.
  assert (Hlen_ml : (length ml <= Z.to_nat limit)%nat).
  { unfold NewsRecommendationModel.get_personalized_recommendations in Hml.
    destruct (NewsRecommendationModel.predict w recent) as [preds|]; [|discriminate].
    simpl in Hml. injection Hml as <-. rewrite slice_to_length by done. lia. }
  destruct (trending_loop_ok w ml 0) as [scored Hscored].
  { pose proof (model_recommendations w recent ml limit Hml) as Hfrom.
    apply Forall_forall. intros r Hr.
    eapply Forall_forall in Hfrom; [|exact Hr]. eapply Forall_forall in Hsrc; [|exact Hr].
    destruct Hfrom as (pred & a & _ & ->). rewrite Hsrc, andb_true_r.
    unfold get_or, NewsRecommendationModel.recommendation. by rewrite lookup_insert_eq. }
  pose proof (trending_loop_inv w ml 0 scored Hscored) as [Hlen Hall].
  exists scored. split; [done|].
  assert (E : RecommendationService.get_trending_recommendations w limit
              = sort_desc (score_key "trending_score") scored).
  { unfold RecommendationService.get_trending_recommendations,
      RecommendationService.try_trending. fold recent.
    destruct recent as [|a0 recent'] eqn:Erecent.
    - unfold NewsRecommendationModel.get_personalized_recommendations in Hml.
      destruct (NewsRecommendationModel.predict w []) as [preds|]; [|discriminate].
      simpl in Hml. rewrite zip_with_nil_r in Hml. simpl in Hml.
      rewrite slice_to_nil in Hml. injection Hml as <-.
      simpl in Hscored. by injection Hscored as <-.
    - rewrite Hml. simpl. rewrite Hscored. simpl.
      apply slice_to_all. rewrite sort_desc_length, Hlen. lia. }
  split; [done|]. split; [rewrite E; apply sort_desc_perm|]. split; [done|].
  intros j a Ha. destruct (Hall j a Ha) as (r & Hr & Hs).
  apply trending_article_inv in Hs as (base & cred & _ & _ & ->).
  eexists. split; [exact Hr|]. split; [by rewrite lookup_insert_eq|].
  intros k Hne. by rewrite lookup_insert_ne.
Qed.

Lemma trending_reorders_model_top_witness :
  NewsRecommendationModel.get_personalized_recommendations
    Example.calm (SupabaseClient.get_recent_news Example.calm (2 * 2) None) 2
  = Ok (take 2 Example.recommended)
  /\ length (RecommendationService.get_trending_recommendations Example.calm 2) = 2%nat.
Proof.
  split; [reflexivity|].
  destruct (trending_reorders_model_top Example.calm 2 (take 2 Example.recommended))
    as (scored & _ & _ & Hperm & Hlen & _).
  - lia.
  - reflexivity.
  - apply (bool_decide_unpack _). by vm_compute.
  - by rewrite Hperm, Hlen.
Defined.

Section RankerResults.
Import RecommendationService.

Lemma article_ids_inv (recs : list article) (ids : list value) :
  article_ids recs = Ok ids -> Forall (fun a => is_Some (a !! "id")) recs.
Proof.
  revert ids. induction recs as [|a recs IH]; intros ids H; [constructor|].
  simpl in H. destruct (a !! "id") as [v|] eqn:E; [|discriminate].
  bind_ok H ids'. constructor; [by rewrite E | by eapply IH].
Qed.

Lemma article_ids_missing (recs : list article) (a : article) :
  a ∈ recs -> a !! "id" = None -> article_ids recs = Raise KeyError.
Proof.
  induction recs as [|b recs IH]; intros Ha Hid; [by apply elem_of_nil in Ha|].
  simpl. apply elem_of_cons in Ha as [<-|Ha]; [by rewrite Hid|].
  destruct (b !! "id"); [|done]. by rewrite IH.
Qed.

Lemma model_length (w : world) (news ml : list article) (top_k : Z) :
  NewsRecommendationModel.get_personalized_recommendations w news top_k = Ok ml ->
  (length ml <= length news)%nat.
Proof.
  unfold NewsRecommendationModel.get_personalized_recommendations. intros H.
  bind_ok H preds. injection H as <-.
  etrans; [apply slice_to_length_le|]. rewrite sort_desc_length, length_zip_with. lia.
Qed.

(** What the scoring pass makes of the model's recommendations, seen from
    the candidates. *)
Lemma personalized_from_candidates
    (w : world) (user_id : string) (articles ml out : list article) (top_k : Z)
    (interactions : list interaction) (r : article) :
  NewsRecommendationModel.get_personalized_recommendations w articles top_k = Ok ml ->
  _apply_personalization w user_id ml interactions = Ok out ->
  r ∈ out ->
  exists (a : article) (pred : NewsRecommendationModel.prediction) (q : Q)
         (factors : gmap string Q),
    a ∈ articles
    /\ r = <["personalization_factors" := VDict factors]>
             (<["final_score" := VNum q]> (NewsRecommendationModel.recommendation pred a)).
Proof.
  intros Hml Hout Hr.
  destruct (apply_personalization_inv w user_id ml interactions out Hout)
    as (sp & _ & Hlen & Hall).
  apply list_elem_of_lookup_1 in Hr as [j Hj].
  assert (is_Some (ml !! j)) as [b Hb].
  { apply lookup_lt_is_Some. rewrite <- Hlen. by eapply lookup_lt_Some. }
  destruct (Hall j b Hb) as (b' & Hb' & Hs). rewrite Hj in Hb'. injection Hb' as <-.
  apply score_article_inv in Hs as (base & cb & sb & _ & _ & _ & ->).
  pose proof (model_recommendations w articles ml top_k Hml) as Hfrom.
  eapply Forall_forall in Hfrom; [|by eapply list_elem_of_lookup_2].
  destruct Hfrom as (pred & a & Ha & ->). by eexists a, pred, _, _.
Qed.

(** The two ways the [try] block of the personalized ranker returns. *)
Lemma try_personalized_inv
    (w : world) (user_id : string) (articles recs : list article) (top_k : Z) :
  try_personalized w user_id articles top_k = Ok recs ->
  (articles = [] /\ recs = [])
  \/ exists ml out,
       NewsRecommendationModel.get_personalized_recommendations
         w articles (Z.of_nat (length articles)) = Ok ml
       /\ _apply_personalization w user_id ml (SupabaseClient.get_user_interactions w user_id)
          = Ok out
       /\ recs = slice_to (sort_desc (score_key "final_score") out) top_k
       /\ Forall (fun a => is_Some (a !! "id")) recs.
Proof.
  unfold try_personalized. destruct articles as [|a articles]; intros H.
  - left. by injection H.
  - right. bind_ok H ml. bind_ok H out. bind_ok H ids. injection H as <-.
    exists ml, out. repeat split; try done. by eapply article_ids_inv.
Qed.

(** The results of the personalized ranker come from the candidates. *)
Lemma personalized_ranker_bounds
    (w : world) (user_id : string) (articles : list article) (top_k : Z) :
  let ranked := get_personalized_recommendations w user_id articles top_k in
  (length ranked <= length articles)%nat
  /\ ((0 <= top_k)%Z -> (length ranked <= Z.to_nat top_k)%nat)
  /\ (forall r : article,
        r ∈ ranked ->
        exists a : article,
          a ∈ articles
          /\ forall k : string,
               annotation k = false -> k <> "recommendation_score" ->
               k <> "dwell_score" -> k <> "click_probability" ->
               r !! k = a !! k).
Proof.
  intros ranked. subst ranked. unfold get_personalized_recommendations.
  destruct (try_personalized w user_id articles top_k) as [recs|e] eqn:Etry.
  2: { split; [apply slice_to_length_le|]. split.
       { intros Hk. rewrite slice_to_length by done. lia. }
       intros r Hr. apply slice_to_elem in Hr. by exists r. }
  apply try_personalized_inv in Etry as [[-> ->]|(ml & out & Hml & Hout & -> & Hids)].
  { split; [done|]. split; [simpl; lia|].
    intros r Hr. by apply elem_of_nil in Hr. }
  destruct (apply_personalization_inv w user_id ml _ out Hout) as (_ & _ & Hlen & _).
  pose proof (model_length w articles ml _ Hml) as Hlen'.
  split; [|split].
  - etrans; [apply slice_to_length_le|]. rewrite sort_desc_length. lia.
  - intros Hk. rewrite slice_to_length by done. lia.
  - intros r Hr. apply slice_to_elem in Hr. rewrite sort_desc_perm in Hr.
    destruct (personalized_from_candidates w user_id articles ml out _ _ r Hml Hout Hr)
      as (a & pred & q & factors & Ha & ->).
    exists a. split; [done|]. intros k Hk H1 H2 H3.
    rewrite annotate_frame by done. by apply recommendation_frame.
Qed.

End RankerResults.

(** X14: whatever the collaborators answer, the personalized ranker
    returns no more results than candidates and, for a top-k that is not
    negative, at most top-k; every result is one of the candidates, equal to
    it on every key but the five the model and the scoring pass write.  The
    result is either the candidates cut at top-k, untouched, or a list in
    descending order of final score whose entries all have an id, a numeric
    final score and the component breakdown. *)
Theorem personalized_ranker_results
    (w : world) (user_id : string) (articles : list article) (top_k : Z) :
  let ranked :=
    RecommendationService.get_personalized_recommendations w user_id articles top_k in
  (length ranked <= length articles)%nat
  /\ ((0 <= top_k)%Z -> (length ranked <= Z.to_nat top_k)%nat)
  /\ (forall r : article,
        r ∈ ranked ->
        exists a : article,
          a ∈ articles
          /\ forall k : string,
               annotation k = false -> k <> "recommendation_score" ->
               k <> "dwell_score" -> k <> "click_probability" ->
               r !! k = a !! k)
  /\ (ranked = slice_to articles top_k
      \/ (StronglySorted
            (fun x y => score_key "final_score" y <= score_key "final_score" x) ranked
          /\ forall r : article,
               r ∈ ranked ->
               is_Some (r !! "id")
               /\ exists (q : Q) (factors : gmap string Q),
                    r !! "final_score" = Some (VNum q)
                    /\ r !! "personalization_factors" = Some (VDict factors))).
Proof.
  intros ranked.
  destruct (personalized_ranker_bounds w user_id articles top_k) as (Hlen & Hk & Hfrom).
  split; [done|]. split; [done|]. split; [done|]. subst ranked.
  unfold RecommendationService.get_personalized_recommendations.
  destruct (RecommendationService.try_personalized w user_id articles top_k)
    as [recs|e] eqn:Etry; [|by left].
  apply try_personalized_inv in Etry as [[-> ->]|(ml & out & Hml & Hout & -> & Hids)];
    [left; by rewrite slice_to_nil|].
  right. split; [apply slice_to_sorted, sort_desc_sorted|].
  intros r Hr. split; [by eapply Forall_forall in Hids|].
  apply slice_to_elem in Hr. rewrite sort_desc_perm in Hr.
  destruct (personalized_from_candidates w user_id articles ml out _ _ r Hml Hout Hr)
    as (a & pred & q & factors & _ & ->).
  exists q, factors. split; [|by rewrite lookup_insert_eq].
  rewrite lookup_insert_ne by done. by rewrite lookup_insert_eq.
Qed.

(** X15: candidates without an id are never personalized: the ranker
    computes every score, fails while it collects the ids for the log, and
    returns the candidates cut at top-k, unscored (or the empty list, when
    the model gave no score or top-k cuts everything). *)
Theorem ranking_without_ids
    (w : world) (user_id : string) (articles : list article) (top_k : Z) :
  Forall (fun a => a !! "id" = None) articles ->
  let ranked :=
    RecommendationService.get_personalized_recommendations w user_id articles top_k in
  (ranked = slice_to articles top_k \/ ranked = [])
  /\ ranked `sublist_of` articles
  /\ ((1 <= top_k)%Z -> articles <> [] ->
      (exists o outputs, network w articles = Ok (o :: outputs)) ->
      ranked = slice_to articles top_k /\ ranked <> []).
Proof.
  intros Hno ranked. subst ranked.
  unfold RecommendationService.get_personalized_recommendations.
  destruct (RecommendationService.try_personalized w user_id articles top_k)
    as [recs|e] eqn:Etry.
  2: { split; [by left|]. split; [apply slice_to_sublist|].
       intros Hk Hne _. split; [done | by apply slice_to_nonempty]. }
  assert (Hempty : recs = []).
  { apply try_personalized_inv in Etry as [[_ ->]|(ml & out & Hml & Hout & -> & Hids)];
      [done|].
    destruct (slice_to (sort_desc (score_key "final_score") out) top_k) as [|r recs] eqn:E;
      [done|].
    exfalso. assert (Hr : r ∈ slice_to (sort_desc (score_key "final_score") out) top_k)
      by (rewrite E; left).
    apply slice_to_elem in Hr. rewrite sort_desc_perm in Hr.
    destruct (personalized_from_candidates w user_id articles ml out _ _ r Hml Hout Hr)
      as (a & pred & q & factors & Ha & ->).
    inversion Hids as [|? ? [v Hv] _]; subst.
    rewrite annotate_frame in Hv by done.
    rewrite recommendation_frame in Hv by done.
    eapply Forall_forall in Hno; [|exact Ha]. by rewrite Hno in Hv. }
  subst recs. split; [by right|]. split; [apply sublist_nil_l|].
  intros Hk Hne (o & outputs & Hnet). exfalso.
  apply try_personalized_inv in Etry as [[-> _]|(ml & out & Hml & Hout & E & _)]; [done|].
  destruct (apply_personalization_inv w user_id ml _ out Hout) as (_ & _ & Hlen & _).
  assert (Hml' : length ml <> 0%nat).
  { destruct (predict_ok w articles (o :: outputs) Hnet) as (preds & Hpred & Hlenp & _).
    unfold NewsRecommendationModel.get_personalized_recommendations in Hml.
    rewrite Hpred in Hml. simpl in Hml. injection Hml as <-.
    rewrite slice_to_all; rewrite sort_desc_length, length_zip_with, Hlenp; [|lia].
    destruct articles; [done|]. simpl. lia. }
  symmetry in E. revert E. apply slice_to_nonempty; [done|].
  intros E. apply (f_equal length) in E. rewrite sort_desc_length in E. simpl in E. lia.
Qed.

Lemma ranking_without_ids_witness :
  let anonymous := [delete "id" Example.chips; delete "id" Example.markets] in
  RecommendationService.get_personalized_recommendations Example.calm "u" anonymous 1
  = [delete "id" Example.chips].
Proof.
  intros anonymous.
  destruct (ranking_without_ids Example.calm "u" anonymous 1) as (_ & _ & H).
  - apply (bool_decide_unpack _). by vm_compute.
  - destruct H as [-> _]; [lia | done | | reflexivity].
    eexists _, _. reflexivity.
Defined.

Section CategoryRanker.

(** The category ranker without a user is the model wrapper on the recent
    articles of the category. *)
Lemma category_without_user (w : world) (category : string) (limit : Z) :
  let recent := SupabaseClient.get_recent_news w (limit * 2) (Some category) in
  let plain :=
    match NewsRecommendationModel.get_personalized_recommendations w recent limit with
    | Ok ml => ml
    | Raise _ => []
    end in
  RecommendationService.get_category_recommendations w category None limit = plain
  /\ RecommendationService.get_category_recommendations w category (Some "") limit = plain
  /\ (length plain <= length recent)%nat
  /\ ((0 <= limit)%Z -> (length plain <= Z.to_nat limit)%nat)
  /\ StronglySorted
       (fun x y => score_key "recommendation_score" y
                   <= score_key "recommendation_score" x) plain
  /\ forall r : article,
       r ∈ plain ->
       exists (a : article) (pred : NewsRecommendationModel.prediction),
         a ∈ recent /\ r = NewsRecommendationModel.recommendation pred a.
Proof.
  intros recent plain. subst plain.
  assert (Hcut : forall news : list article,
            match
              match news with
              | [] => Ok []
              | g :: l =>
                  NewsRecommendationModel.get_personalized_recommendations w (g :: l) limit
              end
            with
            | Ok recs => recs
            | Raise _ => []
            end
            = match
                NewsRecommendationModel.get_personalized_recommendations w news limit
              with
              | Ok ml => ml
              | Raise _ => []
              end).
  { intros [|g l]; [|done].
    destruct (NewsRecommendationModel.get_personalized_recommendations w [] limit)
      as [ml|] eqn:E; [|done].
    apply model_length in E. destruct ml; [done | simpl in E; lia]. }
  unfold RecommendationService.get_category_recommendations,
    RecommendationService.try_category. fold recent. simpl. rewrite !Hcut.
  destruct (NewsRecommendationModel.get_personalized_recommendations w recent limit)
    as [ml|e] eqn:Eml.
  2: { split; [done|]. split; [done|]. split; [simpl; lia|].
       split; [intros; simpl; lia|]. split; [constructor|].
       intros r Hr. by apply elem_of_nil in Hr. }
  pose proof (model_length w recent ml limit Eml) as Hlen.
  pose proof (model_recommendations w recent ml limit Eml) as Hfrom.
  split; [done|]. split; [done|]. split; [done|].
  unfold NewsRecommendationModel.get_personalized_recommendations in Eml.
  bind_ok Eml preds. injection Eml as <-.
  split; [intros Hk; rewrite slice_to_length by done; lia|].
  split; [apply slice_to_sorted, sort_desc_sorted|].
  intros r Hr. eapply Forall_forall in Hfrom; [|exact Hr].
  destruct Hfrom as (pred & a & Ha & ->). by exists a, pred.
Qed.

End CategoryRanker.

(** X16: the category ranker reads the recent articles of the category and
    returns no more of them than it read and, for a limit that is not
    negative, at most [limit]; every result is one of those articles up to
    the five written keys.  Without a user, and with the empty user id
    alike, the results are in descending order of the model's
    recommendation score and each has one; for a user they are what the
    personalized ranker makes of the category's articles. *)
Theorem category_ranker_results
    (w : world) (category : string) (user_id : option string) (limit : Z) :
  let recent := SupabaseClient.get_recent_news w (limit * 2) (Some category) in
  let ranked :=
    RecommendationService.get_category_recommendations w category user_id limit in
  (length ranked <= length recent)%nat
  /\ ((0 <= limit)%Z -> (length ranked <= Z.to_nat limit)%nat)
  /\ (forall r : article,
        r ∈ ranked ->
        exists a : article,
          a ∈ recent
          /\ forall k : string,
               annotation k = false -> k <> "recommendation_score" ->
               k <> "dwell_score" -> k <> "click_probability" ->
               r !! k = a !! k)
  /\ match user_id with
     | Some u =>
         if bool_decide (u = "") then
           ranked = RecommendationService.get_category_recommendations w category None limit
         else
           ranked = RecommendationService.get_personalized_recommendations w u recent limit
     | None =>
         StronglySorted
           (fun x y => score_key "recommendation_score" y
                       <= score_key "recommendation_score" x) ranked
         /\ forall r : article,
              r ∈ ranked -> exists q : Q, r !! "recommendation_score" = Some (VNum q)
     end.
Proof.
  intros recent ranked.
  pose proof (category_without_user w category limit) as Hmodel. simpl in Hmodel.
  fold recent in Hmodel.
  destruct Hmodel as (Hnone & Hempty & Hlen & Hlim & Hsorted & Hfrom).
  assert (Hframe : forall r,
            r ∈ RecommendationService.get_category_recommendations w category None limit ->
            exists a : article,
              a ∈ recent
              /\ forall k : string,
                   annotation k = false -> k <> "recommendation_score" ->
                   k <> "dwell_score" -> k <> "click_probability" ->
                   r !! k = a !! k).
  { intros r Hr. rewrite Hnone in Hr. destruct (Hfrom r Hr) as (a & pred & Ha & ->).
    exists a. split; [done|]. intros k _ H1 H2 H3. by apply recommendation_frame. }
  subst ranked. destruct user_id as [u|].
  - destruct (decide (u = "")) as [->|Hu].
    + rewrite bool_decide_eq_true_2 by done. rewrite Hempty, <- Hnone.
      split; [by rewrite Hnone|]. split; [by rewrite Hnone|]. by split.
    + rewrite bool_decide_eq_false_2 by done.
      assert (E : RecommendationService.get_category_recommendations w category (Some u) limit
                  = RecommendationService.get_personalized_recommendations w u recent limit).
      { unfold RecommendationService.get_category_recommendations,
          RecommendationService.try_category. fold recent.
        rewrite bool_decide_eq_false_2 by done.
        destruct recent as [|a l] eqn:Er; [|done].
        done. }
      rewrite E.
      destruct (personalized_ranker_bounds w u recent limit) as (H1 & H2 & H3).
      by repeat split.
  - split; [by rewrite Hnone|]. split; [by rewrite Hnone|]. split; [done|].
    rewrite Hnone. split; [done|].
    intros r Hr. destruct (Hfrom r Hr) as (a & pred & _ & ->).
    eexists. unfold NewsRecommendationModel.recommendation. by rewrite lookup_insert_eq.
Qed.

Section DeduplicatorAgain.
Import NewsService.
Context (u : text).

Lemma kept_idempotent (todo : list article) :
  forall seen : gset string, kept u seen (kept u seen todo) = kept u seen todo.
Proof.
  induction todo as [|a rest IH]; intros seen; simpl; [done|].
  destruct (bool_decide (normalized_title u a ∈ seen)) eqn:E; [apply IH|].
  simpl. rewrite E. f_equal.
  apply IH.
Qed.

Lemma kept_titled (todo : list article) (seen : gset string) :
  Forall (fun a => titled a = true) todo ->
  Forall (fun a => titled a = true) (kept u seen todo).
Proof.
  intros H. apply Forall_forall. intros a Ha.
  eapply Forall_forall in H; [exact H|].
  eapply elem_of_submseteq; [exact Ha | apply sublist_submseteq, kept_sublist].
Qed.

Lemma kept_all (todo : list article) :
  forall seen : gset string,
    NoDup (normalized_title u <$> todo) ->
    (forall a, a ∈ todo -> normalized_title u a ∉ seen) ->
    kept u seen todo = todo.
Proof.
  induction todo as [|a rest IH]; intros seen Hnodup Hseen; simpl; [done|].
  simpl in Hnodup. apply NoDup_cons in Hnodup as [Ha Hrest].
  rewrite bool_decide_eq_false_2 by (apply Hseen; left).
  f_equal. apply IH; [done|].
  intros b Hb. rewrite elem_of_union, elem_of_singleton. intros [E|Hin].
  - apply Ha. rewrite <- E. apply list_elem_of_fmap. by exists b.
  - by apply (Hseen b); [right|].
Qed.

Lemma remove_loop_is_ok (todo : list article) :
  forall (seen : gset string) (unique : list article),
    Py.is_ok (remove_loop u seen unique todo) = forallb titled todo.
Proof.
  induction todo as [|a rest IH]; intros seen unique; simpl; [done|].
  unfold titled at 1, title_lower.
  destruct (a !! "title") as [[|title| |]|]; simpl; try done.
  case_bool_decide; apply IH.
Qed.

Lemma remove_loop_raises (todo : list article) :
  forall (seen : gset string) (unique : list article) (e : exn),
    remove_loop u seen unique todo = Raise e ->
    exists (i : nat) (a : article),
      todo !! i = Some a /\ title_lower u a = Raise e
      /\ Forall (fun b => titled b = true) (take i todo).
Proof.
  induction todo as [|a rest IH]; intros seen unique e H; simpl in H; [discriminate|].
  destruct (title_lower u a) as [t|e'] eqn:Et; simpl in H.
  - assert (Ha : titled a = true).
    { unfold titled. unfold title_lower in Et.
      by destruct (a !! "title") as [[| | |]|]. }
    assert (exists i b, rest !! i = Some b /\ title_lower u b = Raise e
                        /\ Forall (fun b => titled b = true) (take i rest))
      as (i & b & Hb & Hraise & Hbefore)
      by (destruct (bool_decide (t ∈ seen)); by eapply IH).
    exists (S i), b. repeat split; try done. simpl. by constructor.
  - injection H as ->. exists 0%nat, a. by repeat split.
Qed.

End DeduplicatorAgain.

(** X17: removing duplicates twice is removing them once, and a list
    whose normalized titles (lower-cased, then trimmed, by the interpreter's
    [str.lower] and [str.strip]) are already distinct comes back
    unchanged. *)
Theorem remove_duplicates_idempotent (u : text) (articles : list article) :
  Forall (fun a => titled a = true) articles ->
  exists unique,
    NewsService._remove_duplicates u articles = Ok unique
    /\ NewsService._remove_duplicates u unique = Ok unique
    /\ (NoDup (normalized_title u <$> articles) -> unique = articles)
    /\ (length unique <= length articles)%nat.
Proof.
  intros H. exists (kept u ∅ articles).
  split; [exact (remove_loop_kept u articles ∅ [] H)|]. split; [|split].
  - unfold NewsService._remove_duplicates.
    rewrite remove_loop_kept by (by apply kept_titled). by rewrite kept_idempotent.
  - intros Hnodup. apply kept_all; [done|]. intros a _. apply not_elem_of_empty.
  - apply sublist_length, kept_sublist.
Qed.

Lemma remove_duplicates_idempotent_witness :
  NewsService._remove_duplicates PlainText.methods Example.fetched
  = Ok [Example.chips; Example.markets; Example.wire]
  /\ NewsService._remove_duplicates PlainText.methods
       [Example.chips; Example.markets; Example.wire]
     = Ok [Example.chips; Example.markets; Example.wire].
Proof.
  destruct (remove_duplicates_idempotent PlainText.methods Example.fetched)
    as (unique & H1 & H2 & _).
  - apply (bool_decide_unpack _). by vm_compute.
  - assert (E : unique = [Example.chips; Example.markets; Example.wire]).
    { assert (E' : NewsService._remove_duplicates PlainText.methods Example.fetched
                   = Ok [Example.chips; Example.markets; Example.wire]) by reflexivity.
      rewrite E' in H1. by injection H1. }
    rewrite E in H1, H2. by split.
Defined.

(** X18: the deduplicator raises exactly when some article of its input,
    wherever it stands and duplicate or not, has no title or a title that is
    not a string; the exception is the one of the first such article:
    [KeyError] for a missing title, [AttributeError] for one that is not a
    string. *)
Theorem remove_duplicates_raises (u : text) (articles : list article) :
  Py.is_ok (NewsService._remove_duplicates u articles) = forallb titled articles
  /\ forall e : exn,
       NewsService._remove_duplicates u articles = Raise e ->
       exists (i : nat) (a : article),
         articles !! i = Some a
         /\ Forall (fun b => titled b = true) (take i articles)
         /\ match a !! "title" with
            | None => e = KeyError
            | Some (VStr _) => False
            | Some _ => e = AttributeError
            end.
Proof.
  split; [apply remove_loop_is_ok|].
  intros e H. apply remove_loop_raises in H as (i & a & Ha & Hraise & Hbefore).
  exists i, a. split; [done|]. split; [done|].
  unfold NewsService.title_lower in Hraise.
  destruct (a !! "title") as [[| | |]|]; by try injection Hraise as <-.
Qed.

Section InPlace.
Context (w : world) (cp sp : gmap string Q).

Lemma score_article_writes (i : nat) (acc : list article) (a a' : article) :
  RecommendationService.score_article w cp sp i acc a = Ok a' ->
  (forall k : string, annotation k = false -> a' !! k = a !! k)
  /\ exists (q : Q) (factors : gmap string Q),
       a' !! "final_score" = Some (VNum q)
       /\ a' !! "personalization_factors" = Some (VDict factors).
Proof.
  intros H. apply score_article_inv in H as (base & cb & sb & _ & _ & _ & ->).
  split; [intros k Hk; by apply annotate_frame|].
  eexists _, _. split; [|by rewrite lookup_insert_eq].
  rewrite lookup_insert_ne by done. by rewrite lookup_insert_eq.
Qed.

End InPlace.

(** X19: the scoring loop works in place.  On a store of dicts, with or
    without the same dict twice in its input, it returns the very addresses
    it was given, in order, after those already accepted; it writes to no
    dict outside its input, changes no key of any dict but [final_score] and
    [personalization_factors], and leaves both on every dict of its input. *)
Theorem scoring_loop_in_place
    (w : world) (cp sp : gmap string Q) (todo : list nat) :
  forall (i : nat) (acc : list nat) (h : Store.store) (ls : list nat) (h' : Store.store),
    Store.personalize_loop w cp sp i acc todo h = Ok (ls, h') ->
    ls = acc ++ todo
    /\ (forall l : nat, l ∉ todo -> h' !! l = h !! l)
    /\ (forall (l : nat) (k : string),
          annotation k = false ->
          default ∅ (h' !! l) !! k = default ∅ (h !! l) !! k)
    /\ (forall l : nat,
          l ∈ todo ->
          exists (q : Q) (factors : gmap string Q),
            default ∅ (h' !! l) !! "final_score" = Some (VNum q)
            /\ default ∅ (h' !! l) !! "personalization_factors" = Some (VDict factors)).
Proof.
  induction todo as [|l rest IH]; intros i acc h ls h' H; simpl in H.
  - injection H as <- <-. rewrite app_nil_r. repeat split; try done.
    intros l Hl. by apply elem_of_nil in Hl.
  - destruct (RecommendationService.score_article w cp sp i (Store.deref h acc)
                (default ∅ (h !! l))) as [a'|] eqn:Escore; [|discriminate].
    simpl in H. apply IH in H as (-> & Hframe & Hkeys & Hwritten).
    apply score_article_writes in Escore as [Hsame (q & factors & Hq & Hf)].
    split; [by rewrite <- app_assoc|]. split; [|split].
    + intros l' Hl'. rewrite Hframe by (intros ?; apply Hl'; by right).
      apply lookup_insert_ne. intros ->. apply Hl'. left.
    + intros l' k Hk. rewrite Hkeys by done.
      destruct (decide (l = l')) as [<-|Hne].
      * rewrite lookup_insert_eq. simpl. by apply Hsame.
      * by rewrite lookup_insert_ne.
    + intros l' Hl'. destruct (decide (l' ∈ rest)) as [Hin|Hout]; [by apply Hwritten|].
      apply elem_of_cons in Hl' as [->|Hl']; [|contradiction].
      rewrite Hframe, lookup_insert_eq by done. simpl. by exists q, factors.
Qed.

Lemma scoring_loop_in_place_witness :
  match Store.personalize_loop Example.calm ∅ ∅ 0 [] Example.twice Example.shelf with
  | Ok (ls, h') =>
      ls = Example.twice
      /\ default ∅ (h' !! 0%nat) !! "title" = Example.scored_chips !! "title"
  | Raise _ => False
  end.
Proof.
  destruct (Store.personalize_loop Example.calm ∅ ∅ 0 [] Example.twice Example.shelf)
    as [[ls h']|e] eqn:E.
  - destruct (scoring_loop_in_place _ _ _ _ _ _ _ _ _ E) as (-> & _ & Hkeys & _).
    split; [done|]. by rewrite Hkeys.
  - vm_compute in E. discriminate E.
Defined.

Section TimeProfile.
Import RecommendationService.
Context (w : world).

Lemma hour_range (d : datetime) : (0 <= Py.hour d < 24)%Z.
Proof. unfold Py.hour. apply Z.mod_pos_bound. lia. Qed.

Lemma count_hour_lookup (counts : gmap Z Z) (row : interaction) (h : Z) :
  default 0%Z (count_hour w counts row !! h)
  = (default 0%Z (counts !! h) + if logged_at_hour w h row then 1 else 0)%Z.
Proof.
  unfold count_hour, logged_at_hour, hour_of.
  destruct (timestamp row) as [|s|q|d]; simpl; try lia.
  destruct (fromisoformat w (replace_Z s)) as [t|]; simpl; [|lia].
  destruct (decide (Py.hour t = h)) as [->|Hne].
  - rewrite lookup_insert_eq, bool_decide_eq_true_2 by done. simpl. lia.
  - rewrite lookup_insert_ne, bool_decide_eq_false_2 by congruence. lia.
Qed.

Lemma foldl_count_hour (rows : list interaction) (h : Z) :
  forall counts : gmap Z Z,
    default 0%Z (foldl (count_hour w) counts rows !! h)
    = (default 0%Z (counts !! h)
       + Z.of_nat (length (filter (logged_at_hour w h) rows)))%Z.
Proof.
  induction rows as [|row rows IH]; intros counts; simpl; [lia|].
  rewrite IH, count_hour_lookup, filter_cons.
  destruct (logged_at_hour w h row); simpl; lia.
Qed.

(** Every entry of the histogram is an hour of the day with a count of at
    least one. *)
Lemma foldl_count_hour_entries (rows : list interaction) :
  forall counts : gmap Z Z,
    map_Forall (fun h n => (0 <= h < 24)%Z /\ (1 <= n)%Z) counts ->
    map_Forall (fun h n => (0 <= h < 24)%Z /\ (1 <= n)%Z) (foldl (count_hour w) counts rows).
Proof.
  induction rows as [|row rows IH]; intros counts H; simpl; [done|].
  apply IH. unfold count_hour.
  destruct (timestamp row) as [|s|q|d]; try done.
  destruct (fromisoformat w (replace_Z s)) as [t|]; [|done].
  apply map_Forall_insert_2; [|done].
  split; [apply hour_range|].
  destruct (counts !! Py.hour t) as [n|] eqn:E; simpl; [|lia].
  destruct (H _ _ E). lia.
Qed.

(** An hour of the day is counted once among the hours of the day. *)
Lemma one_hour_of_day (x : Z) :
  (0 <= x < 24)%Z ->
  Py.sum ((fun h => if bool_decide (x = h) then 1 else 0)%Z <$> hours_of_day) = 1%Z.
Proof.
  intros Hx.
  assert (Hcases : Exists (fun h => x = h) hours_of_day).
  { apply Exists_exists. exists x. split; [|done].
    apply elem_of_seqZ. lia. }
  unfold hours_of_day in *.
  repeat (apply Exists_cons in Hcases as [->|Hcases]; [reflexivity|]).
  by apply Exists_nil in Hcases.
Qed.

Lemma sum_fmap_add {A} (f g : A -> Z) (l : list A) :
  Py.sum ((fun x => f x + g x)%Z <$> l) = (Py.sum (f <$> l) + Py.sum (g <$> l))%Z.
Proof.
  induction l as [|x l IH]; [done|].
  rewrite !fmap_cons, !sum_cons, IH. lia.
Qed.

Lemma sum_fmap_zero {A} (l : list A) : Py.sum ((fun _ => 0%Z) <$> l) = 0%Z.
Proof. induction l as [|x l IH]; [done|]. by rewrite fmap_cons, sum_cons, IH. Qed.

Lemma logged_once (row : interaction) :
  Py.sum ((fun h => if logged_at_hour w h row then 1 else 0)%Z <$> hours_of_day)
  = (if bool_decide (is_Some (hour_of w row)) then 1 else 0)%Z.
Proof.
  unfold logged_at_hour. destruct (hour_of w row) as [x|] eqn:E.
  - transitivity (Py.sum ((fun h => if bool_decide (x = h) then 1 else 0)%Z
                          <$> hours_of_day)); [done|].
    rewrite bool_decide_eq_true_2 by eauto. apply one_hour_of_day.
    unfold hour_of in E. destruct (timestamp row) as [|s|q|d]; try discriminate.
    destruct (fromisoformat w (replace_Z s)) as [t|]; [|discriminate].
    injection E as <-. apply hour_range.
  - transitivity (Py.sum ((fun _ => 0%Z) <$> hours_of_day)); [done|].
    rewrite sum_fmap_zero. by rewrite bool_decide_eq_false_2 by (by intros [? ?]).
Qed.

Lemma logged_over_the_day (rows : list interaction) :
  Py.sum ((fun h => Z.of_nat (length (filter (logged_at_hour w h) rows))) <$> hours_of_day)
  = Z.of_nat (length (filter (fun i => bool_decide (is_Some (hour_of w i))) rows)).
Proof.
  induction rows as [|row rows IH]; [apply sum_fmap_zero|].
  rewrite (filter_cons _ row rows).
  erewrite (list_fmap_ext _
    (fun h => ((if logged_at_hour w h row then 1 else 0)
               + Z.of_nat (length (filter (logged_at_hour w h) rows)))%Z)).
  2: { intros _ h _. rewrite filter_cons. destruct (logged_at_hour w h row); simpl; lia. }
  rewrite (sum_fmap_add (fun h => if logged_at_hour w h row then 1 else 0)%Z), IH,
    logged_once.
  destruct (bool_decide (is_Some (hour_of w row))); simpl; lia.
Qed.

End TimeProfile.

(** X20: the hour histogram of the time profile counts, under every hour,
    the interactions whose timestamp is a string that parses and reads that
    hour (an hour without such an interaction has no entry); its keys are
    hours of the day, and over the day the counts add up to the number of
    interactions with a timestamp that parses: the others are skipped. *)
Theorem time_preferences_histogram (w : world) (interactions : list interaction) :
  let hist := RecommendationService._get_user_time_preferences w interactions in
  (forall h : Z,
     let n := Z.of_nat (length (filter (logged_at_hour w h) interactions)) in
     hist !! h = (if (n =? 0)%Z then None else Some n)
     /\ (is_Some (hist !! h) -> (0 <= h < 24)%Z))
  /\ Py.sum ((fun h => default 0%Z (hist !! h)) <$> hours_of_day)
     = Z.of_nat (length (filter (fun i => bool_decide (is_Some (hour_of w i))) interactions)).
Proof.
  intros hist.
  assert (Hentries : map_Forall (fun h n => (0 <= h < 24)%Z /\ (1 <= n)%Z) hist).
  { apply foldl_count_hour_entries. apply map_Forall_empty. }
  assert (Hcount : forall h,
            default 0%Z (hist !! h)
            = Z.of_nat (length (filter (logged_at_hour w h) interactions))).
  { intros h. unfold hist, RecommendationService._get_user_time_preferences.
    rewrite foldl_count_hour, lookup_empty. simpl. lia. }
  split.
  - intros h n. subst n. specialize (Hcount h).
    destruct (hist !! h) as [m|] eqn:E; simpl in Hcount.
    + destruct (Hentries h m E) as [Hh Hm]. split; [|done].
      rewrite <- Hcount. by rewrite (proj2 (Z.eqb_neq m 0)) by lia.
    + rewrite <- Hcount. split; [done|]. by intros [? ?].
  - erewrite list_fmap_ext; [apply logged_over_the_day|]. intros _ h _. apply Hcount.
Qed.

Section Fetching.
Import NewsService.

Lemma extend_with_answered (results : list (result (list article))) :
  forall all : list article,
    extend_with all results = all ++ (results ≫= answered).
Proof.
  unfold extend_with.
  induction results as [|r results IH]; intros all; simpl; [by rewrite app_nil_r|].
  rewrite IH. destruct r as [l|e]; simpl; [by rewrite <- app_assoc | done].
Qed.

Lemma fetch_loop_gathered (f : feeds) (max_per_source : Z) (categories : list string) :
  forall all : list article,
    foldl (fun all category =>
             extend_with all
               [fetch_from_newsapi f category max_per_source;
                fetch_from_gnews f category max_per_source;
                fetch_from_rss f category max_per_source])
          all categories
    = all ++ gathered f categories max_per_source.
Proof.
  induction categories as [|c categories IH]; intros all; [simpl; by rewrite app_nil_r|].
  cbn [foldl]. rewrite IH, extend_with_answered. unfold gathered. simpl.
  by rewrite app_nil_r, <- !app_assoc.
Qed.

End Fetching.

(** X21: [fetch_all_news] deduplicates what the tasks of all categories
    hand back, category after category and, within a category, NewsAPI
    before GNews before the RSS feeds; a task that ended with an exception
    contributes nothing and stops nothing.  On titled articles the result
    keeps, of every normalized title (lower-cased, then trimmed, by the
    interpreter's [str.lower] and [str.strip]), the article that arrived
    first in that order, and no other. *)
Theorem fetch_all_news_first_arrivals
    (u : text) (f : NewsService.feeds) (categories : option (list string))
    (max_per_source : Z) :
  let all :=
    gathered f (default NewsService.default_categories categories) max_per_source in
  Forall (fun a => titled a = true) all ->
  exists unique,
    NewsService.fetch_all_news u f categories max_per_source = Ok unique
    /\ NewsService._remove_duplicates u all = Ok unique
    /\ unique `sublist_of` all
    /\ NoDup (normalized_title u <$> unique)
    /\ forall t : string,
         filter (fun a => normalized_title u a = t) unique
         = take 1 (filter (fun a => normalized_title u a = t) all).
Proof.
  intros all Htitled. exists (kept u ∅ all).
  assert (E : NewsService.fetch_all_news u f categories max_per_source
              = NewsService._remove_duplicates u all).
  { unfold NewsService.fetch_all_news. by rewrite fetch_loop_gathered. }
  assert (Hfirst : forall t, filter (fun a => normalized_title u a = t) (kept u ∅ all)
                             = take 1 (filter (fun a => normalized_title u a = t) all)).
  { intros t. rewrite kept_first.
    by rewrite bool_decide_eq_false_2 by apply not_elem_of_empty. }
  rewrite E. split; [exact (remove_loop_kept u all ∅ [] Htitled)|].
  split; [exact (remove_loop_kept u all ∅ [] Htitled)|].
  split; [apply kept_sublist|]. split; [|exact Hfirst].
  apply at_most_one_NoDup. intros t. rewrite Hfirst, length_take. lia.
Qed.

Lemma fetch_all_news_first_arrivals_witness :
  gathered Example.wires NewsService.default_categories 30
  = [Example.chips; Example.markets; Example.markets_again; Example.wire]
  /\ NewsService.fetch_all_news PlainText.methods Example.wires None 30
     = Ok [Example.chips; Example.markets; Example.wire].
Proof.
  split; [reflexivity|].
  destruct (fetch_all_news_first_arrivals PlainText.methods Example.wires None 30)
    as (unique & -> & Hunique & _).
  - apply (bool_decide_unpack _). by vm_compute.
  - rewrite <- Hunique. reflexivity.
Defined.

(** X22: whether [fetch_all_news] raises is decided by the titles alone:
    it raises exactly when some gathered article has no title or a title
    that is not a string, because the deduplicator runs outside the [try]
    of the fetching loop; failing tasks never make it raise, and without
    categories it returns the empty list. *)
Theorem fetch_all_news_raises
    (u : text) (f : NewsService.feeds) (categories : option (list string))
    (max_per_source : Z) :
  Py.is_ok (NewsService.fetch_all_news u f categories max_per_source)
  = forallb titled
      (gathered f (default NewsService.default_categories categories) max_per_source)
  /\ NewsService.fetch_all_news u f (Some []) max_per_source = Ok []
  /\ ((forall category : string,
         Py.is_ok (NewsService.fetch_from_newsapi f category max_per_source) = false
         /\ Py.is_ok (NewsService.fetch_from_gnews f category max_per_source) = false
         /\ Py.is_ok (NewsService.fetch_from_rss f category max_per_source) = false) ->
      NewsService.fetch_all_news u f categories max_per_source = Ok []).
Proof.
  assert (E : forall cats, NewsService.fetch_all_news u f cats max_per_source
              = NewsService._remove_duplicates u
                  (gathered f (default NewsService.default_categories cats) max_per_source)).
  { intros cats. unfold NewsService.fetch_all_news. by rewrite fetch_loop_gathered. }
  split; [rewrite E; apply remove_loop_is_ok|]. split; [by rewrite E|].
  intros Hdown. rewrite E.
  assert (Hnone : forall cats, gathered f cats max_per_source = []).
  { induction cats as [|c cats IH]; [done|].
    unfold gathered in *. rewrite bind_cons, IH.
    destruct (Hdown c) as (H1 & H2 & H3).
    destruct (NewsService.fetch_from_newsapi f c max_per_source); [discriminate|].
    destruct (NewsService.fetch_from_gnews f c max_per_source); [discriminate|].
    by destruct (NewsService.fetch_from_rss f c max_per_source). }
  by rewrite Hnone.
Qed.

Section Substrings.

Lemma append_cons (c : ascii) (s t : string) : String c s +:+ t = String c (s +:+ t).
Proof. reflexivity. Qed.

Lemma append_assoc (s t u : string) : (s +:+ t) +:+ u = s +:+ (t +:+ u).
Proof. induction s as [|c s IH]; [done|]. rewrite !append_cons. by f_equal. Qed.

Lemma prefix_spec (needle hay : string) :
  String.prefix needle hay = true <-> exists post, hay = needle +:+ post.
Proof.
  revert hay. induction needle as [|c needle IH]; intros hay.
  - split; [intros _; by exists hay | by destruct hay].
  - destruct hay as [|d hay]; simpl.
    + split; [done | by intros [post ?]].
    + destruct (ascii_dec c d) as [->|Hne].
      * rewrite IH. split; intros [post E]; exists post.
        -- by rewrite append_cons, <- E.
        -- rewrite append_cons in E. by injection E.
      * split; [done|]. intros [post E]. rewrite append_cons in E. by injection E.
Qed.

(** [contains] decides [occurs]. *)
Lemma contains_spec (needle hay : string) :
  contains needle hay = true <-> occurs needle hay.
Proof.
  unfold occurs. induction hay as [|c hay IH]; cbn [contains].
  - rewrite orb_false_r, prefix_spec. split.
    + intros [post E]. by exists "", post.
    + intros (pre & post & E). destruct pre as [|? ?]; [by exists post | discriminate E].
  - rewrite orb_true_iff, IH, prefix_spec. split.
    + intros [[post E]|(pre & post & E)].
      * by exists "", post.
      * exists (String c pre), post. by rewrite append_cons, <- E.
    + intros (pre & post & E). destruct pre as [|d pre].
      * left. by exists post.
      * right. rewrite append_cons in E. injection E as _ E. by exists pre, post.
Qed.

Lemma occurs_trans (a b c : string) : occurs a b -> occurs b c -> occurs a c.
Proof.
  intros (pre & post & ->) (pre' & post' & ->).
  exists (pre' +:+ pre), (post +:+ post'). by rewrite !append_assoc.
Qed.

Lemma contains_trans (a b c : string) :
  contains a b = true -> contains b c = true -> contains a c = true.
Proof. rewrite !contains_spec. apply occurs_trans. Qed.

End Substrings.

Section Search.
Import NewsRoutes.
Context (u : text).

(** The three reads of the filter loop succeed exactly on a searchable
    article, and then the test is [hit]. *)
Lemma lowered_text_ok (a : article) (field : string) :
  text_or_missing a field = true -> lowered u a field = Ok (lowered_text u a field).
Proof.
  unfold text_or_missing, lowered, lowered_text, get_or.
  by destruct (a !! field) as [[| | |]|].
Qed.

Lemma lowered_is_ok (a : article) (field : string) :
  Py.is_ok (lowered u a field) = text_or_missing a field.
Proof.
  unfold text_or_missing, lowered, get_or. by destruct (a !! field) as [[| | |]|].
Qed.

Lemma found_in_searchable (q : string) (a : article) :
  Py.is_ok (found_in u q a) = searchable a.
Proof.
  unfold searchable, found_in.
  rewrite <- !lowered_is_ok.
  destruct (lowered u a "title"); [|done]. destruct (lowered u a "content"); [|done].
  by destruct (lowered u a "summary").
Qed.

Lemma found_in_hit (q : string) (a : article) (found : bool) :
  found_in u (lower u q) a = Ok found -> found = hit u q a /\ searchable a = true.
Proof.
  intros H. assert (Hs : searchable a = true) by (by rewrite <- (found_in_searchable (lower u q)), H).
  split; [|done]. unfold searchable in Hs.
  apply andb_true_iff in Hs as [Hs H3]. apply andb_true_iff in Hs as [H1 H2].
  unfold found_in in H. rewrite !lowered_text_ok in H by done. simpl in H.
  by injection H as <-.
Qed.

Lemma search_loop_inv (q : string) (todo : list article) :
  forall acc results : list article,
    search_loop u (lower u q) acc todo = Ok results ->
    results = acc ++ filter (hit u q) todo /\ Forall (fun a => searchable a = true) todo.
Proof.
  induction todo as [|a rest IH]; intros acc results H; simpl in H.
  - injection H as <-. by rewrite app_nil_r.
  - bind_ok H found. apply found_in_hit in Efound as [-> Ha].
    rewrite filter_cons. destruct (hit u q a) eqn:Ehit.
    + apply IH in H as [-> Hrest]. simpl.
      split; [by rewrite <- app_assoc | by constructor].
    + apply IH in H as [-> Hrest]. simpl.
      split; [done | by constructor].
Qed.

Lemma search_loop_raises (q : string) (todo : list article) :
  forall (acc : list article) (e : exn),
    search_loop u q acc todo = Raise e -> exists a, a ∈ todo /\ searchable a = false.
Proof.
  induction todo as [|a rest IH]; intros acc e H; simpl in H; [discriminate|].
  destruct (found_in u q a) as [found|e'] eqn:Efound; simpl in H.
  - assert (exists b, b ∈ rest /\ searchable b = false) as (b & Hb & Hs)
      by (destruct found; by eapply IH).
    exists b. split; [by right | done].
  - exists a. split; [left|]. by rewrite <- (found_in_searchable q), Efound.
Qed.

Lemma hit_matches (q : string) (a : article) : hit u q a = true <-> matches u q a.
Proof.
  unfold hit, matches. rewrite !orb_true_iff, !contains_spec. split.
  - intros [[H|H]|H]; eexists; (split; [|exact H]); set_solver.
  - intros (field & Hf & H).
    repeat (apply elem_of_cons in Hf as [->|Hf]; [tauto|]). by apply elem_of_nil in Hf.
Qed.

Lemma filter_sublist_impl {A} (P Q : A -> bool) (l : list A) :
  (forall x, P x = true -> Q x = true) -> filter P l `sublist_of` filter Q l.
Proof.
  intros H. induction l as [|x l IH]; [done|].
  rewrite !filter_cons. destruct (P x) eqn:EP.
  - rewrite (H x EP). simpl. by apply sublist_skip.
  - simpl. destruct (Q x); simpl; [by apply sublist_cons | done].
Qed.

End Search.

(** X23: the search answers with articles of the recent ones, in their
    order, at most [limit] of them, every one of which has the lower-cased
    query in its lower-cased title, content or summary (lower-cased by the
    interpreter's [str.lower]); it is the first [limit] such articles, so
    with fewer than [limit] results no matching article is left out.  It
    fails with status 500 exactly when some recent article, matching or
    not, has a title, content or summary that is not a string. *)
Theorem search_news_results
    (u : text) (w : world) (q : string) (limit : Z) (category : option string) :
  let recent := SupabaseClient.get_recent_news w (limit * 2) category in
  (forall a : article, hit u q a = true <-> matches u q a)
  /\ match NewsRoutes.search_news u w q limit category with
     | Respond body =>
         Forall (fun a => searchable a = true) recent
         /\ NewsRoutes.search_articles body = slice_to (filter (hit u q) recent) limit
         /\ NewsRoutes.search_articles body `sublist_of` recent
         /\ NewsRoutes.search_total body = length (NewsRoutes.search_articles body)
         /\ ((0 <= limit)%Z ->
             NewsRoutes.search_articles body
             = take (Z.to_nat limit) (filter (hit u q) recent)
             /\ (NewsRoutes.search_total body <= Z.to_nat limit)%nat)
         /\ (forall r : article, r ∈ NewsRoutes.search_articles body -> matches u q r)
         /\ ((Z.of_nat (NewsRoutes.search_total body) < limit)%Z ->
             forall a : article, a ∈ recent -> matches u q a ->
                                 a ∈ NewsRoutes.search_articles body)
     | HTTPException status =>
         status = 500%Z /\ exists a : article, a ∈ recent /\ searchable a = false
     end.
Proof.
  intros recent. split; [apply hit_matches|].
  unfold NewsRoutes.search_news. fold recent.
  destruct (NewsRoutes.search_loop u (lower u q) [] recent) as [results|e] eqn:E.
  2: { split; [done|]. by eapply search_loop_raises. }
  apply search_loop_inv in E as [-> Hall]. simpl.
  split; [done|]. split; [done|].
  split; [etrans; [apply slice_to_sublist | apply sublist_filter]|].
  split; [done|]. split; [|split].
  - intros Hk. rewrite slice_to_nonneg by done. split; [done|]. rewrite length_take. lia.
  - intros r Hr. apply slice_to_elem, list_elem_of_filter in Hr as [Hhit _].
    apply hit_matches. by apply Is_true_true.
  - intros Hfew a Ha Hhit. apply hit_matches in Hhit.
    assert (Hk : (0 <= limit)%Z) by lia.
    rewrite slice_to_nonneg in * by done. rewrite length_take in Hfew.
    rewrite take_ge by lia. apply list_elem_of_filter. split; [by apply Is_true_true | done].
Qed.

(** X24: a query that contains another finds no more than it: when the
    lower-cased [q'] occurs in the lower-cased [q] (both lower-cased by the
    interpreter's [str.lower]), every result for [q] is a match for [q'],
    and unless the answer for [q'] was cut at [limit] the results for [q]
    are among the results for [q'], in the same order. *)
Theorem search_news_narrows
    (u : text) (w : world) (q q' : string) (limit : Z) (category : option string)
    (body body' : NewsRoutes.search_body) :
  occurs (lower u q') (lower u q) ->
  NewsRoutes.search_news u w q limit category = Respond body ->
  NewsRoutes.search_news u w q' limit category = Respond body' ->
  (forall r : article, r ∈ NewsRoutes.search_articles body -> matches u q' r)
  /\ ((Z.of_nat (NewsRoutes.search_total body') < limit)%Z ->
      NewsRoutes.search_articles body `sublist_of` NewsRoutes.search_articles body').
Proof.
  intros Hocc H H'. unfold NewsRoutes.search_news in H, H'.
  set (recent := SupabaseClient.get_recent_news w (limit * 2) category) in *.
  destruct (NewsRoutes.search_loop u (lower u q) [] recent) as [results|] eqn:E;
    [|discriminate].
  destruct (NewsRoutes.search_loop u (lower u q') [] recent) as [results'|] eqn:E';
    [|discriminate].
  apply search_loop_inv in E as [-> _]. apply search_loop_inv in E' as [-> _].
  injection H as <-. injection H' as <-. simpl.
  assert (Himpl : forall x, hit u q x = true -> hit u q' x = true).
  { intros x. unfold hit. rewrite !orb_true_iff.
    apply contains_spec in Hocc.
    intros [[Hx|Hx]|Hx]; [left; left | left; right | right];
      by apply (contains_trans _ (lower u q)). }
  split.
  - intros r Hr. apply slice_to_elem, list_elem_of_filter in Hr as [Hhit _].
    apply hit_matches, Himpl. by apply Is_true_true.
  - intros Hfew. assert (Hk : (0 <= limit)%Z) by lia.
    rewrite (slice_to_nonneg (filter (hit u q') recent)) in * by done.
    rewrite length_take in Hfew. rewrite (take_ge (filter (hit u q') recent)) by lia.
    etrans; [apply slice_to_sublist | by apply filter_sublist_impl].
Qed.

Lemma search_news_narrows_witness :
  exists body body',
    NewsRoutes.search_news PlainText.methods Example.calm "Get FASTER" 5 None = Respond body
    /\ NewsRoutes.search_news PlainText.methods Example.calm "GET" 5 None = Respond body'
    /\ NewsRoutes.search_articles body = [Example.chips]
    /\ NewsRoutes.search_articles body' = [Example.chips; Example.phones]
    /\ NewsRoutes.search_articles body `sublist_of` NewsRoutes.search_articles body'.
Proof.
  eexists _, _. split; [reflexivity|]. split; [reflexivity|].
  split; [reflexivity|]. split; [reflexivity|].
  eapply (search_news_narrows PlainText.methods Example.calm "Get FASTER" "GET" 5 None).
  - exists "", " faster". reflexivity.
  - reflexivity.
  - reflexivity.
  - simpl. lia.
Defined.


Section RouteResults.
Import RecommendationService.

Lemma imap_sorted {A} (key key' : A -> Q) (l : list A) :
  forall f : nat -> A -> A,
    (forall i a, a ∈ l -> key (f i a) = key' a) ->
    StronglySorted (fun x y => key' y <= key' x) l ->
    StronglySorted (fun x y => key y <= key x) (imap f l).
Proof.
  induction l as [|x l IH]; intros f Hkey Hsorted; [constructor|].
  apply StronglySorted_inv in Hsorted as [Hl Hx]. simpl. constructor.
  - apply IH; [|done]. intros i a Ha. apply Hkey. by right.
  - apply Forall_forall. intros y Hy.
    apply elem_of_lookup_imap in Hy as (i & a & -> & Ha).
    apply list_elem_of_lookup_2 in Ha.
    unfold compose. rewrite (Hkey _ a) by (by right). rewrite (Hkey _ x) by left.
    by eapply Forall_forall in Hx.
Qed.

(** The sort key of a result after the trending metadata is written. *)
Lemma trending_metadata_key (i : nat) (a : article) :
  score_key "trending_score" (RecommendationRoutes.trending_metadata i a)
  = match a !! "trending_score" with
    | Some _ => score_key "trending_score" a
    | None => score_key "recommendation_score" a
    end.
Proof.
  unfold RecommendationRoutes.trending_metadata, score_key, get_or.
  rewrite lookup_insert_eq, !lookup_insert_ne by done.
  destruct (a !! "trending_score") as [v|]; simpl; [done|].
  by destruct (a !! "recommendation_score") as [[| | |]|].
Qed.

Lemma trending_results_sorted (w : world) (limit : Z) :
  StronglySorted
    (fun x y => score_key "trending_score" y <= score_key "trending_score" x)
    (get_trending_recommendations w limit).
Proof.
  unfold get_trending_recommendations, try_trending.
  destruct (SupabaseClient.get_recent_news w (limit * 2) None) as [|a0 recent];
    [constructor|].
  destruct (NewsRecommendationModel.get_personalized_recommendations w (a0 :: recent) limit)
    as [ml|]; simpl; [|constructor].
  destruct (trending_loop w 0 ml) as [scored|]; simpl; [|constructor].
  apply slice_to_sorted, sort_desc_sorted.
Qed.

(** Every result of the trending ranker is a recent article with the
    scores of the model and a numeric trending score. *)
Lemma trending_results_from (w : world) (limit : Z) (r : article) :
  r ∈ get_trending_recommendations w limit ->
  exists (a : article) (pred : NewsRecommendationModel.prediction) (q : Q),
    a ∈ SupabaseClient.get_recent_news w (limit * 2) None
    /\ r = <["trending_score" := VNum q]> (NewsRecommendationModel.recommendation pred a).
Proof.
  unfold get_trending_recommendations, try_trending.
  set (recent := SupabaseClient.get_recent_news w (limit * 2) None).
  assert (Hin : r ∈ match
                      (let* ml :=
                         NewsRecommendationModel.get_personalized_recommendations
                           w recent limit in
                       let* scored := trending_loop w 0 ml in
                       Ok (slice_to (sort_desc (score_key "trending_score") scored) limit))
                    with
                    | Ok recs => recs
                    | Raise _ => []
                    end ->
                exists a pred q,
                  a ∈ recent
                  /\ r = <["trending_score" := VNum q]>
                           (NewsRecommendationModel.recommendation pred a)).
  { destruct (NewsRecommendationModel.get_personalized_recommendations w recent limit)
      as [ml|] eqn:Eml; simpl; [|by intros ?%elem_of_nil].
    destruct (trending_loop w 0 ml) as [scored|] eqn:Escored; simpl;
      [|by intros ?%elem_of_nil].
    intros Hr. apply slice_to_elem in Hr. rewrite sort_desc_perm in Hr.
    destruct (trending_loop_elem w ml scored 0 r Escored Hr) as (j & b & Hb & Hr').
    apply trending_article_inv in Hr' as (base & cred & _ & _ & ->).
    pose proof (model_recommendations w recent ml limit Eml) as Hfrom.
    eapply Forall_forall in Hfrom; [|by eapply list_elem_of_lookup_2].
    destruct Hfrom as (pred & a & Ha & ->). by eexists a, pred, _. }
  destruct recent as [|a0 recent'] eqn:E; [by intros ?%elem_of_nil|]. exact Hin.
Qed.

Lemma trending_results_length (w : world) (limit : Z) :
  (0 <= limit)%Z -> (length (get_trending_recommendations w limit) <= Z.to_nat limit)%nat.
Proof.
  intros Hk. unfold get_trending_recommendations, try_trending.
  destruct (SupabaseClient.get_recent_news w (limit * 2) None) as [|a0 recent];
    [simpl; lia|].
  destruct (NewsRecommendationModel.get_personalized_recommendations w (a0 :: recent) limit)
    as [ml|]; simpl; [|lia].
  destruct (trending_loop w 0 ml) as [scored|]; simpl; [|lia].
  rewrite slice_to_length by done. lia.
Qed.

Lemma recent_news_falsy (w : world) (limit : Z) :
  SupabaseClient.get_recent_news w limit (Some "") = SupabaseClient.get_recent_news w limit None.
Proof. reflexivity. Qed.

(** With the network down the personalized ranker hands back the
    candidates, cut. *)
Lemma personalized_fallback (w : world) (user_id : string) (articles : list article) (k : Z) :
  Py.is_ok (network w articles) = false ->
  get_personalized_recommendations w user_id articles k = slice_to articles k.
Proof.
  intros Hdown. unfold get_personalized_recommendations, try_personalized.
  destruct articles as [|a articles]; [by rewrite slice_to_nil|].
  pose proof (model_raises w (a :: articles) (Z.of_nat (length (a :: articles))) Hdown) as H.
  by destruct (NewsRecommendationModel.get_personalized_recommendations w (a :: articles) _).
Qed.

Lemma foldl_extend {A B} (g : B -> list A) (cats : list B) :
  forall acc : list A, foldl (fun all c => all ++ g c) acc cats = acc ++ (cats ≫= g).
Proof.
  induction cats as [|c cats IH]; intros acc; [simpl; by rewrite app_nil_r|].
  cbn [foldl]. by rewrite IH, bind_cons, app_assoc.
Qed.

End RouteResults.

(** X25: the trending route always answers.  Its i-th entry carries the
    position i+1 and is a recent article (of the category, when one is
    given) up to the score keys; there are at most [limit] entries.  When a
    category is given and the stored articles have no trending score of
    their own, and always without a category, every entry has a numeric
    trending score, the entries are in descending order of it, and with a
    category it is the entry's recommendation score. *)
Theorem trending_route_results (w : world) (limit : Z) (category : option string) :
  let recent := SupabaseClient.get_recent_news w (limit * 2) category in
  let by_category :=
    match category with
    | Some c => c <> ""
    | None => False
    end in
  match RecommendationRoutes.get_trending_recommendations w limit category with
  | Respond body =>
      RecommendationRoutes.trending_category body = category
      /\ RecommendationRoutes.trending_total body
         = length (RecommendationRoutes.trending body)
      /\ ((0 <= limit)%Z -> (RecommendationRoutes.trending_total body <= Z.to_nat limit)%nat)
      /\ (forall (i : nat) (r : article),
            RecommendationRoutes.trending body !! i = Some r ->
            r !! "trending_position" = Some (VNum (inject_Z (Z.of_nat i + 1)))
            /\ exists a : article,
                 a ∈ recent
                 /\ forall k : string,
                      k <> "trending_position" -> k <> "trending_score" ->
                      k <> "recommendation_score" -> k <> "dwell_score" ->
                      k <> "click_probability" ->
                      r !! k = a !! k)
      /\ ((by_category -> Forall (fun a => a !! "trending_score" = None) recent) ->
          StronglySorted
            (fun x y => score_key "trending_score" y <= score_key "trending_score" x)
            (RecommendationRoutes.trending body)
          /\ forall r : article,
               r ∈ RecommendationRoutes.trending body ->
               exists q : Q,
                 r !! "trending_score" = Some (VNum q)
                 /\ (by_category -> r !! "recommendation_score" = Some (VNum q)))
  | HTTPException _ => False
  end.
Proof.
  intros recent by_category.
  unfold RecommendationRoutes.get_trending_recommendations. simpl.
  set (ranked :=
         match category with
         | Some c =>
             if bool_decide (c = "")
             then RecommendationService.get_trending_recommendations w limit
             else RecommendationService.get_category_recommendations w c None limit
         | None => RecommendationService.get_trending_recommendations w limit
         end).
  assert (Hcases :
    (~ by_category
     /\ ranked = RecommendationService.get_trending_recommendations w limit
     /\ recent = SupabaseClient.get_recent_news w (limit * 2) None)
    \/ (by_category
        /\ exists c, category = Some c
           /\ ranked = RecommendationService.get_category_recommendations w c None limit)).
  { subst ranked by_category recent.
    destruct category as [c|]; [|left; split; [tauto|]; split; reflexivity].
    destruct (decide (c = "")) as [->|Hc].
    - left. split; [tauto|]. split; reflexivity.
    - right. rewrite bool_decide_eq_false_2 by done. split; [done|]. by exists c. }
  split; [done|]. split; [done|]. rewrite length_imap.
  assert (Hfrom : forall a', a' ∈ ranked ->
            (exists q, (~ by_category -> a' !! "trending_score" = Some (VNum q))
                       /\ (by_category -> a' !! "recommendation_score" = Some (VNum q)))
            /\ exists a, a ∈ recent
                 /\ (by_category -> a' !! "trending_score" = a !! "trending_score")
                 /\ forall k : string,
                      k <> "trending_score" -> k <> "recommendation_score" ->
                      k <> "dwell_score" -> k <> "click_probability" ->
                      a' !! k = a !! k).
  { intros a' Ha'. destruct Hcases as [(Hno & Hranked & Hrecent)|(Hby & c & -> & Hranked)].
    - rewrite Hranked in Ha'. apply trending_results_from in Ha' as (a & pred & q & Ha & ->).
      split; [exists q; split; [intros _; by rewrite lookup_insert_eq | done]|].
      exists a. rewrite Hrecent. split; [done|]. split; [done|].
      intros k H1 H2 H3 H4. rewrite lookup_insert_ne by done.
      by apply recommendation_frame.
    - rewrite Hranked in Ha'.
      destruct (category_without_user w c limit) as (E & _ & _ & _ & _ & Hplain).
      rewrite E in Ha'. apply Hplain in Ha' as (a & pred & Ha & ->).
      split.
      { exists (NewsRecommendationModel.recommendation_score pred).
        split; [done|]. intros _. unfold NewsRecommendationModel.recommendation.
        by rewrite lookup_insert_eq. }
      exists a. split; [done|].
      split; [intros _; by apply recommendation_frame|].
      intros k H1 H2 H3 H4. by apply recommendation_frame. }
  split; [|split].
  - intros Hk. destruct Hcases as [(_ & -> & _)|(_ & c & _ & ->)].
    + by apply trending_results_length.
    + destruct (category_without_user w c limit) as (-> & _ & _ & H & _). by apply H.
  - intros i r Hr. rewrite list_lookup_imap in Hr.
    destruct (ranked !! i) as [a'|] eqn:Ea'; [|discriminate]. simpl in Hr.
    injection Hr as <-. unfold RecommendationRoutes.trending_metadata.
    split; [rewrite lookup_insert_ne by done; by rewrite lookup_insert_eq|].
    destruct (Hfrom a') as (_ & a & Ha & _ & Hframe); [by eapply list_elem_of_lookup_2|].
    exists a. split; [done|]. intros k H1 H2 H3 H4 H5.
    rewrite !lookup_insert_ne by done. by apply Hframe.
  - intros Hfresh.
    assert (Hkey : forall i a', a' ∈ ranked ->
              exists q, RecommendationRoutes.trending_metadata i a' !! "trending_score"
                        = Some (VNum q)
                        /\ (by_category ->
                            RecommendationRoutes.trending_metadata i a'
                              !! "recommendation_score" = Some (VNum q)
                            /\ a' !! "trending_score" = None)
                        /\ (~ by_category -> is_Some (a' !! "trending_score"))).
    { intros i a' Ha'.
      destruct (Hfrom a' Ha') as ((q & Hq1 & Hq2) & a & Ha & Hts & _).
      exists q. unfold RecommendationRoutes.trending_metadata, get_or.
      rewrite lookup_insert_eq, !lookup_insert_ne by done.
      destruct Hcases as [(Hno & _)|(Hby & _)].
      - rewrite Hq1 by done. split; [done|]. split; [done | eauto].
      - assert (Hnone : a' !! "trending_score" = None).
        { rewrite Hts by done. eapply Forall_forall in Hfresh; [exact Hfresh|done|done]. }
        rewrite Hnone, Hq2 by done. simpl. split; [done|]. split; [done|]. by intros []. }
    split.
    + destruct Hcases as [(Hno & Hranked & _)|(Hby & c & _ & Hranked)].
      * apply (imap_sorted _ (score_key "trending_score")).
        -- intros i a' Ha'. rewrite trending_metadata_key.
           destruct (Hkey i a' Ha') as (q & _ & _ & [v Hv]); [done|]. by rewrite Hv.
        -- rewrite Hranked. apply trending_results_sorted.
      * apply (imap_sorted _ (score_key "recommendation_score")).
        -- intros i a' Ha'. rewrite trending_metadata_key.
           destruct (Hkey i a' Ha') as (q & _ & [_ Hnone] & _); [done|]. by rewrite Hnone.
        -- rewrite Hranked.
           by destruct (category_without_user w c limit) as (-> & _ & _ & _ & H & _).
    + intros r Hr. apply elem_of_lookup_imap in Hr as (i & a' & -> & Ha').
      apply list_elem_of_lookup_2 in Ha'.
      destruct (Hkey i a' Ha') as (q & Hq & Hby & _). exists q. split; [done|].
      intros H. by apply Hby.
Qed.

(** X26: the "for you" feed always answers.  Without any recent article
    in the five categories it answers with the message; otherwise its i-th
    entry carries the position i+1 and the type "personalized", and is a
    recent article of one of the five categories up to the keys the ranker
    and the handler write; there are at most [limit] entries.  When the
    network fails on the articles, the entries are the first articles in the
    order technology, business, health, science, general, unscored, and
    still of type "personalized". *)
Theorem for_you_feed_results (w : world) (limit : Z) (user_id : string) :
  let all :=
    RecommendationRoutes.feed_categories
      ≫= fun category => SupabaseClient.get_recent_news w 30 (Some category) in
  match RecommendationRoutes.get_for_you_feed w limit user_id with
  | Respond RecommendationRoutes.NoArticles => all = []
  | Respond (RecommendationRoutes.Feed feed total u) =>
      all <> [] /\ u = user_id /\ total = length feed
      /\ (total <= length all)%nat
      /\ ((0 <= limit)%Z -> (total <= Z.to_nat limit)%nat)
      /\ (forall (i : nat) (r : article),
            feed !! i = Some r ->
            r !! "feed_position" = Some (VNum (inject_Z (Z.of_nat i + 1)))
            /\ r !! "feed_type" = Some (VStr "personalized")
            /\ exists (a : article) (category : string),
                 category ∈ RecommendationRoutes.feed_categories
                 /\ a ∈ SupabaseClient.get_recent_news w 30 (Some category)
                 /\ forall k : string,
                      k <> "feed_position" -> k <> "feed_type" ->
                      annotation k = false -> k <> "recommendation_score" ->
                      k <> "dwell_score" -> k <> "click_probability" ->
                      r !! k = a !! k)
      /\ (Py.is_ok (network w all) = false ->
          forall (i : nat) (r : article),
            feed !! i = Some r ->
            exists a : article,
              all !! i = Some a
              /\ forall k : string,
                   k <> "feed_position" -> k <> "feed_type" -> r !! k = a !! k)
  | HTTPException _ => False
  end.
Proof.
  intros all. unfold RecommendationRoutes.get_for_you_feed.
  rewrite (foldl_extend (fun category => SupabaseClient.get_recent_news w 30 (Some category))).
  rewrite app_nil_l. fold all.
  destruct all as [|a0 all'] eqn:Eall; [done|]. rewrite <- Eall.
  assert (Hne : all <> []) by (by rewrite Eall). clear Eall a0 all'.
  set (ranked :=
         RecommendationService.get_personalized_recommendations w user_id all limit).
  destruct (personalized_ranker_bounds w user_id all limit) as (Hlen & Hk & Hfrom).
  fold ranked in Hlen, Hk, Hfrom.
  split; [done|]. split; [done|]. split; [done|]. rewrite length_imap.
  split; [done|]. split; [done|]. split.
  - intros i r Hr. rewrite list_lookup_imap in Hr.
    destruct (ranked !! i) as [a'|] eqn:Ea'; [|discriminate]. simpl in Hr.
    injection Hr as <-. unfold RecommendationRoutes.feed_metadata.
    split; [rewrite lookup_insert_ne by done; by rewrite lookup_insert_eq|].
    split; [by rewrite lookup_insert_eq|].
    destruct (Hfrom a') as (a & Ha & Hframe); [by eapply list_elem_of_lookup_2|].
    apply list_elem_of_bind in Ha as (category & Ha & Hc).
    exists a, category. split; [done|]. split; [done|].
    intros k H1 H2 H3 H4 H5 H6. rewrite !lookup_insert_ne by done. by apply Hframe.
  - intros Hdown i r Hr. rewrite list_lookup_imap in Hr.
    destruct (ranked !! i) as [a'|] eqn:Ea'; [|discriminate]. simpl in Hr.
    injection Hr as <-. exists a'. split.
    + unfold ranked in Ea'. rewrite personalized_fallback in Ea' by done.
      unfold slice_to in Ea'.
      destruct (0 <=? limit)%Z; by apply lookup_take_Some in Ea' as [? _].
    + intros k H1 H2. unfold RecommendationRoutes.feed_metadata.
      by rewrite !lookup_insert_ne.
Qed.

